(** * A shallow embedding of the websocket package

    The development follows the Go sources: [util.go] (mask and key
    helpers), [websocket.go] (the opening handshake) and the connection
    file (frame writer, frame reader, control frames, close codes).

    Conventions.
    - A Go [byte] is a [Z]; every place where the source converts to
      [byte] is written [to_byte] (reduction modulo 256).  A [[]byte] is a
      [list Z].
    - A Go [int] / [int64] is a [Z]; the only place where the 64-bit
      wrap-around can be observed (the 64-bit length field) is written
      [to_int64].
    - A Go [string] is a Rocq [string]; [bytes_of_string] is the
      conversion [[]byte(s)] and [string_of_bytes] is [string(b)].
    - The standard-library pieces the package calls ([bufio], [crypto/sha1],
      [encoding/base64], [encoding/binary], [strconv]) are modelled from
      their documented behaviour, each in a module of its own. *)

From Stdlib Require Import ZArith List String Ascii Bool Lia.
From stdpp Require Import base gmap strings list.

Import ListNotations.
Local Open Scope Z_scope.

(** ** Bytes and strings *)

Definition to_byte (z : Z) : Z := z mod 256.

Definition bytes_of_string (s : string) : list Z :=
  map (fun a => Z.of_N (N_of_ascii a)) (list_ascii_of_string s).

Definition string_of_bytes (b : list Z) : string :=
  string_of_list_ascii (map (fun z => ascii_of_N (Z.to_N (to_byte z))) b).

(** ** encoding/binary, big endian *)

Module BigEndian.

Definition PutUint16 (v : Z) : list Z :=
  [to_byte (v / 256); to_byte v].

Definition Uint16 (p : list Z) : Z :=
  nth 0 p 0 * 256 + nth 1 p 0.

Fixpoint be_bytes (n : nat) (v : Z) : list Z :=
  match n with
  | O => []
  | S n' => be_bytes n' (v / 256) ++ [to_byte v]
  end.

Definition PutUint32 (v : Z) : list Z := be_bytes 4 v.
Definition PutUint64 (v : Z) : list Z := be_bytes 8 v.

Definition be_value (p : list Z) : Z :=
  fold_left (fun acc b => acc * 256 + b) p 0.

Definition Uint32 (p : list Z) : Z := be_value (firstn 4 p).
Definition Uint64 (p : list Z) : Z := be_value (firstn 8 p).

End BigEndian.

(** [int64(x)] for an unsigned 64-bit [x]. *)
Definition to_int64 (v : Z) : Z :=
  let w := v mod 2 ^ 64 in
  if 2 ^ 63 <=? w then w - 2 ^ 64 else w.

(** ** strconv *)

Module strconv.

Definition digit (d : Z) : ascii := ascii_of_N (Z.to_N (48 + d)).

Fixpoint digits (fuel : nat) (n : Z) (acc : string) : string :=
  match fuel with
  | O => acc
  | S f =>
      let acc' := String (digit (n mod 10)) acc in
      if n / 10 =? 0 then acc' else digits f (n / 10) acc'
  end.

(** Decimal rendering of an integer, with a leading minus sign when it
    is negative. *)
Definition Itoa (n : Z) : string :=
  if n <? 0
  then String "-"%char (digits (S (Z.to_nat (Z.log2 (- n)))) (- n) EmptyString)
  else digits (S (Z.to_nat (Z.log2 n))) n EmptyString.

End strconv.

(** ** crypto/sha1

    SHA-1 as in FIPS 180-4, on 32-bit words kept in [Z]. *)

Module sha1.

Definition w32 (x : Z) : Z := x mod 2 ^ 32.

Definition rotl (n : Z) (x : Z) : Z :=
  w32 (Z.lor (Z.shiftl x n) (Z.shiftr x (32 - n))).

Definition add32 (x y : Z) : Z := w32 (x + y).

Definition lnot32 (x : Z) : Z := Z.lxor x (2 ^ 32 - 1).

Definition pad (msg : list Z) : list Z :=
  let len := Z.of_nat (length msg) in
  let zeros := Z.to_nat ((55 - len) mod 64) in
  msg ++ [128] ++ repeat 0 zeros ++ BigEndian.PutUint64 (8 * len).

Fixpoint words (n : nat) (block : list Z) : list Z :=
  match n with
  | O => []
  | S n' => BigEndian.Uint32 block :: words n' (skipn 4 block)
  end.

(** The message schedule, most recent word first. *)
Fixpoint extend (n : nat) (rev_w : list Z) : list Z :=
  match n with
  | O => rev_w
  | S n' =>
      let x := Z.lxor (Z.lxor (nth 2 rev_w 0) (nth 7 rev_w 0))
                      (Z.lxor (nth 13 rev_w 0) (nth 15 rev_w 0)) in
      extend n' (rotl 1 x :: rev_w)
  end.

Definition schedule (block : list Z) : list Z :=
  rev (extend 64 (rev (words 16 block))).

Definition state : Type := Z * Z * Z * Z * Z.

Definition init : state :=
  (0x67452301, 0xEFCDAB89, 0x98BADCFE, 0x10325476, 0xC3D2E1F0).

Definition round (t : Z) (w : Z) (s : state) : state :=
  let '(a, b, c, d, e) := s in
  let '(f, k) :=
    if t <? 20 then
      (Z.lor (Z.land b c) (Z.land (lnot32 b) d), 0x5A827999)
    else if t <? 40 then
      (Z.lxor (Z.lxor b c) d, 0x6ED9EBA1)
    else if t <? 60 then
      (Z.lor (Z.lor (Z.land b c) (Z.land b d)) (Z.land c d), 0x8F1BBCDC)
    else
      (Z.lxor (Z.lxor b c) d, 0xCA62C1D6) in
  let tmp := add32 (add32 (add32 (add32 (rotl 5 a) f) e) k) w in
  (tmp, a, rotl 30 b, c, d).

Fixpoint rounds (t : Z) (ws : list Z) (s : state) : state :=
  match ws with
  | [] => s
  | w :: ws' => rounds (t + 1) ws' (round t w s)
  end.

Definition compress (s : state) (block : list Z) : state :=
  let '(a, b, c, d, e) := s in
  let '(a', b', c', d', e') := rounds 0 (schedule block) s in
  (add32 a a', add32 b b', add32 c c', add32 d d', add32 e e').

Fixpoint blocks (n : nat) (s : state) (data : list Z) : state :=
  match n with
  | O => s
  | S n' => blocks n' (compress s (firstn 64 data)) (skipn 64 data)
  end.

(** The 20-byte digest of a message. *)
Definition Sum (msg : list Z) : list Z :=
  let data := pad msg in
  let '(a, b, c, d, e) := blocks (length data / 64)%nat init data in
  BigEndian.PutUint32 a ++ BigEndian.PutUint32 b ++ BigEndian.PutUint32 c
    ++ BigEndian.PutUint32 d ++ BigEndian.PutUint32 e.

(** The streaming interface used by the package: [New], [Write], [Sum(nil)].
    The hash object accumulates what was written to it. *)
Definition Hash : Type := list Z.
Definition New : Hash := [].
Definition Write (h : Hash) (p : list Z) : Hash := h ++ p.
Definition SumNil (h : Hash) : list Z := Sum h.

End sha1.

(** ** encoding/base64, the standard alphabet with padding *)

Module base64.

Definition alphabet : string :=
  "ABCDEFGHIJKLMNOPQRSTUVWXYZabcdefghijklmnopqrstuvwxyz0123456789+/".

Definition enc (i : Z) : ascii :=
  match String.get (Z.to_nat i) alphabet with
  | Some a => a
  | None => "="%char
  end.

Fixpoint encode (src : list Z) : string :=
  match src with
  | a :: b :: c :: rest =>
      let v := (a * 256 + b) * 256 + c in
      String (enc (v / 262144 mod 64))
        (String (enc (v / 4096 mod 64))
           (String (enc (v / 64 mod 64))
              (String (enc (v mod 64)) (encode rest))))
  | [a; b] =>
      let v := (a * 256 + b) * 256 in
      String (enc (v / 262144 mod 64))
        (String (enc (v / 4096 mod 64))
           (String (enc (v / 64 mod 64)) "="))
  | [a] =>
      let v := a * 65536 in
      String (enc (v / 262144 mod 64))
        (String (enc (v / 4096 mod 64)) "==")
  | [] => EmptyString
  end.

Definition EncodeToString (src : list Z) : string := encode src.

End base64.

(** ** util.go *)

Definition Mask : Type := Z * Z * Z * Z.

Definition keyGUID : list Z :=
  bytes_of_string "258EAFA5-E914-47DA-95CA-C5AB0DC85B11".

Definition computeAcceptKey (challengeKey : string) : string :=
  let h := sha1.New in
  let h := sha1.Write h (bytes_of_string challengeKey) in
  let h := sha1.Write h keyGUID in
  base64.EncodeToString (sha1.SumNil h).


(** ** Constants of the connection file *)

Definition finBit : Z := 128.
Definition rsv1Bit : Z := 64.
Definition rsv2Bit : Z := 32.
Definition rsv3Bit : Z := 16.
Definition maskBit : Z := 128.

Definition maxHeaderSize : Z := 2 + 8 + 4.
Definition maxPayloadDate : Z := 125.
Definition defaultReaderSize : Z := 1024.
Definition defaultWriterSize : Z := 1024.
Definition noFrame : Z := -1.

Definition ContMessage : Z := 0.
Definition TextMessage : Z := 1.
Definition BinaryMessage : Z := 2.
Definition CloseMessage : Z := 8.
Definition PingMessage : Z := 9.
Definition PongMessage : Z := 10.

Definition CloseNormalClosure : Z := 1000.
Definition CloseGoingAway : Z := 1001.
Definition CloseProtocolError : Z := 1002.
Definition CloseUnsupportedData : Z := 1003.
Definition CloseNoStatusReceived : Z := 1005.
Definition CloseAbnormalClosure : Z := 1006.
Definition CloseInvalidFramePayloadData : Z := 1007.
Definition ClosePolicyViolation : Z := 1008.
Definition CloseMessageTooBig : Z := 1009.
Definition CloseMandatoryExtension : Z := 1010.
Definition CloseInternalServerErr : Z := 1011.
Definition CloseServiceRestart : Z := 1012.
Definition CloseTryAgainLater : Z := 1013.
Definition CloseTLSHandshake : Z := 1015.

(** ** Close codes and close errors *)

Definition validReceivedCloseCodes : gmap Z bool :=
  <[CloseNormalClosure := true]>
  (<[CloseGoingAway := true]>
  (<[CloseProtocolError := true]>
  (<[CloseUnsupportedData := true]>
  (<[CloseNoStatusReceived := false]>
  (<[CloseAbnormalClosure := false]>
  (<[CloseInvalidFramePayloadData := true]>
  (<[ClosePolicyViolation := true]>
  (<[CloseMessageTooBig := true]>
  (<[CloseMandatoryExtension := true]>
  (<[CloseInternalServerErr := true]>
  (<[CloseServiceRestart := true]>
  (<[CloseTryAgainLater := true]>
  (<[CloseTLSHandshake := false]> ∅))))))))))))).

(** Indexing a Go map with an absent key yields the zero value. *)
Definition isValidReceivedCloseCode (code : Z) : bool :=
  default false (validReceivedCloseCodes !! code)
  || ((3000 <=? code) && (code <=? 4999)).

Record CloseError : Type := mkCloseError { Code : Z; Text : string }.

Definition CloseError_Error (e : CloseError) : string :=
  let s := "websocket: close " in
  let s := s +:+ strconv.Itoa (Code e) in
  let s :=
    if Code e =? CloseNormalClosure then s +:+ " (normal)"
    else if Code e =? CloseGoingAway then s +:+ " (going away)"
    else if Code e =? CloseProtocolError then s +:+ " (protocol error)"
    else if Code e =? CloseUnsupportedData then s +:+ " (unsupported data)"
    else if Code e =? CloseNoStatusReceived then s +:+ " (no status)"
    else if Code e =? CloseAbnormalClosure then s +:+ " (abnormal closure)"
    else if Code e =? CloseInvalidFramePayloadData then s +:+ " (invalid payload data)"
    else if Code e =? ClosePolicyViolation then s +:+ " (policy violation)"
    else if Code e =? CloseMessageTooBig then s +:+ " (message too big)"
    else if Code e =? CloseMandatoryExtension then s +:+ " (manatory extension missing)"
    else if Code e =? CloseInternalServerErr then s +:+ " (internal server error)"
    else if Code e =? CloseTLSHandshake then s +:+ " (TLS handshake error)"
    else s in
  let s :=
    if String.eqb (Text e) "" then s else (s +:+ ": ") +:+ Text e in
  s.

(** Go [error] values that the package produces. *)
Inductive error : Type :=
| CloseErr (e : CloseError)      (* a [*CloseError] *)
| ErrorString (s : string)       (* [errors.New(s)] *)
| ErrEntropy.                    (* the system random source failed *)

Definition error_Error (e : error) : string :=
  match e with
  | CloseErr ce => CloseError_Error ce
  | ErrorString s => s
  | ErrEntropy => "entropy source failed"
  end.

Definition errUnexpectedEOF : error :=
  CloseErr {| Code := CloseAbnormalClosure; Text := "unexpected EOF" |}.
Definition errInvalidControlFrame : error :=
  ErrorString "websocket: invalid control frame".
Definition errBadMessageCode : error :=
  ErrorString "websocket: bad message code".

(** ** bufio

    The buffered reader is modelled over the bytes that the peer sends
    before it closes its side: [Peek] never blocks, it either finds the
    bytes or meets the end of the stream.  The buffered writer keeps the
    bytes not yet flushed; writes to the socket are taken to succeed. *)

Module bufio.

Inductive peek_error : Type :=
| PeekNil | PeekEOF | ErrBufferFull | ErrNegativeCount.

(** [Peek n] on a reader of buffer size [size] whose remaining input is
    [s].  Asking for more than the buffer holds returns what the buffer
    can hold together with [ErrBufferFull]; a short read of a request
    that fits the buffer reports the read error, here end of file. *)
Definition Peek (size : Z) (s : list Z) (n : Z) : list Z * peek_error :=
  if n <? 0 then ([], ErrNegativeCount)
  else if size <? n then (firstn (Z.to_nat size) s, ErrBufferFull)
  else if Z.of_nat (length s) <? n then (s, PeekEOF)
  else (firstn (Z.to_nat n) s, PeekNil).

Definition Discard (s : list Z) (n : nat) : list Z := skipn n s.

Record Writer : Type := mkWriter { size : Z; buf : list Z }.

Definition NewWriterSize (sz : Z) : Writer :=
  {| size := if sz <=? 0 then 4096 else sz; buf := [] |}.

Definition Available (b : Writer) : Z := size b - Z.of_nat (length (buf b)).
Definition Buffered (b : Writer) : Z := Z.of_nat (length (buf b)).

(** Every operation takes the writer and the bytes already handed to
    the underlying socket, and returns both. *)
Definition Flush (b : Writer) (out : list Z) : Writer * list Z :=
  ({| size := size b; buf := [] |}, out ++ buf b).

Definition WriteByte (c : Z) (b : Writer) (out : list Z) : Writer * list Z :=
  let '(b, out) := if Available b <=? 0 then Flush b out else (b, out) in
  ({| size := size b; buf := buf b ++ [c] |}, out).

(** [Write]: while the data does not fit, either hand it to the socket
    directly (empty buffer) or fill the buffer and flush; then buffer
    the remainder.  The loop of the library runs at most twice, which
    is written out here. *)
Definition Write (p : list Z) (b : Writer) (out : list Z) : Writer * list Z :=
  if Available b <? Z.of_nat (length p) then
    if Buffered b =? 0 then (b, out ++ p)
    else
      let n := Z.to_nat (Available b) in
      let out := out ++ buf b ++ firstn n p in
      let p := skipn n p in
      if size b <? Z.of_nat (length p)
      then ({| size := size b; buf := [] |}, out ++ p)
      else ({| size := size b; buf := p |}, out)
  else ({| size := size b; buf := buf b ++ p |}, out).

End bufio.

(** ** The connection *)

Record Conn : Type := mkConn {
  isServer : bool;
  (** input of the buffered reader that is not consumed yet; the peer's
      stream ends after it *)
  br : list Z;
  (** bytes written to the socket so far *)
  sent : list Z;
  (** whether [c.writer] is non-nil *)
  writer : bool;
  (** whether the socket was closed *)
  closed : bool;
  (** the system random source: the outcome of the n-th 4-byte draw *)
  entropy : nat -> option Mask;
  drawn : nat
}.

Definition set_br (c : Conn) (s : list Z) : Conn :=
  mkConn (isServer c) s (sent c) (writer c) (closed c) (entropy c) (drawn c).
Definition set_sent (c : Conn) (s : list Z) : Conn :=
  mkConn (isServer c) (br c) s (writer c) (closed c) (entropy c) (drawn c).
Definition set_writer (c : Conn) (w : bool) : Conn :=
  mkConn (isServer c) (br c) (sent c) w (closed c) (entropy c) (drawn c).
Definition set_closed (c : Conn) (b : bool) : Conn :=
  mkConn (isServer c) (br c) (sent c) (writer c) b (entropy c) (drawn c).
Definition set_drawn (c : Conn) (n : nat) : Conn :=
  mkConn (isServer c) (br c) (sent c) (writer c) (closed c) (entropy c) n.

Definition Conn_Close (c : Conn) : Conn := set_closed c true.

(** [generateMask] of util.go: four bytes from the random source. *)
Definition generateMask (c : Conn) : Conn * (Mask + error) :=
  match entropy c (drawn c) with
  | Some m => (set_drawn c (S (drawn c)), inl m)
  | None => (set_drawn c (S (drawn c)), inr ErrEntropy)
  end.

Definition mask_bytes (m : Mask) : list Z :=
  let '(m0, m1, m2, m3) := m in [m0; m1; m2; m3].

Definition mask_at (m : Mask) (i : nat) : Z :=
  nth (i mod 4)%nat (mask_bytes m) 0.

(** [for i := range payload { payload[i] ^= mask[i%4] }], from index [i]. *)
Fixpoint xor_from (i : nat) (m : Mask) (payload : list Z) : list Z :=
  match payload with
  | [] => []
  | b :: rest => Z.lxor b (mask_at m i) :: xor_from (S i) m rest
  end.

Definition xor_mask (m : Mask) (payload : list Z) : list Z :=
  xor_from 0 m payload.

Definition len {A} (l : list A) : Z := Z.of_nat (length l).

Definition isControl (mt : Z) : bool :=
  (CloseMessage <=? mt) && (mt <=? PongMessage).

(** ** Write methods *)

Record msgWriter : Type := mkMsgWriter {
  bw : bufio.Writer;
  fin : bool;
  mt : Z;
  ft : Z
}.

Definition set_bw (w : msgWriter) (b : bufio.Writer) : msgWriter :=
  mkMsgWriter b (fin w) (mt w) (ft w).
Definition set_fin (w : msgWriter) (f : bool) : msgWriter :=
  mkMsgWriter (bw w) f (mt w) (ft w).
Definition set_ft (w : msgWriter) (t : Z) : msgWriter :=
  mkMsgWriter (bw w) (fin w) (mt w) t.

(** The methods of [msgWriter] reach the connection through the pointer
    [w.c]; here the connection is passed along with the writer. *)
Definition ncopy (w : msgWriter) (c : Conn) (max : Z) : msgWriter * Conn * Z :=
  let available := bufio.Available (bw w) - maxHeaderSize in
  let '(w, c, available) :=
    if available <=? 0 then
      let '(b, out) := bufio.Flush (bw w) (sent c) in
      (set_bw w b, set_sent c out, bufio.Available b - maxHeaderSize)
    else (w, c, available) in
  let available :=
    if available <? 126 - 8 then available + 8
    else if available <? 65536 - 6 then available + 6
    else available in
  if max <=? available then (set_fin w true, c, max) else (w, c, available).

Definition bw_WriteByte (b : Z) (w : msgWriter) (c : Conn) : msgWriter * Conn :=
  let '(b', out) := bufio.WriteByte b (bw w) (sent c) in
  (set_bw w b', set_sent c out).

Definition bw_Write (p : list Z) (w : msgWriter) (c : Conn) : msgWriter * Conn :=
  let '(b', out) := bufio.Write p (bw w) (sent c) in
  (set_bw w b', set_sent c out).

(** [writeFrame].  The source masks [payload] in place; the slice is a
    window of the caller's buffer, which is not observed again by the
    package, so only the bytes written are kept here. *)
Definition writeFrame (w : msgWriter) (c : Conn) (payload : list Z)
  : msgWriter * Conn * option error :=
  let b0 := to_byte (ft w) in
  let b0 := if fin w then Z.lor b0 finBit else b0 in
  let '(w, c) := bw_WriteByte b0 w c in
  let b1 := 0 in
  let b1 := if negb (isServer c) then Z.lor b1 maskBit else b1 in
  let length := len payload in
  let '(w, c) :=
    if 65536 <=? length then
      let b1 := Z.lor b1 (to_byte 127) in
      let '(w, c) := bw_WriteByte b1 w c in
      bw_Write (BigEndian.PutUint64 (length mod 2 ^ 64)) w c
    else if 125 <? length then
      let b1 := Z.lor b1 (to_byte 126) in
      let '(w, c) := bw_WriteByte b1 w c in
      bw_Write (BigEndian.PutUint16 (length mod 2 ^ 16)) w c
    else
      let b1 := Z.lor b1 (to_byte length) in
      bw_WriteByte b1 w c in
  if negb (isServer c) then
    match generateMask c with
    | (c, inr err) => (w, c, Some err)
    | (c, inl mask) =>
        let '(w, c) := bw_Write (mask_bytes mask) w c in
        let payload := xor_mask mask payload in
        let '(w, c) := bw_Write payload w c in
        (w, c, None)
    end
  else
    let '(w, c) := bw_Write payload w c in
    (w, c, None).

(** The loop of [msgWriter.Write]; [None] when the fuel runs out. *)
Fixpoint Write_loop (fuel : nat) (w : msgWriter) (c : Conn) (p : list Z)
  : option (msgWriter * Conn * option error) :=
  match fuel with
  | O => None
  | S fuel' =>
      let '(w, c, n) := ncopy w c (len p) in
      let payload := firstn (Z.to_nat n) p in
      match writeFrame w c payload with
      | (w, c, Some err) => Some (w, c, Some err)
      | (w, c, None) =>
          let p := skipn (Z.to_nat n) p in
          let w := set_ft w ContMessage in
          if len p =? 0 then Some (w, c, None)
          else Write_loop fuel' w c p
      end
  end.

Definition msgWriter_Write (w : msgWriter) (c : Conn) (p : list Z)
  : option (msgWriter * Conn * option error) :=
  let w := set_ft w (mt w) in
  match Write_loop (S (length p)) w c p with
  | None => None
  | Some (w, c, Some err) => Some (w, c, Some err)
  | Some (w, c, None) => Some (set_fin w false, c, None)
  end.

Definition msgWriter_Close (w : msgWriter) (c : Conn) : msgWriter * Conn :=
  let c := set_writer c false in
  let '(b, out) := bufio.Flush (bw w) (sent c) in
  (set_bw w b, set_sent c out).

Definition NextWriter (c : Conn) (mt : Z) : Conn * (msgWriter + error) :=
  if writer c then (c, inr (ErrorString "unclosed previous writer"))
  else
    let b := bufio.NewWriterSize (maxHeaderSize + defaultWriterSize) in
    let w := {| bw := b; fin := false; mt := mt; ft := 0 |} in
    (set_writer c true, inl w).

Definition WriteControl (c : Conn) (mt : Z) (msg : list Z) : Conn * option error :=
  if negb (isControl mt) then (c, Some errBadMessageCode)
  else
    let b0 := Z.lor finBit (to_byte mt) in
    let b1 := to_byte (len msg) in
    let b1 := if negb (isServer c) then Z.lor b1 maskBit else b1 in
    let buf := [b0; b1] in
    if negb (isServer c) then
      match generateMask c with
      | (c, inr err) => (c, Some err)
      | (c, inl mask) =>
          let buf := buf ++ mask_bytes mask in
          let msg := xor_mask mask msg in
          let buf := buf ++ msg in
          (set_sent c (sent c ++ buf), None)
      end
    else
      let buf := buf ++ msg in
      (set_sent c (sent c ++ buf), None).

Definition WriteMessage (c : Conn) (mt : Z) (msg : list Z)
  : option (Conn * option error) :=
  match NextWriter c mt with
  | (c, inr err) => Some (c, Some err)
  | (c, inl w) =>
      match msgWriter_Write w c msg with
      | None => None
      | Some (w, c, Some err) => Some (c, Some err)
      | Some (w, c, None) =>
          let '(w, c) := msgWriter_Close w c in
          Some (c, None)
      end
  end.

(** ** Control frames and the close protocol *)

Definition FormatCloseMessage (code : Z) (msg : string) : list Z :=
  if code =? CloseNoStatusReceived then []
  else BigEndian.PutUint16 (code mod 2 ^ 16) ++ bytes_of_string msg.

(** The result of [WriteMessage] is dropped by the source. *)
Definition handleProtocolError (c : Conn) (message : string)
  : option (Conn * error) :=
  let data := FormatCloseMessage CloseProtocolError message in
  match WriteMessage c CloseMessage data with
  | None => None
  | Some (c, _) => Some (c, ErrorString ("websocket: " +:+ message))
  end.

Definition handleClose (c : Conn) (code : Z) (text : string)
  : Conn * option error :=
  let '(c, _) := WriteControl c CloseMessage (FormatCloseMessage code text) in
  (c, None).

Definition handlePing (c : Conn) (payload : list Z) : Conn * option error :=
  let '(c, _) := WriteControl c PongMessage payload in
  (c, None).

Definition handlePong (c : Conn) : Conn * option error := (c, None).

Definition handleControl (c : Conn) (mt : Z) (payload : list Z)
  : option (Conn * option error) :=
  if mt =? CloseMessage then
    let code := CloseNoStatusReceived in
    let text := "" in
    if 2 <=? len payload then
      let code := BigEndian.Uint16 payload in
      if negb (isValidReceivedCloseCode code) then
        match handleProtocolError c "bad close code" with
        | None => None
        | Some (c, err) => Some (c, Some err)
        end
      else
        let text := string_of_bytes (skipn 2 payload) in
        let '(c, _) := handleClose c code text in
        Some (c, Some (CloseErr {| Code := code; Text := text |}))
    else
      let '(c, _) := handleClose c code text in
      Some (c, Some (CloseErr {| Code := code; Text := text |}))
  else if mt =? PingMessage then Some (handlePing c payload)
  else if mt =? PongMessage then Some (handlePong c)
  else Some (c, None).

(** ** Read methods *)

Definition read (c : Conn) (n : Z) : Conn * (list Z * option error) :=
  let '(p, err) := bufio.Peek defaultReaderSize (br c) n in
  match err with
  | bufio.PeekEOF => (c, ([], Some errUnexpectedEOF))
  | _ => (set_br c (bufio.Discard (br c) (length p)), (p, None))
  end.

(** [for length > 0 { p := c.read(int(length)); buf = append(buf, p...);
    length -= len(p) }]; [None] when the fuel runs out. *)
Fixpoint readPayload (fuel : nat) (c : Conn) (length : Z) (buf : list Z)
  : option (Conn * (list Z + error)) :=
  if length <=? 0 then Some (c, inl buf)
  else
    match fuel with
    | O => None
    | S fuel' =>
        match read c length with
        | (c, (_, Some err)) => Some (c, inr err)
        | (c, (p, None)) => readPayload fuel' c (length - len p) (buf ++ p)
        end
    end.

Definition ReadResult : Type := Z * list Z * option error.

(** The per-frame checks after the MASK test: the report and the message
    type as updated by the switch. *)
Definition frameErrors (rsv1 rsv2 rsv3 final first : bool)
    (frameType length messageType : Z) : Z * list string :=
  let errors : list string := [] in
  let errors :=
    if rsv1 || rsv2 || rsv3 then errors ++ ["RSV bits set"] else errors in
  if (frameType =? CloseMessage) || (frameType =? PingMessage)
     || (frameType =? PongMessage) then
    let errors :=
      if maxPayloadDate <? length then errors ++ ["len > 125 for control"]
      else errors in
    let errors :=
      if negb final then errors ++ ["FIN not set on control"] else errors in
    (messageType, errors)
  else if (frameType =? TextMessage) || (frameType =? BinaryMessage) then
    let messageType := frameType in
    let errors :=
      if negb first then errors ++ ["data before FIN"] else errors in
    (messageType, errors)
  else if frameType =? ContMessage then
    let errors :=
      if first then errors ++ ["continuation after FIN"] else errors in
    (messageType, errors)
  else
    (messageType, errors ++ ["bad opcode " +:+ strconv.Itoa frameType]).

(** The body of [ReadMessage] from the label [again]; the local variables
    [msg], [messageType] and [first] are the loop state.  [None] when the
    fuel runs out. *)
Fixpoint readFrames (fuel : nat) (c : Conn) (msg : list Z)
    (messageType : Z) (first : bool) : option (Conn * ReadResult) :=
  match fuel with
  | O => None
  | S fuel' =>
    match read c 2 with
    | (c, (_, Some err)) => Some (c, (noFrame, [], Some err))
    | (c, (p, None)) =>
      let p0 := nth 0 p 0 in
      let p1 := nth 1 p 0 in
      let frameType := Z.land p0 15 in
      let final := negb (Z.land p0 finBit =? 0) in
      let rsv1 := negb (Z.land p0 rsv1Bit =? 0) in
      let rsv2 := negb (Z.land p0 rsv2Bit =? 0) in
      let rsv3 := negb (Z.land p0 rsv3Bit =? 0) in
      let mask := negb (Z.land p1 maskBit =? 0) in
      let length := Z.land p1 127 in
      if negb (Bool.eqb mask (isServer c)) then
        Some (c, (noFrame, [], Some (ErrorString "bad MASK")))
      else
      let '(messageType, errors) :=
        frameErrors rsv1 rsv2 rsv3 final first frameType length messageType in
      if 0 <? len errors then
        match handleProtocolError c (String.concat "," errors) with
        | None => None
        | Some (c, err) => Some (c, (noFrame, [], Some err))
        end
      else
      (* extended length *)
      let ext :=
        if length =? 126 then
          match read c 2 with
          | (c, (_, Some err)) => (c, inr err)
          | (c, (p, None)) => (c, inl (BigEndian.Uint16 p))
          end
        else if length =? 127 then
          match read c 8 with
          | (c, (_, Some err)) => (c, inr err)
          | (c, (p, None)) => (c, inl (to_int64 (BigEndian.Uint64 p)))
          end
        else (c, inl length) in
      match ext with
      | (c, inr err) => Some (c, (noFrame, [], Some err))
      | (c, inl length) =>
      (* mask key *)
      let key :=
        if mask then
          match read c 4 with
          | (c, (_, Some err)) => (c, inr err)
          | (c, (p, None)) =>
              (c, inl (nth 0 p 0, nth 1 p 0, nth 2 p 0, nth 3 p 0))
          end
        else (c, inl (0, 0, 0, 0)) in
      match key with
      | (c, inr err) => Some (c, (noFrame, [], Some err))
      | (c, inl maskKey) =>
      match readPayload fuel' c length [] with
      | None => None
      | Some (c, inr err) => Some (c, (noFrame, [], Some err))
      | Some (c, inl buf) =>
        let buf := if mask then xor_mask maskKey buf else buf in
        if isControl frameType then
          match handleControl c frameType buf with
          | None => None
          | Some (c, Some err) => Some (c, (noFrame, [], Some err))
          | Some (c, None) =>
              let first := if negb (messageType =? noFrame) then false else first in
              readFrames fuel' c msg messageType first
          end
        else
          let msg := msg ++ buf in
          if negb final then readFrames fuel' c msg messageType false
          else Some (c, (messageType, msg, None))
      end
      end
      end
    end
  end.

Definition ReadMessage (fuel : nat) (c : Conn) : option (Conn * ReadResult) :=
  readFrames fuel c [] noFrame true.

Definition newConn (isServer : bool) (input : list Z)
    (entropy : nat -> option Mask) : Conn :=
  {| isServer := isServer; br := input; sent := []; writer := false;
     closed := false; entropy := entropy; drawn := 0 |}.

(** ** websocket.go: the client handshake

    The collaborators of [Dial] ([net/url], [net], [net/http] and the
    random source) are gathered in an environment that gives the outcome
    of each call. *)

Module http.

Record Response : Type := mkResponse {
  StatusCode : Z;
  Header : gmap string (list string)
}.

Record Request : Type := mkRequest {
  Method : string;
  Proto : string;
  ReqHeader : list (string * string)
}.

Definition StatusSwitchingProtocols : Z := 101.
Definition MethodGet : string := "GET".

(** [Header.Values] and [Header.Get]; the keys are kept in canonical
    form, which the keys used by the package already have. *)
Definition Values (h : gmap string (list string)) (key : string) : list string :=
  default [] (h !! key).

Definition Get (h : gmap string (list string)) (key : string) : string :=
  match Values h key with
  | [] => ""
  | v :: _ => v
  end.

End http.

Record URL : Type := mkURL { Scheme : string; Host : string }.

Record DialEnv : Type := mkDialEnv {
  url_Parse : string -> URL + error;
  (** the 16 random bytes of the challenge key *)
  challenge_bytes : list Z + error;
  (** [net.Dial]: on success, the bytes the peer will send *)
  net_Dial : string -> list Z + error;
  (** [req.Write(netConn)] *)
  req_Write : http.Request -> option error;
  (** [http.ReadResponse]: the response and the input left in the reader *)
  http_ReadResponse : list Z -> (http.Response * list Z) + error;
  mask_entropy : nat -> option Mask
}.

Definition errBadUrl : error := ErrorString "bad ws or wss url".
Definition errBadHandshake : error := ErrorString "bad handshake".

Definition generateChallengeKey (env : DialEnv) : string + error :=
  match challenge_bytes env with
  | inr err => inr err
  | inl p => inl (base64.EncodeToString p)
  end.

Definition checkHeader (header : gmap string (list string)) (key value : string)
  : bool :=
  let vals := http.Values header key in
  if len vals =? 1 then String.eqb (nth 0 vals "") value else false.

Definition validateResponse (resp : http.Response) : bool :=
  (http.StatusCode resp =? http.StatusSwitchingProtocols)
  && checkHeader (http.Header resp) "Upgrade" "websocket"
  && checkHeader (http.Header resp) "Connection" "Upgrade".

(** What [Dial] returns, and whether it closed the socket it opened. *)
Record DialResult : Type := mkDialResult {
  dial_conn : option Conn;
  dial_err : option error;
  socket_closed : bool
}.

Definition Dial (env : DialEnv) (wsUrl : string) : DialResult :=
  match url_Parse env wsUrl with
  | inr _ => mkDialResult None (Some errBadUrl) false
  | inl u =>
    if negb (String.eqb (Scheme u) "ws") && negb (String.eqb (Scheme u) "wss")
    then mkDialResult None (Some errBadUrl) false
    else
    match generateChallengeKey env with
    | inr err => mkDialResult None (Some err) false
    | inl challengeKey =>
      let req :=
        {| http.Method := http.MethodGet;
           http.Proto := "HTTP/1.1";
           http.ReqHeader :=
             [("Upgrade", "websocket"); ("Connection", "Upgrade");
              ("Sec-WebSocket-Version", "13");
              ("Sec-WebSocket-Key", challengeKey)] |} in
      match net_Dial env (Host u) with
      | inr err => mkDialResult None (Some err) false
      | inl input =>
        match req_Write env req with
        | Some err => mkDialResult None (Some err) true
        | None =>
          let conn := newConn false input (mask_entropy env) in
          match http_ReadResponse env (br conn) with
          | inr err =>
              let conn := Conn_Close conn in
              mkDialResult None (Some err) (closed conn)
          | inl (_, rest) =>
              (* the validation of the response is commented out in the
                 source *)
              let conn := set_br conn rest in
              mkDialResult (Some conn) None (closed conn)
          end
        end
      end
    end
  end.

(** ** websocket.go: the server handshake

    The request is the one of the client handshake, with its header lines;
    the HTTP server hands their values to the handler under the canonical
    form of their keys.  The response writer is the one of the HTTP/1
    server.  First the header keys and header maps of net/textproto and
    net/http. *)

Module header.

(** The bytes allowed in a header key (the token characters). *)
Definition validHeaderFieldByte (a : ascii) : bool :=
  let n := N_of_ascii a in
  ((48 <=? n) && (n <=? 57))%N || ((65 <=? n) && (n <=? 90))%N
  || ((97 <=? n) && (n <=? 122))%N
  || existsb (Ascii.eqb a)
       ["!"; "#"; "$"; "%"; "&"; "'"; "*"; "+"; "-"; "."; "^"; "_"; "`"; "|"; "~"]%char.

Definition is_lower (a : ascii) : bool :=
  ((97 <=? N_of_ascii a) && (N_of_ascii a <=? 122))%N.
Definition is_upper (a : ascii) : bool :=
  ((65 <=? N_of_ascii a) && (N_of_ascii a <=? 90))%N.

Fixpoint all_valid (s : string) : bool :=
  match s with
  | EmptyString => true
  | String a s' => validHeaderFieldByte a && all_valid s'
  end.

(** First letter and every letter after a hyphen in upper case, the
    others in lower case. *)
Fixpoint canon (upper : bool) (s : string) : string :=
  match s with
  | EmptyString => EmptyString
  | String a s' =>
      let a' :=
        if upper && is_lower a then ascii_of_N (N_of_ascii a - 32)
        else if negb upper && is_upper a then ascii_of_N (N_of_ascii a + 32)
        else a in
      String a' (canon (Ascii.eqb a' "-") s')
  end.

(** [CanonicalMIMEHeaderKey]: a key with a byte that is not allowed is
    returned as it is. *)
Definition CanonicalHeaderKey (s : string) : string :=
  if all_valid s then canon true s else s.

Definition Values (h : gmap string (list string)) (key : string) : list string :=
  http.Values h (CanonicalHeaderKey key).

Definition Get (h : gmap string (list string)) (key : string) : string :=
  http.Get h (CanonicalHeaderKey key).

Definition Add (h : gmap string (list string)) (key value : string)
  : gmap string (list string) :=
  <[CanonicalHeaderKey key := http.Values h (CanonicalHeaderKey key) ++ [value]]> h.

Definition Set_ (h : gmap string (list string)) (key value : string)
  : gmap string (list string) :=
  <[CanonicalHeaderKey key := [value]]> h.

End header.

(** The header of a request, from its header lines in order. *)
Definition request_header (r : http.Request) : gmap string (list string) :=
  fold_left (fun h kv => header.Add h (fst kv) (snd kv)) (http.ReqHeader r) ∅.

(** The response writer that the HTTP server hands to a handler: the
    status line and the header go out with the first [WriteHeader], later
    calls are ignored; a body is refused for the statuses that carry none. *)
Record ResponseWriter : Type := mkResponseWriter {
  rw_header : gmap string (list string);
  (** the status and header sent, once they are *)
  rw_sent : option (Z * gmap string (list string));
  rw_body : list Z
}.

(** [w.Header().Set(key, value)]. *)
Definition rw_Set (w : ResponseWriter) (key value : string) : ResponseWriter :=
  mkResponseWriter (header.Set_ (rw_header w) key value) (rw_sent w) (rw_body w).

(** [WriteHeader] with a final status (the package writes 101, 400, 405
    and 500): the first call sends the status line and the header as they
    are then, later calls are ignored. *)
Definition rw_WriteHeader (w : ResponseWriter) (code : Z) : ResponseWriter :=
  match rw_sent w with
  | Some _ => w
  | None => mkResponseWriter (rw_header w) (Some (code, rw_header w)) (rw_body w)
  end.

(** No body goes with an informational status, 204 or 304. *)
Definition bodyAllowedForStatus (status : Z) : bool :=
  if (100 <=? status) && (status <=? 199) then false
  else if status =? 204 then false
  else if status =? 304 then false
  else true.

(** [Write]: sends the status 200 first when none was sent; the bytes are
    dropped when the status sent carries no body. *)
Definition rw_Write (w : ResponseWriter) (p : list Z) : ResponseWriter :=
  let w := match rw_sent w with
           | Some _ => w
           | None => rw_WriteHeader w 200
           end in
  match rw_sent w with
  | Some (status, _) =>
      if bodyAllowedForStatus status
      then mkResponseWriter (rw_header w) (rw_sent w) (rw_body w ++ p)
      else w
  | None => w
  end.

Definition StatusBadRequest : Z := 400.
Definition StatusMethodNotAllowed : Z := 405.
Definition StatusInternalServerError : Z := 500.

(** What the host gives to [Accept] besides the request: whether the
    response writer can be hijacked, what [Hijack] returns (the number of
    bytes already buffered by the host and the bytes the socket will
    deliver), and the random source of the new connection. *)
Record AcceptEnv : Type := mkAcceptEnv {
  is_hijacker : bool;
  Hijack : (Z * list Z) + error;
  accept_entropy : nat -> option Mask
}.

(** What [Accept] returns, the response writer after it, and whether it
    closed the socket it took over. *)
Record AcceptResult : Type := mkAcceptResult {
  acc_conn : option Conn;
  acc_err : option error;
  acc_w : ResponseWriter;
  acc_socket_closed : bool
}.

(** [writeError]: the status, then the message as the body. *)
Definition writeError (code : Z) (msg : string) (w : ResponseWriter)
  : ResponseWriter * error :=
  let w := rw_WriteHeader w code in
  let w := rw_Write w (bytes_of_string msg) in
  (w, ErrorString msg).

(** The result of a refusal: no connection, the error of [writeError]. *)
Definition reject (r : ResponseWriter * error) : AcceptResult :=
  mkAcceptResult None (Some (snd r)) (fst r) false.

(** [Accept].  [checkHeader] looks its key up as it is given, where
    [Header.Values] of the library first brings it to canonical form; the
    keys are brought to canonical form at the calls. *)
Definition Accept (env : AcceptEnv) (w : ResponseWriter) (r : http.Request)
  : AcceptResult :=
  let badHandshake := "websocket: bad client handshake: " in
  let h := request_header r in
  if negb (checkHeader h (header.CanonicalHeaderKey "Connection") "Upgrade") then
    reject (writeError StatusBadRequest (badHandshake +:+ "no 'Connection' header") w)
  else if negb (String.eqb (http.Method r) http.MethodGet) then
    reject (writeError StatusMethodNotAllowed (badHandshake +:+ "not GET method") w)
  else if negb (checkHeader h (header.CanonicalHeaderKey "Sec-WebSocket-Version") "13") then
    reject (writeError StatusBadRequest
              (badHandshake +:+ "unsupported websocket version") w)
  else
    let challengeKey := header.Get h "Sec-WebSocket-Key" in
    if String.eqb challengeKey "" then
      reject (writeError StatusBadRequest (badHandshake +:+ "no challenge key") w)
    else
      let acceptKey := computeAcceptKey challengeKey in
      let w := rw_Set w "Upgrade" "websocket" in
      let w := rw_Set w "Connection" "Upgrade" in
      let w := rw_Set w "Sec-WebSocket-Accept" acceptKey in
      let w := rw_WriteHeader w http.StatusSwitchingProtocols in
      if negb (is_hijacker env) then
        reject (writeError StatusInternalServerError
                  "websocket: response does not implement hijacker" w)
      else
        match Hijack env with
        | inr err =>
            reject (writeError StatusInternalServerError (error_Error err) w)
        | inl (buffered, input) =>
            if 0 <? buffered then
              mkAcceptResult None
                (Some (ErrorString "websocket: client sent data with handshake"))
                w true
            else
              let conn := newConn true input (accept_entropy env) in
              mkAcceptResult (Some conn) None w false
        end.

(** The request [Dial] writes, for a challenge key. *)
Definition handshake_request (challengeKey : string) : http.Request :=
  {| http.Method := http.MethodGet;
     http.Proto := "HTTP/1.1";
     http.ReqHeader :=
       [("Upgrade", "websocket"); ("Connection", "Upgrade");
        ("Sec-WebSocket-Version", "13");
        ("Sec-WebSocket-Key", challengeKey)] |}.

(** ** examples: the echo servers

    The loop of the handler once [Accept] has given the connection: read
    a message, write it back, until one of the two fails.  The server of
    the second variant skips the write for a message whose type is a
    control opcode ([skip_control]).  [rounds] bounds the number of turns
    of the loop. *)
Fixpoint echo_loop (skip_control : bool) (rounds fuel : nat) (c : Conn)
  : option Conn :=
  match rounds with
  | O => None
  | S rounds' =>
      match ReadMessage fuel c with
      | None => None
      | Some (c, (mt, msg, Some err)) => Some c
      | Some (c, (mt, msg, None)) =>
          if skip_control && ((CloseMessage <=? mt) && (mt <=? PongMessage))
          then echo_loop skip_control rounds' fuel c
          else
            match WriteMessage c mt msg with
            | None => None
            | Some (c, Some err) => Some c
            | Some (c, None) => echo_loop skip_control rounds' fuel c
            end
      end
  end.

(** The loop and the deferred [conn.Close()]. *)
Definition echo_serve (skip_control : bool) (rounds fuel : nat) (c : Conn)
  : option Conn :=
  option_map Conn_Close (echo_loop skip_control rounds fuel c).

(** ** The caller's slice

    [writeFrame] masks its payload in place, and the payload is a window
    of the slice the caller gave to [Write] or [WriteMessage].  The
    functions below are the write methods once more, giving in addition
    the content of that slice after the call. *)
Definition writeFrame_mut (w : msgWriter) (c : Conn) (payload : list Z)
  : msgWriter * Conn * option error * list Z :=
  let b0 := to_byte (ft w) in
  let b0 := if fin w then Z.lor b0 finBit else b0 in
  let '(w, c) := bw_WriteByte b0 w c in
  let b1 := 0 in
  let b1 := if negb (isServer c) then Z.lor b1 maskBit else b1 in
  let length := len payload in
  let '(w, c) :=
    if 65536 <=? length then
      let b1 := Z.lor b1 (to_byte 127) in
      let '(w, c) := bw_WriteByte b1 w c in
      bw_Write (BigEndian.PutUint64 (length mod 2 ^ 64)) w c
    else if 125 <? length then
      let b1 := Z.lor b1 (to_byte 126) in
      let '(w, c) := bw_WriteByte b1 w c in
      bw_Write (BigEndian.PutUint16 (length mod 2 ^ 16)) w c
    else
      let b1 := Z.lor b1 (to_byte length) in
      bw_WriteByte b1 w c in
  if negb (isServer c) then
    match generateMask c with
    | (c, inr err) => (w, c, Some err, payload)
    | (c, inl mask) =>
        let '(w, c) := bw_Write (mask_bytes mask) w c in
        let payload := xor_mask mask payload in
        let '(w, c) := bw_Write payload w c in
        (w, c, None, payload)
    end
  else
    let '(w, c) := bw_Write payload w c in
    (w, c, None, payload).

(** The loop of [msgWriter.Write]: [p] is the part of the slice still to
    be written, the last component its content when the loop ends. *)
Fixpoint Write_loop_mut (fuel : nat) (w : msgWriter) (c : Conn) (p : list Z)
  : option (msgWriter * Conn * option error * list Z) :=
  match fuel with
  | O => None
  | S fuel' =>
      let '(w, c, n) := ncopy w c (len p) in
      let payload := firstn (Z.to_nat n) p in
      match writeFrame_mut w c payload with
      | (w, c, Some err, payload) =>
          Some (w, c, Some err, payload ++ skipn (Z.to_nat n) p)
      | (w, c, None, payload) =>
          let p := skipn (Z.to_nat n) p in
          let w := set_ft w ContMessage in
          if len p =? 0 then Some (w, c, None, payload ++ p)
          else
            match Write_loop_mut fuel' w c p with
            | None => None
            | Some (w, c, err, p) => Some (w, c, err, payload ++ p)
            end
      end
  end.

(** [msgWriter.Write], [WriteMessage]. *)
Definition msgWriter_Write_mut (w : msgWriter) (c : Conn) (p : list Z)
  : option (msgWriter * Conn * option error * list Z) :=
  let w := set_ft w (mt w) in
  match Write_loop_mut (S (length p)) w c p with
  | None => None
  | Some (w, c, Some err, p) => Some (w, c, Some err, p)
  | Some (w, c, None, p) => Some (set_fin w false, c, None, p)
  end.

Definition WriteMessage_mut (c : Conn) (mt : Z) (msg : list Z)
  : option (Conn * option error * list Z) :=
  match NextWriter c mt with
  | (c, inr err) => Some (c, Some err, msg)
  | (c, inl w) =>
      match msgWriter_Write_mut w c msg with
      | None => None
      | Some (w, c, Some err, msg) => Some (c, Some err, msg)
      | Some (w, c, None, msg) =>
          let '(w, c) := msgWriter_Close w c in
          Some (c, None, msg)
      end
  end.

(** ** Definitions that follow the specification's wording

    They are compared with the code in the theorems below. *)

Module Spec.

(** The human name of a close code, for the codes the rendering labels. *)
Definition closeLabel (code : Z) : option string :=
  match code with
  | 1000 => Some "normal"
  | 1001 => Some "going away"
  | 1002 => Some "protocol error"
  | 1003 => Some "unsupported data"
  | 1005 => Some "no status"
  | 1006 => Some "abnormal closure"
  | 1007 => Some "invalid payload data"
  | 1008 => Some "policy violation"
  | 1009 => Some "message too big"
  | 1010 => Some "manatory extension missing"
  | 1011 => Some "internal server error"
  | 1015 => Some "TLS handshake error"
  | _ => None
  end.

(** The two optional parts of the rendering of a close error. *)
Definition text_suffix (t : string) : string :=
  if String.eqb t "" then "" else ": " +:+ t.

Definition label_suffix (code : Z) : string :=
  match closeLabel code with
  | Some l => " (" +:+ (l +:+ ")")
  | None => ""
  end.

(** The close codes of the enumeration. *)
Definition enumeration : list Z :=
  [1000; 1001; 1002; 1003; 1005; 1006; 1007; 1008; 1009; 1010; 1011;
   1012; 1013; 1015].

(** Codes accepted on receipt: of the enumeration but not a sentinel,
    or in the application range. *)
Definition acceptedOnReceipt (code : Z) : Prop :=
  (In code enumeration /\ code <> 1005 /\ code <> 1006 /\ code <> 1015)
  \/ 3000 <= code <= 4999.

(** The fields of the two header bytes of a frame. *)
Record Header : Type := mkHeader {
  h_fin : bool; h_rsv1 : bool; h_rsv2 : bool; h_rsv3 : bool;
  h_opcode : Z; h_mask : bool; h_len7 : Z
}.

Definition decode (b0 b1 : Z) : Header :=
  {| h_fin := Z.testbit b0 7;
     h_rsv1 := Z.testbit b0 6;
     h_rsv2 := Z.testbit b0 5;
     h_rsv3 := Z.testbit b0 4;
     h_opcode := b0 mod 16;
     h_mask := Z.testbit b1 7;
     h_len7 := b1 mod 128 |}.

Definition is_control (op : Z) : bool := (op =? 8) || (op =? 9) || (op =? 10).
Definition is_data (op : Z) : bool := (op =? 1) || (op =? 2).
Definition known_opcode (op : Z) : bool :=
  (op =? 0) || is_data op || is_control op.

(** The validation rules of the frame reader other than the MASK rule,
    each with the text of its report; [mid] tells whether a fragmented
    message is in progress. *)
Definition rules (h : Header) (mid : bool) : list (bool * string) :=
  [ (h_rsv1 h || h_rsv2 h || h_rsv3 h, "RSV bits set");
    (negb (known_opcode (h_opcode h)), "bad opcode " +:+ strconv.Itoa (h_opcode h));
    (is_control (h_opcode h) && (125 <? h_len7 h), "len > 125 for control");
    (is_control (h_opcode h) && negb (h_fin h), "FIN not set on control");
    (is_data (h_opcode h) && mid, "data before FIN");
    ((h_opcode h =? 0) && negb mid, "continuation after FIN") ].

Definition violations (h : Header) (mid : bool) : list string :=
  map snd (filter (fun r => fst r = true) (rules h mid)).

(** A close frame payload for a code and a reason. *)
Definition closePayload (code : Z) (reason : string) : list Z :=
  [code / 256; code mod 256] ++ bytes_of_string reason.

(** One frame on the wire: FIN and opcode, MASK and length, the mask
    key when masked, and the payload (masked with the key). *)
Definition lengthField (n : Z) : Z * list Z :=
  if n <=? 125 then (n, [])
  else if n <=? 65535 then (126, [n / 256; n mod 256])
  else (127, BigEndian.PutUint64 n).

Definition frame (final : bool) (opcode : Z) (key : option Mask)
    (payload : list Z) : list Z :=
  let '(l7, ext) := lengthField (len payload) in
  [(if final then 128 else 0) + opcode;
   (match key with Some _ => 128 | None => 0 end) + l7]
  ++ ext
  ++ match key with
     | Some k => mask_bytes k ++ xor_mask k payload
     | None => payload
     end.

End Spec.



(** ** Auxiliary definitions for the statements below *)

(** All the bytes handed to a message writer's buffer so far, in order:
    those already on the socket, then those still buffered. *)
Definition emitted (w : msgWriter) (c : Conn) : list Z := sent c ++ bufio.buf (bw w).

Definition is_some {A} (o : option A) : bool :=
  match o with Some _ => true | None => false end.

(** The mask key as laid out in a frame, and its effect on the payload. *)
Definition key_bytes (key : option Mask) : list Z :=
  match key with Some k => mask_bytes k | None => [] end.

Definition key_apply (key : option Mask) (p : list Z) : list Z :=
  match key with Some k => xor_mask k p | None => p end.

(** The bytes of a frame before its payload, for a payload of [n] bytes. *)
Definition frame_header (final : bool) (op : Z) (key : option Mask) (n : Z)
  : list Z :=
  [(if final then 128 else 0) + op;
   (match key with Some _ => 128 | None => 0 end) + fst (Spec.lengthField n)]
  ++ snd (Spec.lengthField n) ++ key_bytes key.

Definition key_or_zero (key : option Mask) : Mask :=
  match key with Some k => k | None => (0, 0, 0, 0) end.

(** The state of the buffer of a message writer at the start of a round
    of its loop: empty, or too full to take another header. *)
Definition ready (b : bufio.Writer) : Prop :=
  bufio.size b = 1038 /\ (bufio.buf b = [] \/ 1024 <= len (bufio.buf b)).

(** The key of the frame that the connection sends next. *)
Definition next_key (c : Conn) : option Mask :=
  if isServer c then None else entropy c (drawn c).

(** ** Auxiliary definitions for the statements on the writer, the
    reader and the handshake *)

(** The frames of a message as [WriteMessage] lays them out: 1030 bytes
    of payload in each frame but the last; [keys i] is the mask of the
    i-th frame. *)
Fixpoint message_frames (fuel : nat) (op : Z) (keys : nat -> option Mask)
    (i : nat) (p : list Z) : list Z :=
  match fuel with
  | O => Spec.frame true op (keys i) p
  | S fuel' =>
      if len p <=? 1030 then Spec.frame true op (keys i) p
      else Spec.frame false op (keys i) (firstn 1030 p)
           ++ message_frames fuel' ContMessage keys (S i) (skipn 1030 p)
  end.

(** The keys of the frames a connection sends from now on: none on a
    server, the next draws of the random source on a client. *)
Definition keys_from (c : Conn) : nat -> option Mask :=
  fun i => if isServer c then None else entropy c (drawn c + i)%nat.

(** The state of the loop of [ReadMessage] between two frames: the
    message type is unset or a data opcode, and it is a data opcode once a
    fragment has been read. *)
Definition loop_state (mtype : Z) (first : bool) : Prop :=
  (mtype = noFrame \/ mtype = TextMessage \/ mtype = BinaryMessage)
  /\ (first = false -> mtype = TextMessage \/ mtype = BinaryMessage).

(** A fragmented message as a sequence of frames: the fragments before
    the last one, with ping and pong frames anywhere among them. *)
Inductive piece : Type :=
| Fragment (key : option Mask) (payload : list Z)
| Interleaved (op : Z) (key : option Mask) (payload : list Z).

(** The bytes of the frames: [op] is the opcode of the next fragment. *)
Fixpoint pieces_wire (op : Z) (ps : list piece) (last_key : option Mask)
    (last : list Z) : list Z :=
  match ps with
  | [] => Spec.frame true op last_key last
  | Fragment k p :: ps' =>
      Spec.frame false op k p ++ pieces_wire ContMessage ps' last_key last
  | Interleaved cop k p :: ps' =>
      Spec.frame true cop k p ++ pieces_wire op ps' last_key last
  end.

(** The payload the fragments carry together. *)
Fixpoint pieces_payload (ps : list piece) : list Z :=
  match ps with
  | [] => []
  | Fragment _ p :: ps' => p ++ pieces_payload ps'
  | Interleaved _ _ _ :: ps' => pieces_payload ps'
  end.

(** A piece a reader of the role [srv] takes: masked as the role asks,
    with a payload it can read. *)
Definition piece_ok (srv : bool) (pc : piece) : Prop :=
  match pc with
  | Fragment k p => is_some k = srv /\ len p < 2 ^ 63
  | Interleaved cop k p =>
      (cop = PingMessage \/ cop = PongMessage) /\ is_some k = srv /\ len p <= 125
  end.

(** The values of the header lines of a request whose key has the same
    canonical form as [key], in the order of the lines. *)
Definition header_lines (key : string) (r : http.Request) : list string :=
  map snd
    (List.filter
       (fun kv => String.eqb (header.CanonicalHeaderKey (fst kv))
                             (header.CanonicalHeaderKey key))
       (http.ReqHeader r)).

(** When [Accept] gives a connection. *)
Definition acceptable (env : AcceptEnv) (r : http.Request) (input : list Z) : Prop :=
  header_lines "Connection" r = ["Upgrade"]
  /\ http.Method r = "GET"
  /\ header_lines "Sec-WebSocket-Version" r = ["13"]
  /\ (exists k ks, header_lines "Sec-WebSocket-Key" r = k :: ks /\ k <> "")
  /\ is_hijacker env = true
  /\ exists buffered, Hijack env = inl (buffered, input) /\ buffered <= 0.

(** The response of [w'] is the switch of protocols for the challenge key
    [key], sent from the writer [w]: status 101, the three headers of the
    handshake, the other headers and the body as they are in [w]. *)
Definition switching_response (w : ResponseWriter) (key : string)
    (w' : ResponseWriter) : Prop :=
  rw_body w' = rw_body w
  /\ exists hdr,
      rw_sent w' = Some (http.StatusSwitchingProtocols, hdr)
      /\ header.Values hdr "Upgrade" = ["websocket"]
      /\ header.Values hdr "Connection" = ["Upgrade"]
      /\ header.Values hdr "Sec-WebSocket-Accept" = [computeAcceptKey key]
      /\ forall k,
          header.CanonicalHeaderKey k <> "Upgrade" ->
          header.CanonicalHeaderKey k <> "Connection" ->
          header.CanonicalHeaderKey k <> "Sec-Websocket-Accept" ->
          header.Values hdr k = header.Values (rw_header w) k.

(** [Accept] refuses the request with the status [code] and the text
    [msg], which is both the body of the response and the error. *)
Definition rejected_with (env : AcceptEnv) (w : ResponseWriter)
    (r : http.Request) (code : Z) (msg : string) : Prop :=
  Accept env w r
  = mkAcceptResult None (Some (ErrorString msg))
      (mkResponseWriter (rw_header w) (Some (code, rw_header w))
         (rw_body w ++ bytes_of_string msg))
      false.

(** [Dial] got as far as opening the socket. *)
Definition socket_opened (env : DialEnv) (wsUrl : string) : Prop :=
  exists u p input,
    url_Parse env wsUrl = inl u
    /\ (Scheme u = "ws" \/ Scheme u = "wss")
    /\ challenge_bytes env = inl p
    /\ net_Dial env (Host u) = inl input.

(** A peer that writes messages one after the other, and one that reads
    [n] messages. *)
Fixpoint write_all (c : Conn) (ms : list (Z * list Z)) : option Conn :=
  match ms with
  | [] => Some c
  | (o, p) :: ms' =>
      match WriteMessage c o p with
      | Some (c', None) => write_all c' ms'
      | _ => None
      end
  end.

(** A peer that reads [n] messages. *)
Fixpoint read_all (fuel : nat) (n : nat) (c : Conn)
  : option (Conn * list (Z * list Z)) :=
  match n with
  | O => Some (c, [])
  | S n' =>
      match ReadMessage fuel c with
      | Some (c', (o, p, None)) =>
          match read_all fuel n' c' with
          | Some (c'', ms) => Some (c'', (o, p) :: ms)
          | None => None
          end
      | _ => None
      end
  end.

(** A message with a data opcode. *)
Definition is_data_message (m : Z * list Z) : Prop :=
  fst m = TextMessage \/ fst m = BinaryMessage.

(** The frames a server sends for messages, one after the other. *)
Definition server_frames (ms : list (Z * list Z)) : list Z :=
  flat_map
    (fun m => message_frames (length (snd m)) (fst m) (fun _ => None) 0 (snd m))
    ms.

(** ** Concrete inputs used in the examples below *)

(** A response that is not a protocol switch: status 200, no headers. *)
Definition plain_response : http.Response :=
  {| http.StatusCode := 200; http.Header := ∅ |}.

Definition no_mask : nat -> option Mask := fun _ => None.
Definition fixed_mask (m : Mask) : nat -> option Mask := fun _ => Some m.

(** An environment in which every collaborator of [Dial] succeeds and the
    server answers with [plain_response]. *)
Definition plain_env : DialEnv :=
  {| url_Parse := fun _ => inl {| Scheme := "ws"; Host := "localhost:8080" |};
     challenge_bytes := inl (repeat 7 16);
     net_Dial := fun _ => inl [];
     req_Write := fun _ => None;
     http_ReadResponse := fun input => inl (plain_response, input);
     mask_entropy := fixed_mask (1, 2, 3, 4) |}.

(** The header of a masked binary frame of 2048 bytes and its mask key,
    with nothing after them. *)
Definition truncated_frame : list Z := [0x82; 0xFE; 0x08; 0x00; 1; 2; 3; 4].

(** A response writer that has sent nothing, and a host that hands over
    a socket with nothing buffered. *)
Definition plain_writer : ResponseWriter := mkResponseWriter ∅ None [].

Definition plain_host (input : list Z) : AcceptEnv :=
  mkAcceptEnv true (inl (0, input)) no_mask.

(** A request with the given method and header lines. *)
Definition request (method : string) (lines : list (string * string))
  : http.Request :=
  {| http.Method := method; http.Proto := "HTTP/1.1"; http.ReqHeader := lines |}.

(** One text message. *)
Definition one_message : list (Z * list Z) := [(TextMessage, [104; 105])].

(** * Theorems *)

(** ** Helper lemmas on strings *)

Lemma append_cons (x : ascii) (a b : string) :
  String x a +:+ b = String x (a +:+ b).
Proof. reflexivity. Qed.

Lemma append_nil (b : string) : "" +:+ b = b.
Proof. reflexivity. Qed.

Lemma append_assoc (a b c : string) : (a +:+ b) +:+ c = a +:+ (b +:+ c).
Proof.
  induction a as [|x a IH]; [reflexivity |].
  rewrite !append_cons. f_equal; exact IH.
Qed.

Lemma append_empty_r (a : string) : a +:+ "" = a.
Proof.
  induction a as [|x a IH]; [reflexivity |].
  rewrite append_cons. f_equal; exact IH.
Qed.

(** ** The accept key *)

Example sha1_abc :
  sha1.Sum (bytes_of_string "abc") =
  [0xA9; 0x99; 0x3E; 0x36; 0x47; 0x06; 0x81; 0x6A; 0xBA; 0x3E;
   0x25; 0x71; 0x78; 0x50; 0xC2; 0x6C; 0x9C; 0xD0; 0xD8; 0x9D].
Proof. vm_compute. reflexivity. Qed.

Example base64_foobar :
  base64.EncodeToString (bytes_of_string "foobar") = "Zm9vYmFy"
  /\ base64.EncodeToString (bytes_of_string "fooba") = "Zm9vYmE="
  /\ base64.EncodeToString (bytes_of_string "foob") = "Zm9vYg==".
Proof. vm_compute. auto. Qed.

(** C8: the accept key is base64 of the SHA-1 digest of the challenge key
    followed by the GUID 258EAFA5-E914-47DA-95CA-C5AB0DC85B11, a function
    of the challenge key alone; on the challenge key of the RFC's worked
    example it is "s3pPLMBiTxaQ9kYGzzhZRbK+xOo=". *)
Theorem computeAcceptKey_correct :
  (forall challengeKey : string,
      computeAcceptKey challengeKey =
      base64.EncodeToString
        (sha1.Sum (bytes_of_string challengeKey
                   ++ bytes_of_string "258EAFA5-E914-47DA-95CA-C5AB0DC85B11")))
  /\ computeAcceptKey "dGhlIHNhbXBsZSBub25jZQ==" = "s3pPLMBiTxaQ9kYGzzhZRbK+xOo=".
Proof.
  split.
  - intros k. reflexivity.
  - vm_compute. reflexivity.
Qed.

(** ** Close codes *)

Lemma validReceivedCloseCodes_true (code : Z) :
  default false (validReceivedCloseCodes !! code) = true <->
  In code [1000; 1001; 1002; 1003; 1007; 1008; 1009; 1010; 1011; 1012; 1013].
Proof.
  unfold validReceivedCloseCodes.
  rewrite !lookup_insert, lookup_empty.
  repeat case_decide; subst; simpl; split; intros; try discriminate; try tauto.
  all: unfold CloseNormalClosure, CloseGoingAway, CloseProtocolError,
         CloseUnsupportedData, CloseNoStatusReceived, CloseAbnormalClosure,
         CloseInvalidFramePayloadData, ClosePolicyViolation, CloseMessageTooBig,
         CloseMandatoryExtension, CloseInternalServerErr, CloseServiceRestart,
         CloseTryAgainLater, CloseTLSHandshake in *;
       intuition congruence.
Qed.

Lemma isValidReceivedCloseCode_iff (code : Z) :
  isValidReceivedCloseCode code = true <-> Spec.acceptedOnReceipt code.
Proof.
  unfold isValidReceivedCloseCode, Spec.acceptedOnReceipt.
  rewrite orb_true_iff, andb_true_iff, validReceivedCloseCodes_true, !Z.leb_le.
  unfold Spec.enumeration. simpl.
  intuition (subst; try lia; try discriminate).
Qed.

(** ** The rendering of a close error *)

Example Itoa_examples :
  strconv.Itoa 0 = "0" /\ strconv.Itoa 1006 = "1006"
  /\ strconv.Itoa 4999 = "4999" /\ strconv.Itoa (-15) = "-15".
Proof. vm_compute. auto. Qed.

(** C9, as the code has it: the rendering is "websocket: close <c>", then
    " (<label>)" when the code is one of 1000-1003, 1005-1011, 1015, then
    ": <t>" when the text is not empty.  Nothing is said here about 1012
    and 1013. *)
Theorem CloseError_Error_format (c : Z) (t : string) :
  c <> 1012 -> c <> 1013 ->
  CloseError_Error {| Code := c; Text := t |} =
  "websocket: close " +:+ (strconv.Itoa c +:+ (Spec.label_suffix c +:+ Spec.text_suffix t)).
Proof.
  intros _ _.
  unfold CloseError_Error, Spec.label_suffix, Spec.text_suffix; cbn [Code Text].
  unfold CloseNormalClosure, CloseGoingAway, CloseProtocolError,
    CloseUnsupportedData, CloseNoStatusReceived, CloseAbnormalClosure,
    CloseInvalidFramePayloadData, ClosePolicyViolation, CloseMessageTooBig,
    CloseMandatoryExtension, CloseInternalServerErr, CloseTLSHandshake.
  repeat match goal with
         | |- context [Z.eqb c ?k] => destruct (Z.eqb_spec c k) as [->|]
         end.
  all: destruct (String.eqb t ""); rewrite ?append_assoc, ?append_empty_r;
    try reflexivity.
  all: assert (Spec.closeLabel c = None) as ->
      by (unfold Spec.closeLabel;
          repeat match goal with
                 | |- context [match ?x with _ => _ end] => destruct x; try lia; try reflexivity
                 end).
  all: cbn; rewrite ?append_empty_r; reflexivity.
Qed.

Lemma CloseError_Error_format_witness :
  CloseError_Error {| Code := 1000; Text := "bye" |} =
  "websocket: close 1000 (normal): bye".
Proof.
  exact (CloseError_Error_format 1000 "bye" ltac:(lia) ltac:(lia)).
Defined.

(** C9 as stated fails: with an empty text no ": " is appended, and the
    codes 1012 and 1013 get no label. *)
Lemma CloseError_Error_counterexample :
  CloseError_Error {| Code := 1000; Text := "" |} <> "websocket: close 1000 (normal): "
  /\ CloseError_Error {| Code := 1000; Text := "" |} = "websocket: close 1000 (normal)"
  /\ CloseError_Error {| Code := 1012; Text := "restart" |} = "websocket: close 1012: restart".
Proof.
  repeat split; vm_compute; congruence.
Qed.

(** ** The client handshake *)

(** C2 fails on the code: [Dial] returns a connection, without closing
    the socket, for a response with status 200 and no headers, which
    [validateResponse] rejects. *)
Theorem Dial_skips_validation :
  validateResponse plain_response = false
  /\ http.Get (http.Header plain_response) "Sec-WebSocket-Accept" = ""
  /\ dial_err (Dial plain_env "ws://localhost:8080") = None
  /\ socket_closed (Dial plain_env "ws://localhost:8080") = false
  /\ exists c, dial_conn (Dial plain_env "ws://localhost:8080") = Some c
               /\ isServer c = false /\ closed c = false.
Proof.
  repeat split; try (vm_compute; reflexivity).
  eexists; repeat split; vm_compute; reflexivity.
Qed.

(** ** Bits of a header byte and masks *)

Lemma land_pow2_testbit (b k : Z) :
  0 <= k -> (Z.land b (2 ^ k) =? 0) = negb (Z.testbit b k).
Proof.
  intros Hk.
  destruct (Z.testbit b k) eqn:E; simpl.
  - apply Z.eqb_neq. intros H.
    assert (Z.testbit (Z.land b (2 ^ k)) k = false) as F by (rewrite H; apply Z.bits_0).
    rewrite Z.land_spec, E, Z.pow2_bits_true in F by lia. discriminate.
  - apply Z.eqb_eq. apply Z.bits_inj'. intros n Hn.
    rewrite Z.land_spec, Z.bits_0.
    destruct (Z.eq_dec n k) as [->|Hne].
    + rewrite E. reflexivity.
    + rewrite Z.pow2_bits_false by lia. apply andb_false_r.
Qed.

Lemma land_ones_mod (b k : Z) : 0 <= k -> Z.land b (2 ^ k - 1) = b mod 2 ^ k.
Proof.
  intros Hk. rewrite <- Z.land_ones by lia. f_equal. rewrite Z.ones_equiv. lia.
Qed.

Lemma range_forallb (P : Z -> bool) (k : nat) :
  forallb P (map Z.of_nat (seq 0 k)) = true ->
  forall n, 0 <= n < Z.of_nat k -> P n = true.
Proof.
  intros H n Hn. rewrite forallb_forall in H. apply H.
  apply in_map_iff. exists (Z.to_nat n). split; [lia|].
  apply in_seq. lia.
Qed.

Lemma lxor_involutive (a m : Z) : Z.lxor (Z.lxor a m) m = a.
Proof. now rewrite Z.lxor_assoc, Z.lxor_nilpotent, Z.lxor_0_r. Qed.

Lemma xor_from_involutive (m : Mask) (p : list Z) :
  forall i, xor_from i m (xor_from i m p) = p.
Proof.
  induction p as [|b p IH]; intros i; simpl; [reflexivity|].
  now rewrite lxor_involutive, IH.
Qed.

Lemma xor_mask_involutive (m : Mask) (p : list Z) : xor_mask m (xor_mask m p) = p.
Proof. apply xor_from_involutive. Qed.

Lemma xor_from_length (m : Mask) (p : list Z) :
  forall i, length (xor_from i m p) = length p.
Proof. induction p; intros; simpl; auto. Qed.

Lemma xor_mask_length (m : Mask) (p : list Z) : length (xor_mask m p) = length p.
Proof. apply xor_from_length. Qed.

(** ** The buffered reader *)

Lemma set_br_set_br c s t : set_br (set_br c s) t = set_br c t.
Proof. reflexivity. Qed.

Lemma read_exact (c : Conn) (p rest : list Z) (n : Z) :
  0 <= n <= 1024 -> len p = n ->
  read (set_br c (p ++ rest)) n = (set_br c rest, (p, None)).
Proof.
  intros Hn Hp. unfold read, bufio.Peek, defaultReaderSize, len in *.
  cbn [br set_br].
  destruct (Z.ltb_spec n 0); [lia|].
  destruct (Z.ltb_spec 1024 n); [lia|].
  rewrite length_app.
  destruct (Z.ltb_spec (Z.of_nat (length p + length rest)) n); [lia|].
  assert (Z.to_nat n = length p) as -> by lia.
  rewrite take_app_length. unfold bufio.Discard. rewrite drop_app_length.
  reflexivity.
Qed.

Lemma read_eof (c : Conn) (n : Z) :
  0 <= n <= 1024 -> len (br c) < n ->
  read c n = (c, ([], Some errUnexpectedEOF)).
Proof.
  intros Hn Hp. unfold read, bufio.Peek, defaultReaderSize, len in *.
  destruct (Z.ltb_spec n 0); [lia|].
  destruct (Z.ltb_spec 1024 n); [lia|].
  destruct (Z.ltb_spec (Z.of_nat (length (br c))) n); [|lia].
  reflexivity.
Qed.

Lemma read_chunk (c : Conn) (n : Z) :
  1024 < n ->
  read c n = (set_br c (skipn 1024 (br c)), (firstn 1024 (br c), None)).
Proof.
  intros Hn. unfold read, bufio.Peek, defaultReaderSize.
  destruct (Z.ltb_spec n 0); [lia|].
  destruct (Z.ltb_spec 1024 n); [|lia].
  change (Z.to_nat 1024) with 1024%nat.
  unfold bufio.Discard.
  f_equal. f_equal.
  destruct (Nat.le_gt_cases 1024 (length (br c))).
  - rewrite length_take. f_equal. lia.
  - rewrite !take_ge, !drop_ge by lia. reflexivity.
Qed.

Lemma readPayload_complete (fuel : nat) :
  forall (c : Conn) (payload rest buf : list Z),
    (length payload <= fuel)%nat ->
    readPayload fuel (set_br c (payload ++ rest)) (len payload) buf
    = Some (set_br c rest, inl (buf ++ payload)).
Proof.
  induction fuel as [|fuel IH]; intros c payload rest buf Hf.
  - destruct payload; [|simpl in Hf; lia]. simpl. now rewrite app_nil_r.
  - cbn [readPayload].
    destruct (Z.leb_spec (len payload) 0) as [H0|H0].
    + destruct payload; [|unfold len in H0; simpl in H0; lia].
      simpl. now rewrite app_nil_r.
    + destruct (Z.le_gt_cases (len payload) 1024) as [Hs|Hb].
      * rewrite read_exact by lia.
        replace (len payload - len payload) with (len (@nil Z)) by (unfold len; simpl; lia).
        specialize (IH c [] rest (buf ++ payload)). simpl in IH.
        rewrite IH by lia. now rewrite app_nil_r.
      * rewrite read_chunk by lia. cbn [br set_br].
        assert (length payload > 1024)%nat as Hl by (unfold len in Hb; lia).
        rewrite take_app_le, drop_app_le by lia.
        rewrite set_br_set_br.
        replace (len payload - len (take 1024 payload)) with (len (drop 1024 payload)).
        2:{ unfold len. rewrite length_take, length_drop. lia. }
        rewrite IH by (rewrite length_drop; lia).
        rewrite <- app_assoc, take_drop. reflexivity.
Qed.

(** ** The buffered writer and [writeFrame] *)

Ltac red_state :=
  cbn [bufio.size bufio.buf set_bw set_sent set_drawn set_fin set_ft set_br
       set_writer isServer sent bw entropy drawn fin ft mt br writer closed
       app negb].


Lemma lor_low7 (n : Z) :
  0 <= n < 128 ->
  Z.lor 128 (to_byte n) = 128 + n /\ Z.lor (to_byte n) 128 = 128 + n
  /\ Z.lor 0 (to_byte n) = n /\ to_byte n = n.
Proof.
  intros Hn.
  pose proof (range_forallb
    (fun n => (Z.lor 128 (to_byte n) =? 128 + n) && (Z.lor (to_byte n) 128 =? 128 + n)
              && (Z.lor 0 (to_byte n) =? n) && (to_byte n =? n)) 128 eq_refl n Hn) as H.
  cbv beta in H. rewrite !andb_true_iff, !Z.eqb_eq in H. tauto.
Qed.


Lemma bufio_WriteByte_fits (x : Z) (b : bufio.Writer) (out : list Z) :
  len (bufio.buf b) < bufio.size b ->
  bufio.WriteByte x b out = (bufio.mkWriter (bufio.size b) (bufio.buf b ++ [x]), out).
Proof.
  intros H. unfold bufio.WriteByte, bufio.Available. unfold len in H.
  destruct (Z.leb_spec (bufio.size b - Z.of_nat (length (bufio.buf b))) 0); [lia|].
  reflexivity.
Qed.

Lemma bufio_Write_fits (p : list Z) (b : bufio.Writer) (out : list Z) :
  len (bufio.buf b) + len p <= bufio.size b ->
  bufio.Write p b out = (bufio.mkWriter (bufio.size b) (bufio.buf b ++ p), out).
Proof.
  intros H. unfold bufio.Write, bufio.Available. unfold len in H.
  destruct (Z.ltb_spec (bufio.size b - Z.of_nat (length (bufio.buf b))) (Z.of_nat (length p))); [lia|].
  reflexivity.
Qed.

(** Whatever the buffer state, the bytes come out in the order written. *)
Lemma bufio_Flush_stream b out :
  let '(b', out') := bufio.Flush b out in
  out' ++ bufio.buf b' = out ++ bufio.buf b /\ bufio.size b' = bufio.size b.
Proof. simpl. now rewrite app_nil_r. Qed.

Lemma bufio_WriteByte_stream x b out :
  let '(b', out') := bufio.WriteByte x b out in
  out' ++ bufio.buf b' = out ++ bufio.buf b ++ [x] /\ bufio.size b' = bufio.size b.
Proof.
  unfold bufio.WriteByte. destruct (bufio.Available b <=? 0); simpl.
  - now rewrite <- app_assoc.
  - auto.
Qed.

Lemma bufio_Write_stream p b out :
  let '(b', out') := bufio.Write p b out in
  out' ++ bufio.buf b' = out ++ bufio.buf b ++ p /\ bufio.size b' = bufio.size b.
Proof.
  unfold bufio.Write, bufio.Buffered.
  destruct (bufio.Available b <? Z.of_nat (length p)).
  - destruct (Z.eqb_spec (Z.of_nat (length (bufio.buf b))) 0) as [E|E].
    + destruct (bufio.buf b); [|simpl in E; lia]. simpl. now rewrite app_nil_r.
    + destruct (bufio.size b <? _); simpl.
      * rewrite app_nil_r, <- !app_assoc, take_drop. auto.
      * rewrite <- !app_assoc, take_drop. auto.
  - simpl. auto.
Qed.


Lemma bw_WriteByte_stream x w c :
  forall w' c', bw_WriteByte x w c = (w', c') ->
  emitted w' c' = emitted w c ++ [x]
  /\ isServer c' = isServer c /\ entropy c' = entropy c /\ drawn c' = drawn c.
Proof.
  intros w' c'. unfold bw_WriteByte, emitted.
  pose proof (bufio_WriteByte_stream x (bw w) (sent c)) as H.
  destruct (bufio.WriteByte x (bw w) (sent c)) as [b' out'].
  intros [= <- <-]. cbn. rewrite <- app_assoc. tauto.
Qed.

Lemma bw_Write_stream p w c :
  forall w' c', bw_Write p w c = (w', c') ->
  emitted w' c' = emitted w c ++ p
  /\ isServer c' = isServer c /\ entropy c' = entropy c /\ drawn c' = drawn c.
Proof.
  intros w' c'. unfold bw_Write, emitted.
  pose proof (bufio_Write_stream p (bw w) (sent c)) as H.
  destruct (bufio.Write p (bw w) (sent c)) as [b' out'].
  intros [= <- <-]. cbn. rewrite <- app_assoc. tauto.
Qed.

Lemma be_value_app (p q : list Z) acc :
  fold_left (fun acc b => acc * 256 + b) (p ++ q) acc
  = fold_left (fun acc b => acc * 256 + b) q (fold_left (fun acc b => acc * 256 + b) p acc).
Proof. apply fold_left_app. Qed.

Lemma be_value_be_bytes (n : nat) : forall v,
  0 <= v -> BigEndian.be_value (BigEndian.be_bytes n v) = v mod 256 ^ Z.of_nat n.
Proof.
  unfold BigEndian.be_value.
  induction n as [|n IH]; intros v Hv.
  - simpl. now rewrite Z.mod_1_r.
  - cbn [BigEndian.be_bytes]. rewrite fold_left_app. cbn [fold_left].
    rewrite IH by (apply Z.div_pos; lia).
    unfold to_byte.
    rewrite Nat2Z.inj_succ, Z.pow_succ_r by lia.
    rewrite Z.rem_mul_r by lia. lia.
Qed.

Lemma be_bytes_length (n : nat) : forall v, length (BigEndian.be_bytes n v) = n.
Proof.
  induction n; intros; simpl; [reflexivity|]. rewrite length_app, IHn. simpl. lia.
Qed.

(** C6: every frame that [writeFrame] emits uses the shortest length
    encoding that holds the payload length: the 7-bit field up to 125, the
    field 126 and two bytes from 126 to 65535, the field 127 and eight
    bytes from 65536 on. *)
Theorem writeFrame_length_encoding (w : msgWriter) (c : Conn) (payload : list Z) :
  exists w' c' e b0 b1 ext,
    writeFrame w c payload = (w', c', e)
    /\ emitted w' c' =
       emitted w c ++ [b0; b1] ++ ext
         ++ (if isServer c then payload
             else match entropy c (drawn c) with
                  | Some m => mask_bytes m ++ xor_mask m payload
                  | None => []
                  end)
    /\ ((len payload <= 125 /\ b1 mod 128 = len payload /\ ext = [])
        \/ (126 <= len payload <= 65535 /\ b1 mod 128 = 126
            /\ length ext = 2%nat /\ BigEndian.Uint16 ext = len payload)
        \/ (65536 <= len payload /\ b1 mod 128 = 127
            /\ length ext = 8%nat
            /\ BigEndian.Uint64 ext = len payload mod 2 ^ 64)).
Proof.
  unfold writeFrame.
  set (b0 := if fin w then _ else _).
  destruct (bw_WriteByte b0 w c) as [w1 c1] eqn:E1.
  apply bw_WriteByte_stream in E1 as (S1 & V1 & N1 & D1).
  rewrite V1.
  set (b1 := if negb (isServer c) then Z.lor 0 maskBit else 0).
  assert (Hb1 : b1 = 0 \/ b1 = 128) by (subst b1; destruct (isServer c); cbn; auto).
  assert (Hlen : 0 <= len payload) by (unfold len; lia).
  (* the three encodings *)
  match goal with
  | |- context [let '(w0, c0) := ?X in _] => destruct X as [w2 c2] eqn:E2
  end.
  assert (exists b1' ext,
      emitted w2 c2 = emitted w c ++ [b0; b1'] ++ ext
      /\ isServer c2 = isServer c /\ entropy c2 = entropy c /\ drawn c2 = drawn c
      /\ ((len payload <= 125 /\ b1' mod 128 = len payload /\ ext = [])
        \/ (126 <= len payload <= 65535 /\ b1' mod 128 = 126
            /\ length ext = 2%nat /\ BigEndian.Uint16 ext = len payload)
        \/ (65536 <= len payload /\ b1' mod 128 = 127
            /\ length ext = 8%nat
            /\ BigEndian.Uint64 ext = len payload mod 2 ^ 64)))
    as (b1' & ext & S2 & V2 & N2 & D2 & Hcase).
  { revert E2. fold b1.
    destruct (Z.leb_spec 65536 (len payload)) as [Hbig|Hsmall].
    - destruct (bw_WriteByte _ w1 c1) as [wa ca] eqn:Ea.
      apply bw_WriteByte_stream in Ea as (Sa & Va & Na & Da).
      intros Eb.
      apply bw_Write_stream in Eb as (Sb & Vb & Nb & Db).
      exists (Z.lor b1 (to_byte 127)), (BigEndian.PutUint64 (len payload mod 2 ^ 64)).
      split.
      { rewrite Sb, Sa, S1, <- !app_assoc. reflexivity. }
      repeat split; try congruence.
      right; right. split; [lia|]. split.
      { destruct Hb1 as [-> | ->]; reflexivity. }
      split; [apply be_bytes_length|].
      unfold BigEndian.Uint64, BigEndian.PutUint64.
      rewrite firstn_all2 by (rewrite be_bytes_length; lia).
      rewrite be_value_be_bytes by (apply Z.mod_pos_bound; lia).
      change (256 ^ Z.of_nat 8) with (2 ^ 64). apply Z.mod_mod. lia.
    - destruct (Z.ltb_spec 125 (len payload)) as [Hmid|Hlow].
      + destruct (bw_WriteByte _ w1 c1) as [wa ca] eqn:Ea.
        apply bw_WriteByte_stream in Ea as (Sa & Va & Na & Da).
        intros Eb.
        apply bw_Write_stream in Eb as (Sb & Vb & Nb & Db).
        exists (Z.lor b1 (to_byte 126)), (BigEndian.PutUint16 (len payload mod 2 ^ 16)).
        split.
        { rewrite Sb, Sa, S1, <- !app_assoc. reflexivity. }
        repeat split; try congruence.
        right; left. split; [lia|]. split.
        { destruct Hb1 as [-> | ->]; reflexivity. }
        split; [reflexivity|].
        unfold BigEndian.Uint16, BigEndian.PutUint16, to_byte. cbn [nth].
        rewrite (Z.mod_small (len payload) (2 ^ 16)) by lia.
        rewrite (Z.mod_small (len payload / 256))
          by (split; [apply Z.div_pos; lia | apply Z.div_lt_upper_bound; lia]).
        pose proof (Z.div_mod (len payload) 256). lia.
      + intros Ea.
        apply bw_WriteByte_stream in Ea as (Sa & Va & Na & Da).
        exists (Z.lor b1 (to_byte (len payload))), [].
        split.
        { rewrite Sa, S1, <- !app_assoc. reflexivity. }
        repeat split; try congruence.
        left. split; [lia|]. split; [|reflexivity].
        destruct (lor_low7 (len payload)) as (L1 & L2 & L3 & L4); [lia|].
        destruct Hb1 as [-> | ->].
        * rewrite L3. apply Z.mod_small; lia.
        * rewrite L1. replace (128 + len payload) with (len payload + 1 * 128) by lia.
          rewrite Z.mod_add by lia. apply Z.mod_small; lia. }
  clear E2. rewrite V2.
  destruct (isServer c) eqn:Srv; cbn [negb].
  - destruct (bw_Write payload w2 c2) as [w3 c3] eqn:E3.
    apply bw_Write_stream in E3 as (S3 & _).
    exists w3, c3, None, b0, b1', ext. split; [reflexivity|]. split; [|exact Hcase].
    rewrite S3, S2, <- !app_assoc. reflexivity.
  - unfold generateMask. rewrite N2, D2.
    destruct (entropy c (drawn c)) as [m|] eqn:Em.
    + destruct (bw_Write (mask_bytes m) w2 _) as [w3 c3] eqn:E3.
      apply bw_Write_stream in E3 as (S3 & _).
      destruct (bw_Write (xor_mask m payload) w3 c3) as [w4 c4] eqn:E4.
      apply bw_Write_stream in E4 as (S4 & _).
      exists w4, c4, None, b0, b1', ext. split; [reflexivity|]. split; [|exact Hcase].
      rewrite S4, S3. unfold emitted in *. cbn [sent set_drawn]. rewrite S2, <- !app_assoc. reflexivity.
    + exists w2, (set_drawn c2 (S (drawn c))), (Some ErrEntropy), b0, b1', ext.
      split; [reflexivity|]. split; [|exact Hcase].
      unfold emitted in *. cbn [sent set_drawn]. rewrite S2, <- !app_assoc, app_nil_r. reflexivity.
Qed.

Lemma len_app {A} (p q : list A) : len (p ++ q) = len p + len q.
Proof. unfold len. rewrite length_app. lia. Qed.

Lemma len_nonneg {A} (p : list A) : 0 <= len p.
Proof. unfold len. lia. Qed.

Lemma lengthField_small (n : Z) :
  0 <= n <= 125 -> Spec.lengthField n = (n, []).
Proof. intros. unfold Spec.lengthField. destruct (Z.leb_spec n 125); [reflexivity|lia]. Qed.

Lemma lengthField_mid (n : Z) :
  126 <= n <= 65535 -> Spec.lengthField n = (126, [n / 256; n mod 256]).
Proof.
  intros. unfold Spec.lengthField.
  destruct (Z.leb_spec n 125); [lia|].
  destruct (Z.leb_spec n 65535); [reflexivity|lia].
Qed.

Lemma opcode_byte (op : Z) :
  0 <= op < 16 -> Z.lor (to_byte op) finBit = 128 + op /\ to_byte op = 0 + op.
Proof.
  intros H. destruct (lor_low7 op) as (L1 & L2 & L3 & L4); [lia|].
  unfold finBit. rewrite L2, L4. lia.
Qed.


(** [writeFrame] on an empty buffer of the size chosen by [NextWriter],
    for a payload that fits a single buffer. *)
Lemma writeFrame_fresh (w : msgWriter) (c : Conn) (payload : list Z) :
  bw w = bufio.mkWriter 1038 [] -> len payload <= 1030 -> 0 <= ft w < 16 ->
  writeFrame w c payload =
  if isServer c then
    (set_bw w (bufio.mkWriter 1038 (Spec.frame (fin w) (ft w) None payload)), c, None)
  else
    match entropy c (drawn c) with
    | Some m =>
        (set_bw w (bufio.mkWriter 1038 (Spec.frame (fin w) (ft w) (Some m) payload)),
         set_drawn c (S (drawn c)), None)
    | None =>
        (set_bw w (bufio.mkWriter 1038
                     (firstn (if 125 <? len payload then 4 else 2)
                        (Spec.frame (fin w) (ft w) (Some (0, 0, 0, 0)) payload))),
         set_drawn c (S (drawn c)), Some ErrEntropy)
    end.
Proof.
  intros Hbw Hlen Hft.
  destruct w as [b f m t]. destruct c as [srv inp out wr cl ent dr].
  cbn in Hbw, Hft. subst b.
  pose proof (len_nonneg payload) as Hpos.
  unfold writeFrame, Spec.frame. red_state.
  assert (Hb0 : (if f then Z.lor (to_byte t) finBit else to_byte t)
                = (if f then 128 else 0) + t).
  { destruct (opcode_byte t Hft) as [-> ->]. destruct f; reflexivity. }
  rewrite Hb0. clear Hb0.
  unfold bw_WriteByte at 1. red_state.
  rewrite bufio_WriteByte_fits by (unfold len; cbn; lia).
  red_state.
  destruct (Z.leb_spec 65536 (len payload)) as [?|_]; [lia|].
  destruct (Z.ltb_spec 125 (len payload)) as [Hmid|Hlow].
  - rewrite lengthField_mid by lia.
    unfold bw_WriteByte at 1. red_state.
    rewrite bufio_WriteByte_fits by (unfold len; cbn; lia).
    red_state.
    unfold bw_Write at 1. red_state.
    rewrite bufio_Write_fits by (unfold len; cbn; lia).
    red_state.
    assert (Hext : BigEndian.PutUint16 (len payload mod 2 ^ 16)
                   = [len payload / 256; len payload mod 256]).
    { unfold BigEndian.PutUint16, to_byte.
      rewrite (Z.mod_small (len payload) (2 ^ 16)) by lia.
      rewrite (Z.mod_small (len payload / 256))
        by (split; [apply Z.div_pos; lia | apply Z.div_lt_upper_bound; lia]).
      reflexivity. }
    rewrite Hext. clear Hext.
    change (Z.lor 0 (to_byte 126)) with (0 + 126).
    change (Z.lor (Z.lor 0 maskBit) (to_byte 126)) with (128 + 126).
    destruct srv; cbn [negb].
    + unfold bw_Write. red_state.
      rewrite bufio_Write_fits by (unfold len in *; cbn; lia).
      reflexivity.
    + unfold generateMask. red_state.
      destruct (ent dr) as [mk|].
      * unfold bw_Write at 1. red_state.
        rewrite bufio_Write_fits by (destruct mk as [[[? ?] ?] ?]; unfold len; cbn; lia).
        red_state.
        unfold bw_Write. red_state.
        rewrite bufio_Write_fits
          by (destruct mk as [[[? ?] ?] ?]; unfold len in *; cbn; rewrite ?length_app, xor_mask_length; cbn; lia).
        destruct mk as [[[? ?] ?] ?]; reflexivity.
      * reflexivity.
  - rewrite lengthField_small by lia.
    destruct (lor_low7 (len payload)) as (L1 & L2 & L3 & L4); [lia|].
    destruct srv; cbn [negb].
    + rewrite L3.
      unfold bw_WriteByte at 1. red_state.
      rewrite bufio_WriteByte_fits by (unfold len; cbn; lia).
      red_state.
      unfold bw_Write. red_state.
      rewrite bufio_Write_fits by (unfold len in *; cbn; lia).
      reflexivity.
    + change (Z.lor 0 maskBit) with 128. rewrite L1.
      unfold bw_WriteByte at 1. red_state.
      rewrite bufio_WriteByte_fits by (unfold len; cbn; lia).
      red_state.
      unfold generateMask. red_state.
      destruct (ent dr) as [mk|].
      * unfold bw_Write at 1. red_state.
        rewrite bufio_Write_fits by (destruct mk as [[[? ?] ?] ?]; unfold len; cbn; lia).
        red_state.
        unfold bw_Write. red_state.
        rewrite bufio_Write_fits
          by (destruct mk as [[[? ?] ?] ?]; unfold len in *; cbn; rewrite ?length_app, xor_mask_length; cbn; lia).
        destruct mk as [[[? ?] ?] ?]; reflexivity.
      * reflexivity.
Qed.

(** ** Reading one frame *)

Lemma header_byte0 (final : bool) (op : Z) :
  0 <= op < 16 ->
  let b0 := (if final then 128 else 0) + op in
  Z.land b0 15 = op
  /\ (Z.land b0 finBit =? 0) = negb final
  /\ (Z.land b0 rsv1Bit =? 0) = true
  /\ (Z.land b0 rsv2Bit =? 0) = true
  /\ (Z.land b0 rsv3Bit =? 0) = true.
Proof.
  intros Hop. cbv zeta.
  pose proof (range_forallb
    (fun op => (Z.land (128 + op) 15 =? op) && negb (Z.land (128 + op) finBit =? 0)
               && (Z.land (128 + op) rsv1Bit =? 0) && (Z.land (128 + op) rsv2Bit =? 0)
               && (Z.land (128 + op) rsv3Bit =? 0)
               && (Z.land (0 + op) 15 =? op) && (Z.land (0 + op) finBit =? 0)
               && (Z.land (0 + op) rsv1Bit =? 0) && (Z.land (0 + op) rsv2Bit =? 0)
               && (Z.land (0 + op) rsv3Bit =? 0)) 16 eq_refl op Hop) as H.
  cbv beta in H. rewrite !andb_true_iff, !negb_true_iff in H.
  destruct final; cbn [negb]; repeat split; rewrite <- ?Z.eqb_eq; tauto.
Qed.

Lemma header_byte1 (masked : bool) (l7 : Z) :
  0 <= l7 < 128 ->
  let b1 := (if masked then 128 else 0) + l7 in
  Z.land b1 127 = l7 /\ (Z.land b1 maskBit =? 0) = negb masked.
Proof.
  intros Hl. cbv zeta.
  pose proof (range_forallb
    (fun l => (Z.land (128 + l) 127 =? l) && negb (Z.land (128 + l) maskBit =? 0)
              && (Z.land (0 + l) 127 =? l) && (Z.land (0 + l) maskBit =? 0))
    128 eq_refl l7 Hl) as H.
  cbv beta in H. rewrite !andb_true_iff, !negb_true_iff in H.
  destruct masked; cbn [negb]; repeat split; rewrite <- ?Z.eqb_eq; tauto.
Qed.

Lemma lengthField_range (n : Z) :
  0 <= n -> 0 <= fst (Spec.lengthField n) < 128.
Proof.
  intros. unfold Spec.lengthField.
  destruct (Z.leb_spec n 125); [cbn; lia|].
  destruct (Z.leb_spec n 65535); cbn; lia.
Qed.

(** Reading back the length field written for [n]. *)
Lemma read_extended_length (c : Conn) (n : Z) (body : list Z) :
  0 <= n < 2 ^ 63 ->
  (let length := fst (Spec.lengthField n) in
   let c := set_br c (snd (Spec.lengthField n) ++ body) in
   if length =? 126 then
     match read c 2 with
     | (c, (_, Some err)) => (c, inr err)
     | (c, (p, None)) => (c, inl (BigEndian.Uint16 p))
     end
   else if length =? 127 then
     match read c 8 with
     | (c, (_, Some err)) => (c, inr err)
     | (c, (p, None)) => (c, inl (to_int64 (BigEndian.Uint64 p)))
     end
   else (c, inl length))
  = (set_br c body, @inl Z error n).
Proof.
  intros Hn. cbv zeta. unfold Spec.lengthField.
  destruct (Z.leb_spec n 125) as [H1|H1].
  - cbn [fst snd app].
    destruct (Z.eqb_spec n 126); [lia|]. destruct (Z.eqb_spec n 127); [lia|].
    reflexivity.
  - destruct (Z.leb_spec n 65535) as [H2|H2].
    + cbn [fst snd]. change (126 =? 126) with true. cbv iota.
      rewrite read_exact by (unfold len; cbn; lia).
      cbv iota beta. unfold BigEndian.Uint16. cbn [nth].
      do 2 f_equal. pose proof (Z.div_mod n 256). lia.
    + cbn [fst snd]. change (127 =? 126) with false. change (127 =? 127) with true.
      cbv iota.
      rewrite read_exact by (unfold len, BigEndian.PutUint64; rewrite ?be_bytes_length; lia).
      cbv iota beta. do 2 f_equal.
      unfold BigEndian.Uint64, BigEndian.PutUint64.
      rewrite firstn_all2 by (rewrite be_bytes_length; lia).
      rewrite be_value_be_bytes by lia.
      change (256 ^ Z.of_nat 8) with (2 ^ 64).
      unfold to_int64. rewrite Z.mod_mod by lia.
      rewrite (Z.mod_small n (2 ^ 64)) by lia.
      destruct (Z.leb_spec (2 ^ 63) n); [lia|reflexivity].
Qed.



Lemma frame_split (final : bool) (op : Z) (key : option Mask) (payload : list Z) :
  Spec.frame final op key payload =
  [(if final then 128 else 0) + op;
   (match key with Some _ => 128 | None => 0 end)
   + fst (Spec.lengthField (len payload))]
  ++ snd (Spec.lengthField (len payload))
  ++ key_bytes key ++ key_apply key payload.
Proof.
  unfold Spec.frame. destruct (Spec.lengthField (len payload)) as [l7 ext].
  destruct key; cbn [fst snd key_bytes key_apply]; rewrite <- ?app_assoc; reflexivity.
Qed.


Lemma frame_header_body (final : bool) (op : Z) (key : option Mask) (payload : list Z) :
  Spec.frame final op key payload
  = frame_header final op key (len payload) ++ key_apply key payload.
Proof. rewrite frame_split. unfold frame_header. now rewrite <- !app_assoc. Qed.

(** What [ReadMessage] does with a well-formed header that announces [n]
    bytes of payload, whatever follows it in the input. *)
Lemma readFrames_header (fuel : nat) (c : Conn) (final : bool) (op : Z)
    (key : option Mask) (n : Z) (body msg : list Z) (mtype mtype' : Z)
    (first : bool) :
  0 <= op < 16 ->
  isServer c = is_some key ->
  0 <= n < 2 ^ 63 ->
  frameErrors false false false final first op (fst (Spec.lengthField n)) mtype
  = (mtype', []) ->
  readFrames (S fuel) (set_br c (frame_header final op key n ++ body))
    msg mtype first
  = match readPayload fuel (set_br c body) n [] with
    | None => None
    | Some (c, inr err) => Some (c, (noFrame, [], Some err))
    | Some (c, inl buf) =>
        if isControl op then
          match handleControl c op (key_apply key buf) with
          | None => None
          | Some (c, Some err) => Some (c, (noFrame, [], Some err))
          | Some (c, None) =>
              readFrames fuel c msg mtype'
                (if negb (mtype' =? noFrame) then false else first)
          end
        else if negb final then
          readFrames fuel c (msg ++ key_apply key buf) mtype' false
        else Some (c, (mtype', msg ++ key_apply key buf, None))
    end.
Proof.
  intros Hop Hsrv Hn Herr.
  unfold frame_header. rewrite <- !app_assoc.
  cbn [readFrames].
  change ([?a; ?b] ++ ?l) with ([a; b] ++ l).
  rewrite (read_exact c [_; _]) by (unfold len; cbn; lia).
  cbv beta iota zeta. cbn [nth].
  destruct (header_byte0 final op Hop) as (B1 & B2 & B3 & B4 & B5).
  destruct (header_byte1 (is_some key) _ (lengthField_range n ltac:(lia))) as (B6 & B7).
  replace (match key with Some _ => 128 | None => 0 end)
    with (if is_some key then 128 else 0) by (destruct key; reflexivity).
  rewrite B1, B2, B3, B4, B5, B6, B7. cbn [negb orb].
  rewrite !negb_involutive.
  cbn [isServer set_br]. rewrite Hsrv, eqb_reflx. cbn [negb].
  rewrite Herr. cbn [len length Z.of_nat]. change (0 <? 0) with false. cbv iota.
  pose proof (read_extended_length c n (key_bytes key ++ body)) as Hext.
  cbv zeta in Hext. rewrite Hext by lia. clear Hext. cbv iota beta.
  assert (Hkey :
    (if is_some key
     then match read (set_br c (key_bytes key ++ body)) 4 with
          | (c0, (_, Some err)) => (c0, inr err)
          | (c0, (p, None)) => (c0, inl (nth 0 p 0, nth 1 p 0, nth 2 p 0, nth 3 p 0))
          end
     else (set_br c (key_bytes key ++ body), inl (0, 0, 0, 0)))
    = (set_br c body, @inl Mask error (key_or_zero key))).
  { destruct key as [[[[k0 k1] k2] k3]|]; cbn [is_some key_bytes key_or_zero].
    - rewrite read_exact by (unfold len; cbn; lia). reflexivity.
    - reflexivity. }
  rewrite Hkey. clear Hkey. cbv iota beta.
  destruct (readPayload fuel (set_br c body) n []) as [[c1 [buf | err]]|];
    [|reflexivity|reflexivity].
  replace (if is_some key then xor_mask (key_or_zero key) buf else buf)
    with (key_apply key buf) by (destruct key; reflexivity).
  reflexivity.
Qed.

(** What [ReadMessage] does with one well-formed frame at the head of its
    input: the frame is consumed and the loop goes on as the source says. *)
Lemma readFrames_frame (fuel : nat) (c : Conn) (final : bool) (op : Z)
    (key : option Mask) (payload rest msg : list Z) (mtype mtype' : Z)
    (first : bool) :
  0 <= op < 16 ->
  isServer c = is_some key ->
  len payload < 2 ^ 63 ->
  frameErrors false false false final first op
    (fst (Spec.lengthField (len payload))) mtype = (mtype', []) ->
  (length payload <= fuel)%nat ->
  readFrames (S fuel) (set_br c (Spec.frame final op key payload ++ rest))
    msg mtype first
  = if isControl op then
      match handleControl (set_br c rest) op payload with
      | None => None
      | Some (c, Some err) => Some (c, (noFrame, [], Some err))
      | Some (c, None) =>
          readFrames fuel c msg mtype'
            (if negb (mtype' =? noFrame) then false else first)
      end
    else if negb final then
      readFrames fuel (set_br c rest) (msg ++ payload) mtype' false
    else Some (set_br c rest, (mtype', msg ++ payload, None)).
Proof.
  intros Hop Hsrv Hlen Herr Hfuel.
  pose proof (len_nonneg payload) as Hpos.
  rewrite frame_header_body, <- app_assoc.
  rewrite (readFrames_header fuel c final op key (len payload) _ msg mtype mtype')
    by (auto; lia).
  replace (len payload) with (len (key_apply key payload))
    by (destruct key; cbn [key_apply]; unfold len; rewrite ?xor_mask_length; reflexivity).
  rewrite readPayload_complete
    by (destruct key; cbn [key_apply]; rewrite ?xor_mask_length; lia).
  cbn [app].
  replace (key_apply key (key_apply key payload)) with payload
    by (destruct key; cbn [key_apply]; [now rewrite xor_mask_involutive | reflexivity]).
  reflexivity.
Qed.

(** ** Writing a message and reading it back *)


Lemma ncopy_ready (w : msgWriter) (c : Conn) (max : Z) :
  ready (bw w) ->
  ncopy w c max =
  (mkMsgWriter (bufio.mkWriter 1038 []) (if max <=? 1030 then true else fin w)
     (mt w) (ft w),
   set_sent c (sent c ++ bufio.buf (bw w)),
   Z.min max 1030).
Proof.
  intros [Hsize Hbuf].
  destruct w as [[sz bf] f m t]. destruct c as [srv inp out wr cl ent dr].
  cbn in Hsize, Hbuf. subst sz.
  unfold ncopy, bufio.Available, maxHeaderSize. red_state.
  destruct Hbuf as [-> | Hfull].
  - cbn [length].
    change (1038 - Z.of_nat 0 - (2 + 8 + 4)) with 1024.
    change (1024 <=? 0) with false. cbv iota.
    change (1024 <? 126 - 8) with false. change (1024 <? 65536 - 6) with true.
    cbv iota. change (1024 + 6) with 1030. rewrite app_nil_r.
    destruct (Z.leb_spec max 1030).
    + rewrite Z.min_l by lia. reflexivity.
    + rewrite Z.min_r by lia. reflexivity.
  - unfold len in Hfull.
    destruct (Z.leb_spec (1038 - Z.of_nat (length bf) - (2 + 8 + 4)) 0); [|lia].
    unfold bufio.Flush. red_state. cbn [length].
    change (1038 - Z.of_nat 0 - (2 + 8 + 4)) with 1024.
    change (1024 <? 126 - 8) with false. change (1024 <? 65536 - 6) with true.
    cbv iota. change (1024 + 6) with 1030.
    destruct (Z.leb_spec max 1030).
    + rewrite Z.min_l by lia. reflexivity.
    + rewrite Z.min_r by lia. reflexivity.
Qed.

Lemma frame_length (final : bool) (op : Z) (key : option Mask) (payload : list Z) :
  (2 + length payload <= length (Spec.frame final op key payload))%nat.
Proof.
  rewrite frame_split. rewrite !length_app.
  destruct key; cbn [key_apply length]; rewrite ?xor_mask_length; lia.
Qed.

Lemma frameErrors_data (final first : bool) (op l7 mtype o : Z) :
  o = 1 \/ o = 2 ->
  (op = o /\ first = true) \/ (op = 0 /\ first = false /\ mtype = o) ->
  frameErrors false false false final first op l7 mtype = (o, []).
Proof.
  intros Ho [[-> ->] | (-> & -> & ->)]; destruct Ho as [-> | ->]; reflexivity.
Qed.

Lemma Write_loop_roundtrip (o : Z) (Ho : o = 1 \/ o = 2) (n : nat) :
  forall (p : list Z) (fuel : nat) (w : msgWriter) (c : Conn),
    (length p <= n)%nat ->
    (length p < fuel)%nat ->
    ready (bw w) -> fin w = false ->
    ft w = o \/ ft w = 0 ->
    (isServer c = false -> forall i, entropy c i <> None) ->
    exists X w' c',
      Write_loop fuel w c p = Some (w', c', None)
      /\ emitted w' c' = emitted w c ++ X
      /\ writer c' = writer c /\ isServer c' = isServer c
      /\ forall (r : Conn) (rest msg : list Z) (mtype : Z) (fuelR : nat),
          isServer r = negb (isServer c) ->
          (ft w = 0 -> mtype = o) ->
          (length X + length rest < fuelR)%nat ->
          readFrames fuelR (set_br r (X ++ rest)) msg mtype (negb (ft w =? 0))
          = Some (set_br r rest, (o, msg ++ p, None)).
Proof.
  induction n as [n IH] using lt_wf_ind.
  intros p fuel w c Hn Hfuel Hready Hfin Hft Hent.
  destruct fuel as [|fuel]; [lia|].
  cbn [Write_loop]. rewrite (ncopy_ready _ _ _ Hready). rewrite Hfin.
  assert (Hop : 0 <= ft w < 16) by (destruct Hft as [-> | ->]; lia).
  set (key := if isServer c then None
              else match entropy c (drawn c) with
                   | Some m => Some m | None => Some (0, 0, 0, 0) end).
  assert (Hkey : is_some key = negb (isServer c)).
  { subst key. destruct (isServer c); [reflexivity|].
    destruct (entropy c (drawn c)); reflexivity. }
  assert (Hstate : forall first mtype,
             first = negb (ft w =? 0) -> (ft w = 0 -> mtype = o) ->
             (ft w = o /\ first = true) \/ (ft w = 0 /\ first = false /\ mtype = o)).
  { intros first mtype -> Hm. destruct Hft as [E | E].
    - left. split; [exact E|]. rewrite E. destruct Ho as [-> | ->]; reflexivity.
    - right. rewrite E. auto. }
  destruct (Z.leb_spec (len p) 1030) as [Hsmall | Hbig].
  - (* the last frame *)
    rewrite Z.min_l by lia.
    replace (Z.to_nat (len p)) with (length p) by (unfold len; lia).
    rewrite firstn_all, skipn_all.
    rewrite writeFrame_fresh by (cbn; auto; lia).
    cbn [fin ft isServer entropy drawn set_sent].
    exists (Spec.frame true (ft w) key p).
    destruct (isServer c) eqn:Srv.
    + do 2 eexists. split; [reflexivity|].
      split; [unfold emitted, key; cbn; rewrite <- ?app_assoc; reflexivity |].
      split; [reflexivity|]. split; [first [reflexivity | exact Srv]|].
      intros r rest msg mtype fuelR Hr Hm HfR.
      destruct fuelR as [|fuelR]; [lia|].
      pose proof (frame_length true (ft w) key p) as Hfl.
      rewrite (readFrames_frame fuelR r true (ft w) key p rest msg mtype o)
        by (try rewrite Hkey; try rewrite Hr; auto; try (unfold len in *; lia);
            apply frameErrors_data; auto).
      assert (isControl (ft w) = false) as -> by (destruct Hft as [-> | ->]; destruct Ho as [-> | ->]; reflexivity).
      reflexivity.
    + specialize (Hent eq_refl). specialize (Hent (drawn c)) as Hd.
      destruct (entropy c (drawn c)) as [m|] eqn:Em; [|congruence].
      do 2 eexists. split; [reflexivity|].
      split; [unfold emitted, key; cbn; rewrite <- ?app_assoc; reflexivity |].
      split; [reflexivity|]. split; [first [reflexivity | exact Srv]|].
      intros r rest msg mtype fuelR Hr Hm HfR.
      destruct fuelR as [|fuelR]; [lia|].
      pose proof (frame_length true (ft w) key p) as Hfl.
      rewrite (readFrames_frame fuelR r true (ft w) key p rest msg mtype o)
        by (try rewrite Hkey; try rewrite Hr; auto; try (unfold len in *; lia);
            apply frameErrors_data; auto).
      assert (isControl (ft w) = false) as -> by (destruct Hft as [-> | ->]; destruct Ho as [-> | ->]; reflexivity).
      reflexivity.
  - (* a full frame, then the rest *)
    rewrite Z.min_r by lia. change (Z.to_nat 1030) with 1030%nat.
    assert (Hl : (1030 < length p)%nat) by (unfold len in Hbig; lia).
    assert (Hhead : len (firstn 1030 p) = 1030)
      by (unfold len; rewrite length_take; lia).
    rewrite writeFrame_fresh by (cbn; auto; lia).
    cbn [fin ft isServer entropy drawn set_sent].
    assert (Htail : (len (skipn 1030 p) =? 0) = false).
    { apply Z.eqb_neq. unfold len. rewrite length_drop. lia. }
    set (frame1 := Spec.frame false (ft w) key (firstn 1030 p)).
    pose proof (frame_length false (ft w) key (firstn 1030 p)) as Hfl.
    fold frame1 in Hfl. rewrite length_take in Hfl.
    destruct (isServer c) eqn:Srv.
    + cbv iota beta. rewrite Htail.
      edestruct (IH (n - 1030)%nat ltac:(lia) (skipn 1030 p) fuel
                   (set_ft (set_bw (mkMsgWriter (bufio.mkWriter 1038 []) false (mt w) (ft w))
                                   (bufio.mkWriter 1038 frame1)) ContMessage)
                   (set_sent c (sent c ++ bufio.buf (bw w))))
        as (X' & w' & c' & HW & HE & Hwr & Hsv & HR).
      { rewrite length_drop. lia. }
      { rewrite length_drop. lia. }
      { split; [reflexivity|]. right. cbn. unfold len. lia. }
      { reflexivity. }
      { right. reflexivity. }
      { cbn [isServer set_sent]. intros; congruence. }
      exists (frame1 ++ X'), w', c'.
      split; [exact HW|].
      split; [rewrite HE; unfold emitted, frame1, key; cbn; rewrite <- ?app_assoc; reflexivity |].
      split; [rewrite Hwr; reflexivity|].
      split; [rewrite Hsv; first [reflexivity | exact Srv]|].
      intros r rest msg mtype fuelR Hr Hm HfR.
      destruct fuelR as [|fuelR]; [lia|].
      rewrite length_app in HfR.
      rewrite <- app_assoc.
      rewrite (readFrames_frame fuelR r false (ft w) key (firstn 1030 p) _ msg mtype o)
        by (try rewrite Hkey; try rewrite Hr; auto; try (rewrite ?Hhead, ?length_take; lia);
            apply frameErrors_data; auto).
      assert (isControl (ft w) = false) as -> by (destruct Hft as [-> | ->]; destruct Ho as [-> | ->]; reflexivity).
      cbn [negb].
      specialize (HR r rest (msg ++ firstn 1030 p) o fuelR).
      cbn [ft set_ft set_bw] in HR. change (negb (ContMessage =? 0)) with false in HR.
      rewrite HR; [| cbn [isServer set_sent set_drawn]; rewrite Srv; exact Hr | reflexivity | lia].
      rewrite <- app_assoc, take_drop. reflexivity.
    + specialize (Hent eq_refl) as Hent'. specialize (Hent' (drawn c)) as Hd.
      destruct (entropy c (drawn c)) as [m|] eqn:Em; [|congruence].
      cbv iota beta. rewrite Htail.
      edestruct (IH (n - 1030)%nat ltac:(lia) (skipn 1030 p) fuel
                   (set_ft (set_bw (mkMsgWriter (bufio.mkWriter 1038 []) false (mt w) (ft w))
                                   (bufio.mkWriter 1038 frame1)) ContMessage)
                   (set_drawn (set_sent c (sent c ++ bufio.buf (bw w))) (S (drawn c))))
        as (X' & w' & c' & HW & HE & Hwr & Hsv & HR).
      { rewrite length_drop. lia. }
      { rewrite length_drop. lia. }
      { split; [reflexivity|]. right. cbn. unfold len. lia. }
      { reflexivity. }
      { right. reflexivity. }
      { cbn [isServer set_sent set_drawn entropy]. intros _. exact (Hent eq_refl). }
      exists (frame1 ++ X'), w', c'.
      split; [exact HW|].
      split; [rewrite HE; unfold emitted, frame1, key; cbn; rewrite <- ?app_assoc; reflexivity |].
      split; [rewrite Hwr; reflexivity|].
      split; [rewrite Hsv; first [reflexivity | exact Srv]|].
      intros r rest msg mtype fuelR Hr Hm HfR.
      destruct fuelR as [|fuelR]; [lia|].
      rewrite length_app in HfR.
      rewrite <- app_assoc.
      rewrite (readFrames_frame fuelR r false (ft w) key (firstn 1030 p) _ msg mtype o)
        by (try rewrite Hkey; try rewrite Hr; auto; try (rewrite ?Hhead, ?length_take; lia);
            apply frameErrors_data; auto).
      assert (isControl (ft w) = false) as -> by (destruct Hft as [-> | ->]; destruct Ho as [-> | ->]; reflexivity).
      cbn [negb].
      specialize (HR r rest (msg ++ firstn 1030 p) o fuelR).
      cbn [ft set_ft set_bw] in HR. change (negb (ContMessage =? 0)) with false in HR.
      rewrite HR; [| cbn [isServer set_sent set_drawn]; rewrite Srv; exact Hr | reflexivity | lia].
      rewrite <- app_assoc, take_drop. reflexivity.
Qed.

(** C1: a text or binary message written with [WriteMessage] on a
    connection of either role (a client masks; long payloads leave in
    several frames) is returned unchanged, with its opcode and no error,
    by [ReadMessage] on a connection of the opposite role that reads the
    bytes produced.  The payload is arbitrary, so this covers the lengths
    0, 1, 125, 126, 127, 65535, 65536 and 1000000.  For a client writer the
    random source is assumed to deliver its masks. *)
Theorem WriteMessage_ReadMessage_roundtrip (o : Z) (p : list Z) (w r : Conn) :
  o = TextMessage \/ o = BinaryMessage ->
  writer w = false ->
  isServer r = negb (isServer w) ->
  (isServer w = false -> forall i, entropy w i <> None) ->
  exists (w' : Conn) (X : list Z),
    WriteMessage w o p = Some (w', None)
    /\ sent w' = sent w ++ X
    /\ forall fuel : nat,
        (length X < fuel)%nat ->
        ReadMessage fuel (set_br r X) = Some (set_br r [], (o, p, None)).
Proof.
  intros Ho Hw Hr Hent.
  unfold WriteMessage, NextWriter. rewrite Hw. cbv beta iota zeta.
  unfold msgWriter_Write. cbn [set_ft mt bw fin ft].
  match goal with
  | |- context [Write_loop _ ?w0 ?c0 p] =>
      destruct (Write_loop_roundtrip o Ho (length p) p (S (length p)) w0 c0)
        as (X & w' & c' & HW & HE & Hwr & Hsv & HR)
  end.
  { lia. }
  { lia. }
  { split; [reflexivity | left; reflexivity]. }
  { reflexivity. }
  { left. reflexivity. }
  { exact Hent. }
  rewrite HW.
  unfold msgWriter_Close. cbn [set_fin bw bufio.Flush set_writer sent].
  eexists. exists X. split; [reflexivity|].
  cbn [sent set_sent].
  unfold emitted in HE. cbn in HE. rewrite app_nil_r in HE.
  split; [exact HE|].
  intros fuel Hf.
  unfold ReadMessage.
  specialize (HR r [] [] noFrame fuel).
  rewrite app_nil_r in HR. cbn [ft set_ft app] in HR.
  assert (negb (o =? 0) = true) as E by (destruct Ho as [-> | ->]; reflexivity).
  rewrite E in HR. apply HR.
  - cbn [isServer set_writer]. exact Hr.
  - intros ->. destruct Ho; discriminate.
  - cbn [length]. lia.
Qed.

Lemma WriteMessage_ReadMessage_roundtrip_witness :
  exists (w' : Conn) (X : list Z),
    WriteMessage (newConn false [] (fixed_mask (1, 2, 3, 4))) TextMessage
      (bytes_of_string "hello") = Some (w', None)
    /\ sent w' = sent (newConn false [] (fixed_mask (1, 2, 3, 4))) ++ X
    /\ forall fuel : nat,
        (length X < fuel)%nat ->
        ReadMessage fuel (set_br (newConn true [] no_mask) X)
        = Some (set_br (newConn true [] no_mask) [],
                (TextMessage, bytes_of_string "hello", None)).
Proof.
  apply (WriteMessage_ReadMessage_roundtrip TextMessage (bytes_of_string "hello")
           (newConn false [] (fixed_mask (1, 2, 3, 4))) (newConn true [] no_mask)).
  - left; reflexivity.
  - reflexivity.
  - reflexivity.
  - intros _ i. discriminate.
Defined.

(** The conversions between strings and bytes. *)
Lemma string_of_bytes_of_string (s : string) :
  string_of_bytes (bytes_of_string s) = s.
Proof.
  unfold string_of_bytes, bytes_of_string.
  rewrite map_map.
  rewrite <- (string_of_list_ascii_of_string s) at 2.
  f_equal.
  rewrite <- (map_id (list_ascii_of_string s)) at 2.
  apply map_ext. intros a. unfold to_byte.
  pose proof (N_ascii_bounded a) as Hb.
  rewrite Z.mod_small by lia.
  rewrite N2Z.id. apply ascii_N_embedding.
Qed.

Lemma len_bytes_of_string (s : string) :
  len (bytes_of_string s) = Z.of_nat (String.length s).
Proof.
  unfold len, bytes_of_string. rewrite length_map. f_equal.
  induction s; simpl; auto.
Qed.

(** [WriteControl] sends one unfragmented frame. *)
Lemma WriteControl_frame (c : Conn) (mt : Z) (msg : list Z) :
  isControl mt = true -> len msg <= 125 ->
  WriteControl c mt msg =
  if isServer c then
    (set_sent c (sent c ++ Spec.frame true mt None msg), None)
  else
    match entropy c (drawn c) with
    | Some m =>
        (set_sent (set_drawn c (S (drawn c)))
           (sent c ++ Spec.frame true mt (Some m) msg), None)
    | None => (set_drawn c (S (drawn c)), Some ErrEntropy)
    end.
Proof.
  intros Hmt Hlen. pose proof (len_nonneg msg) as Hpos.
  unfold WriteControl. rewrite Hmt. cbn [negb].
  assert (Hr : 0 <= mt < 16).
  { unfold isControl, CloseMessage, PongMessage in Hmt.
    apply andb_true_iff in Hmt as [H1 H2]. apply Z.leb_le in H1, H2. lia. }
  destruct (lor_low7 mt) as (M1 & _ & _ & _); [lia|].
  destruct (lor_low7 (len msg)) as (L1 & L2 & L3 & L4); [lia|].
  unfold finBit, maskBit. rewrite M1, L2, L4.
  unfold Spec.frame. rewrite lengthField_small by lia.
  destruct (isServer c).
  - cbn [negb app]. reflexivity.
  - cbn [negb]. unfold generateMask.
    destruct (entropy c (drawn c)) as [m|]; [|reflexivity].
    cbn [sent set_drawn]. rewrite <- !app_assoc. reflexivity.
Qed.

(** [WriteMessage] of a payload that fits one frame, when no writer is
    open. *)
Lemma WriteMessage_single (c : Conn) (mt : Z) (msg : list Z) :
  writer c = false -> 0 <= mt < 16 -> len msg <= 1030 ->
  WriteMessage c mt msg =
  if isServer c then
    Some (set_sent (set_writer c false)
            (sent c ++ Spec.frame true mt None msg), None)
  else
    match entropy c (drawn c) with
    | Some m =>
        Some (set_sent (set_writer (set_drawn c (S (drawn c))) false)
                (sent c ++ Spec.frame true mt (Some m) msg), None)
    | None =>
        Some (set_writer (set_drawn c (S (drawn c))) true, Some ErrEntropy)
    end.
Proof.
  intros Hw Hmt Hlen.
  unfold WriteMessage, NextWriter. rewrite Hw. cbv beta iota zeta.
  unfold msgWriter_Write.
  cbn [Write_loop].
  rewrite ncopy_ready by (split; [reflexivity | left; reflexivity]).
  destruct (Z.leb_spec (len msg) 1030) as [_|]; [|lia].
  rewrite Z.min_l by lia.
  replace (Z.to_nat (len msg)) with (length msg) by (unfold len; lia).
  rewrite firstn_all, skipn_all.
  rewrite writeFrame_fresh by (cbn; auto; lia).
  destruct c as [srv inp out wr cl ent dr]. cbn in Hw. subst wr.
  red_state. cbn [bufio.NewWriterSize].
  destruct srv.
  - cbn. rewrite app_nil_r. reflexivity.
  - destruct (ent dr) as [m|].
    + cbn. rewrite app_nil_r. reflexivity.
    + cbn. rewrite app_nil_r. reflexivity.
Qed.

(** ** Protocol errors *)

Lemma range_forallb2 (P : Z -> Z -> bool) (k1 k2 : nat) :
  forallb (fun a => forallb (P a) (map Z.of_nat (seq 0 k2)))
    (map Z.of_nat (seq 0 k1)) = true ->
  forall a b, 0 <= a < Z.of_nat k1 -> 0 <= b < Z.of_nat k2 -> P a b = true.
Proof.
  intros H a b Ha Hb.
  apply (range_forallb (P a) k2); [|exact Hb].
  apply (range_forallb (fun a => forallb (P a) (map Z.of_nat (seq 0 k2))) k1 H a Ha).
Qed.

Lemma frameErrors_report_indep (r1 r2 r3 final first : bool) (op l7 m1 m2 : Z) :
  snd (frameErrors r1 r2 r3 final first op l7 m1)
  = snd (frameErrors r1 r2 r3 final first op l7 m2).
Proof.
  unfold frameErrors.
  repeat match goal with
         | |- context [if ?b then _ else _] => destruct b
         end; reflexivity.
Qed.

(** The report built by the switch of [ReadMessage] is the list of the
    violated rules, and the close payload made of it fits a control
    frame. *)
Lemma frameErrors_violations (r1 r2 r3 final first masked : bool) (op l7 mtype : Z) :
  0 <= op < 16 -> 0 <= l7 < 128 ->
  let h := Spec.mkHeader final r1 r2 r3 op masked l7 in
  snd (frameErrors r1 r2 r3 final first op l7 mtype) = Spec.violations h (negb first)
  /\ len (FormatCloseMessage CloseProtocolError
            (String.concat "," (Spec.violations h (negb first)))) <= 125.
Proof.
  intros Hop Hl7. cbv zeta.
  rewrite (frameErrors_report_indep _ _ _ _ _ _ _ mtype 0).
  pose (check := fun (op l7 : Z) =>
    bool_decide (snd (frameErrors r1 r2 r3 final first op l7 0)
                 = Spec.violations (Spec.mkHeader final r1 r2 r3 op false l7) (negb first))
    && (len (FormatCloseMessage CloseProtocolError
               (String.concat ","
                  (Spec.violations (Spec.mkHeader final r1 r2 r3 op false l7) (negb first))))
        <=? 125)).
  assert (Hall : forallb (fun a => forallb (check a) (map Z.of_nat (seq 0 128)))
                   (map Z.of_nat (seq 0 16)) = true).
  { subst check. destruct r1, r2, r3, final, first; vm_compute; reflexivity. }
  pose proof (range_forallb2 check 16 128 Hall op l7 Hop Hl7) as H.
  subst check. cbv beta in H.
  apply andb_true_iff in H as [H1 H2].
  apply bool_decide_eq_true in H1. apply Z.leb_le in H2.
  change (Spec.violations (Spec.mkHeader final r1 r2 r3 op masked l7) (negb first))
    with (Spec.violations (Spec.mkHeader final r1 r2 r3 op false l7) (negb first)).
  auto.
Qed.

Lemma decode_matches (b0 b1 : Z) :
  Z.land b0 15 = Spec.h_opcode (Spec.decode b0 b1)
  /\ negb (Z.land b0 finBit =? 0) = Spec.h_fin (Spec.decode b0 b1)
  /\ negb (Z.land b0 rsv1Bit =? 0) = Spec.h_rsv1 (Spec.decode b0 b1)
  /\ negb (Z.land b0 rsv2Bit =? 0) = Spec.h_rsv2 (Spec.decode b0 b1)
  /\ negb (Z.land b0 rsv3Bit =? 0) = Spec.h_rsv3 (Spec.decode b0 b1)
  /\ negb (Z.land b1 maskBit =? 0) = Spec.h_mask (Spec.decode b0 b1)
  /\ Z.land b1 127 = Spec.h_len7 (Spec.decode b0 b1).
Proof.
  cbn [Spec.decode Spec.h_opcode Spec.h_fin Spec.h_rsv1 Spec.h_rsv2 Spec.h_rsv3
       Spec.h_mask Spec.h_len7].
  change 15 with (2 ^ 4 - 1). change 127 with (2 ^ 7 - 1).
  change finBit with (2 ^ 7). change maskBit with (2 ^ 7).
  change rsv1Bit with (2 ^ 6). change rsv2Bit with (2 ^ 5). change rsv3Bit with (2 ^ 4).
  rewrite !land_ones_mod, !land_pow2_testbit, !negb_involutive by lia.
  repeat split; reflexivity.
Qed.

Lemma decode_eta (b0 b1 : Z) :
  Spec.decode b0 b1 =
  Spec.mkHeader (Spec.h_fin (Spec.decode b0 b1)) (Spec.h_rsv1 (Spec.decode b0 b1))
    (Spec.h_rsv2 (Spec.decode b0 b1)) (Spec.h_rsv3 (Spec.decode b0 b1))
    (Spec.h_opcode (Spec.decode b0 b1)) (Spec.h_mask (Spec.decode b0 b1))
    (Spec.h_len7 (Spec.decode b0 b1)).
Proof. reflexivity. Qed.

(** C3, as the code has it: on a connection with no message writer open,
    for a frame whose MASK bit is the expected one, when at least one of
    the other rules fails (RSV bits, unknown opcode, control frame longer
    than 125 or without FIN, data frame inside a fragmented message,
    continuation outside one), [ReadMessage] sends one close frame with
    code 1002 whose reason is the comma-separated list of all the failed
    rules of that frame, and returns the error "websocket: " followed by
    that list.  On a client the random source is assumed to deliver the
    mask of the close frame. *)
Theorem ReadMessage_protocol_error (c : Conn) (b0 b1 : Z) (rest msg : list Z)
    (mtype : Z) (first : bool) (fuel : nat) :
  writer c = false ->
  (isServer c = false -> entropy c (drawn c) <> None) ->
  Spec.h_mask (Spec.decode b0 b1) = isServer c ->
  Spec.violations (Spec.decode b0 b1) (negb first) <> [] ->
  exists c',
    readFrames (S fuel) (set_br c (b0 :: b1 :: rest)) msg mtype first
    = Some (c', (noFrame, [],
                 Some (ErrorString
                         ("websocket: " +:+
                          String.concat ","
                            (Spec.violations (Spec.decode b0 b1) (negb first))))))
    /\ sent c' =
       sent c ++ Spec.frame true CloseMessage
                   (if isServer c then None else entropy c (drawn c))
                   (Spec.closePayload CloseProtocolError
                      (String.concat ","
                         (Spec.violations (Spec.decode b0 b1) (negb first)))).
Proof.
  intros Hw Hent Hmask Hviol.
  destruct (decode_matches b0 b1) as (D1 & D2 & D3 & D4 & D5 & D6 & D7).
  cbn [readFrames].
  change (b0 :: b1 :: rest) with ([b0; b1] ++ rest).
  rewrite (read_exact c [b0; b1]) by (unfold len; cbn; lia).
  cbv beta iota zeta. cbn [nth].
  rewrite D1, D2, D3, D4, D5, D6, D7.
  cbn [isServer set_br]. rewrite Hmask, eqb_reflx. cbn [negb].
  assert (Hop : 0 <= Spec.h_opcode (Spec.decode b0 b1) < 16)
    by (cbn; apply Z.mod_pos_bound; lia).
  assert (Hl7 : 0 <= Spec.h_len7 (Spec.decode b0 b1) < 128)
    by (cbn; apply Z.mod_pos_bound; lia).
  destruct (frameErrors_violations
              (Spec.h_rsv1 (Spec.decode b0 b1)) (Spec.h_rsv2 (Spec.decode b0 b1))
              (Spec.h_rsv3 (Spec.decode b0 b1)) (Spec.h_fin (Spec.decode b0 b1))
              first (Spec.h_mask (Spec.decode b0 b1))
              _ _ mtype Hop Hl7) as [Herrs Hfit].
  rewrite <- decode_eta in Herrs, Hfit.
  destruct (frameErrors _ _ _ _ _ _ _ _) as [mt' errs]. cbn [snd] in Herrs. subst errs.
  assert ((0 <? len (Spec.violations (Spec.decode b0 b1) (negb first))) = true) as ->.
  { apply Z.ltb_lt. unfold len.
    destruct (Spec.violations _ _); [congruence | cbn; lia]. }
  unfold handleProtocolError.
  rewrite WriteMessage_single by (cbn [writer set_br]; auto; unfold CloseMessage; lia).
  cbn [isServer set_br entropy drawn].
  assert (Hpay : FormatCloseMessage CloseProtocolError
                   (String.concat "," (Spec.violations (Spec.decode b0 b1) (negb first)))
                 = Spec.closePayload CloseProtocolError
                     (String.concat "," (Spec.violations (Spec.decode b0 b1) (negb first))))
    by reflexivity.
  rewrite Hpay.
  destruct (isServer c) eqn:Srv.
  - eexists. split; [reflexivity|]. reflexivity.
  - specialize (Hent eq_refl).
    destruct (entropy c (drawn c)) as [m|]; [|congruence].
    eexists. split; [reflexivity|]. reflexivity.
Qed.

(** ** Control frames *)

Lemma frameErrors_control (first : bool) (op l7 mtype : Z) :
  isControl op = true -> l7 <= 125 ->
  frameErrors false false false true first op l7 mtype = (mtype, []).
Proof.
  intros Hop Hl. unfold isControl, CloseMessage, PongMessage in Hop.
  apply andb_true_iff in Hop as [H1 H2]. apply Z.leb_le in H1, H2.
  assert (op = 8 \/ op = 9 \/ op = 10) as [-> | [-> | ->]] by lia;
    unfold frameErrors, maxPayloadDate; cbn;
    destruct (Z.ltb_spec 125 l7); try lia; reflexivity.
Qed.

(** A well-formed control frame at the head of the input is handed to
    [handleControl] with its payload unmasked. *)
Lemma readFrames_control (fuel : nat) (c : Conn) (op : Z) (key : option Mask)
    (payload rest msg : list Z) (mtype : Z) (first : bool) :
  isControl op = true ->
  isServer c = is_some key ->
  len payload <= 125 ->
  (length payload <= fuel)%nat ->
  readFrames (S fuel) (set_br c (Spec.frame true op key payload ++ rest))
    msg mtype first
  = match handleControl (set_br c rest) op payload with
    | None => None
    | Some (c, Some err) => Some (c, (noFrame, [], Some err))
    | Some (c, None) =>
        readFrames fuel c msg mtype
          (if negb (mtype =? noFrame) then false else first)
    end.
Proof.
  intros Hop Hsrv Hlen Hfuel.
  pose proof (len_nonneg payload).
  rewrite (readFrames_frame fuel c true op key payload rest msg mtype mtype first).
  - rewrite Hop. reflexivity.
  - unfold isControl, CloseMessage, PongMessage in Hop.
    apply andb_true_iff in Hop as [H1 H2]. apply Z.leb_le in H1, H2. lia.
  - exact Hsrv.
  - lia.
  - rewrite lengthField_small by lia. cbn [fst].
    apply frameErrors_control; auto.
  - exact Hfuel.
Qed.

Lemma closePayload_code (code : Z) (reason : string) :
  0 <= code < 65536 ->
  BigEndian.Uint16 (Spec.closePayload code reason) = code
  /\ skipn 2 (Spec.closePayload code reason) = bytes_of_string reason
  /\ 2 <= len (Spec.closePayload code reason)
  /\ FormatCloseMessage code reason
     = if code =? CloseNoStatusReceived then []
       else Spec.closePayload code reason.
Proof.
  intros Hc. unfold Spec.closePayload, BigEndian.Uint16, FormatCloseMessage.
  cbn [app nth skipn]. repeat split.
  - pose proof (Z.div_mod code 256). lia.
  - unfold len. cbn [length]. lia.
  - destruct (code =? CloseNoStatusReceived); [reflexivity|].
    unfold BigEndian.PutUint16, to_byte.
    rewrite (Z.mod_small code (2 ^ 16)) by lia.
    rewrite (Z.mod_small (code / 256))
      by (split; [apply Z.div_pos; lia | apply Z.div_lt_upper_bound; lia]).
    reflexivity.
Qed.

Lemma acceptedOnReceipt_range (code : Z) :
  Spec.acceptedOnReceipt code -> 0 <= code < 65536 /\ code <> CloseNoStatusReceived.
Proof.
  unfold Spec.acceptedOnReceipt, Spec.enumeration, CloseNoStatusReceived. cbn [In].
  intros [[H ?] | H]; [|lia]. intuition lia.
Qed.

(** C4: a close frame with an accepted code and a reason (for instance
    close(1000, "bye")) is answered with a close frame carrying the same
    code and reason, and [ReadMessage] returns the close error with that
    code and text; no message is delivered.  On a client the random source
    is assumed to deliver the mask of the echo. *)
Theorem ReadMessage_close_echo (c : Conn) (key : option Mask) (code : Z)
    (reason : string) (rest msg : list Z) (mtype : Z) (first : bool) (fuel : nat) :
  isServer c = is_some key ->
  Spec.acceptedOnReceipt code ->
  len (Spec.closePayload code reason) <= 125 ->
  (length (Spec.closePayload code reason) <= fuel)%nat ->
  (isServer c = false -> entropy c (drawn c) <> None) ->
  exists c',
    readFrames (S fuel)
      (set_br c (Spec.frame true CloseMessage key (Spec.closePayload code reason)
                 ++ rest))
      msg mtype first
    = Some (c', (noFrame, [],
                 Some (CloseErr {| Code := code; Text := reason |})))
    /\ sent c' =
       sent c ++ Spec.frame true CloseMessage (next_key c)
                   (Spec.closePayload code reason)
    /\ br c' = rest.
Proof.
  intros Hsrv Hacc Hlen Hfuel Hent.
  destruct (acceptedOnReceipt_range code Hacc) as [Hr Hne].
  destruct (closePayload_code code reason Hr) as (P1 & P2 & P3 & P4).
  rewrite readFrames_control by auto.
  unfold handleControl. change (CloseMessage =? CloseMessage) with true. cbv iota.
  destruct (Z.leb_spec 2 (len (Spec.closePayload code reason))); [|lia].
  rewrite P1, P2, string_of_bytes_of_string.
  apply isValidReceivedCloseCode_iff in Hacc. rewrite Hacc. cbn [negb].
  unfold handleClose. rewrite P4.
  destruct (Z.eqb_spec code CloseNoStatusReceived); [congruence|].
  rewrite WriteControl_frame by auto.
  unfold next_key. cbn [isServer set_br entropy drawn sent].
  destruct (isServer c) eqn:Srv.
  - eexists. split; [reflexivity|]. split; reflexivity.
  - specialize (Hent eq_refl).
    destruct (entropy c (drawn c)) as [m|]; [|congruence].
    eexists. split; [reflexivity|]. split; reflexivity.
Qed.

(** C10: a close frame with a payload of one byte is no protocol error:
    the byte is dropped, the echo is a close frame with an empty payload,
    and [ReadMessage] returns the close error 1005 with an empty text. *)
Theorem ReadMessage_close_one_byte (c : Conn) (key : option Mask) (b : Z)
    (rest msg : list Z) (mtype : Z) (first : bool) (fuel : nat) :
  isServer c = is_some key ->
  (isServer c = false -> entropy c (drawn c) <> None) ->
  exists c',
    readFrames (S (S fuel))
      (set_br c (Spec.frame true CloseMessage key [b] ++ rest)) msg mtype first
    = Some (c', (noFrame, [],
                 Some (CloseErr {| Code := CloseNoStatusReceived; Text := "" |})))
    /\ sent c' = sent c ++ Spec.frame true CloseMessage (next_key c) []
    /\ br c' = rest.
Proof.
  intros Hsrv Hent.
  rewrite readFrames_control by (auto; unfold len; cbn; lia).
  unfold handleControl. change (CloseMessage =? CloseMessage) with true. cbv iota.
  change (2 <=? len [b]) with false. cbv iota.
  unfold handleClose.
  change (FormatCloseMessage CloseNoStatusReceived "") with (@nil Z).
  rewrite WriteControl_frame by (auto; unfold len; cbn; lia).
  unfold next_key. cbn [isServer set_br entropy drawn sent].
  destruct (isServer c) eqn:Srv.
  - eexists. split; [reflexivity|]. split; reflexivity.
  - specialize (Hent eq_refl).
    destruct (entropy c (drawn c)) as [m|]; [|congruence].
    eexists. split; [reflexivity|]. split; reflexivity.
Qed.

Lemma WriteMessage_returns (c : Conn) (mt : Z) (msg : list Z) :
  0 <= mt < 16 -> len msg <= 1030 ->
  exists c' e, WriteMessage c mt msg = Some (c', e).
Proof.
  intros Hmt Hlen.
  destruct (writer c) eqn:Hw.
  - unfold WriteMessage, NextWriter. rewrite Hw. eauto.
  - rewrite WriteMessage_single by auto.
    destruct (isServer c); [eauto|].
    destruct (entropy c (drawn c)); eauto.
Qed.

(** C5: the code read from a close payload of at least two bytes is
    accepted exactly when it is a code of the enumeration other than 1005,
    1006 and 1015, or lies in 3000-4999; an accepted code gives the close
    error with that code, any other code gives the protocol error "bad
    close code". *)
Theorem close_code_acceptance (c : Conn) (payload : list Z) :
  2 <= len payload ->
  (isValidReceivedCloseCode (BigEndian.Uint16 payload) = true
   <-> Spec.acceptedOnReceipt (BigEndian.Uint16 payload))
  /\ (Spec.acceptedOnReceipt (BigEndian.Uint16 payload) ->
      exists c',
        handleControl c CloseMessage payload
        = Some (c', Some (CloseErr {| Code := BigEndian.Uint16 payload;
                                      Text := string_of_bytes (skipn 2 payload) |})))
  /\ (~ Spec.acceptedOnReceipt (BigEndian.Uint16 payload) ->
      exists c',
        handleControl c CloseMessage payload
        = Some (c', Some (ErrorString "websocket: bad close code"))).
Proof.
  intros Hlen.
  split; [apply isValidReceivedCloseCode_iff|].
  unfold handleControl. change (CloseMessage =? CloseMessage) with true. cbv iota.
  destruct (Z.leb_spec 2 (len payload)); [|lia].
  split; intros Hacc.
  - apply isValidReceivedCloseCode_iff in Hacc. rewrite Hacc. cbn [negb].
    destruct (handleClose c _ _) as [c' e]. eauto.
  - destruct (isValidReceivedCloseCode (BigEndian.Uint16 payload)) eqn:E.
    + apply isValidReceivedCloseCode_iff in E. contradiction.
    + cbn [negb]. unfold handleProtocolError.
      destruct (WriteMessage_returns c CloseMessage
                  (FormatCloseMessage CloseProtocolError "bad close code"))
        as (c' & e & ->); [unfold CloseMessage; lia | vm_compute; congruence |].
      eauto.
Qed.

(** The payload loop when the stream ends before the payload does. *)
Lemma readPayload_eof (fuel : nat) :
  forall (c : Conn) (n : Z) (buf : list Z),
    len (br c) < n -> n - len (br c) <= 1024 ->
    (length (br c) + 2 <= fuel)%nat ->
    exists c', readPayload fuel c n buf = Some (c', inr errUnexpectedEOF).
Proof.
  induction fuel as [|fuel IH]; intros c n buf Hshort Hmiss Hfuel; [lia|].
  pose proof (len_nonneg (br c)) as Hpos.
  cbn [readPayload]. destruct (Z.leb_spec n 0); [lia|].
  destruct (Z.le_gt_cases n 1024) as [Hs | Hb].
  - rewrite read_eof by lia. eauto.
  - rewrite read_chunk by lia.
    destruct (Nat.le_gt_cases 1024 (length (br c))) as [Hfull | Hpart].
    + apply IH; cbn [br set_br]; unfold len in *;
        rewrite ?length_take, ?length_drop; lia.
    + rewrite take_ge, drop_ge by lia.
      destruct fuel as [|fuel]; [lia|].
      cbn [readPayload].
      destruct (Z.leb_spec (n - len (br c)) 0); [lia|].
      rewrite read_eof by (cbn [br set_br]; unfold len in *; cbn [length]; lia).
      eauto.
Qed.

(** The payload loop makes no progress once the input is exhausted while
    more than a buffer is still expected. *)
Lemma readPayload_starved (fuel : nat) :
  forall (c : Conn) (n : Z) (buf : list Z),
    1024 < n - len (br c) -> readPayload fuel c n buf = None.
Proof.
  induction fuel as [|fuel IH]; intros c n buf Hmiss;
    pose proof (len_nonneg (br c)) as Hpos; cbn [readPayload];
    (destruct (Z.leb_spec n 0); [lia|]); [reflexivity|].
  rewrite read_chunk by lia.
  apply IH. cbn [br set_br]. unfold len in *.
  rewrite length_take, length_drop. lia.
Qed.

(** End of stream inside the two header bytes. *)
Lemma readFrames_eof_header (fuel : nat) (c : Conn) (msg : list Z) (mtype : Z)
    (first : bool) :
  len (br c) < 2 ->
  readFrames (S fuel) c msg mtype first
  = Some (c, (noFrame, [], Some errUnexpectedEOF)).
Proof.
  intros H. cbn [readFrames]. rewrite read_eof by lia. reflexivity.
Qed.

(** End of stream inside a payload of which at most 1024 bytes are
    missing: the abnormal-closure error. *)
Lemma readFrames_eof_payload (fuel : nat) (c : Conn) (final : bool) (op : Z)
    (key : option Mask) (n : Z) (body msg : list Z) (mtype mtype' : Z)
    (first : bool) :
  0 <= op < 16 ->
  isServer c = is_some key ->
  n < 2 ^ 63 ->
  frameErrors false false false final first op (fst (Spec.lengthField n)) mtype
  = (mtype', []) ->
  len body < n -> n - len body <= 1024 ->
  (length body + 2 <= fuel)%nat ->
  exists c',
    readFrames (S fuel) (set_br c (frame_header final op key n ++ body))
      msg mtype first
    = Some (c', (noFrame, [], Some errUnexpectedEOF)).
Proof.
  intros Hop Hsrv Hn Herr Hshort Hmiss Hfuel.
  pose proof (len_nonneg body).
  rewrite (readFrames_header fuel c final op key n body msg mtype mtype')
    by (auto; lia).
  destruct (readPayload_eof fuel (set_br c body) n []) as [c' ->]; auto.
  eauto.
Qed.

(** End of stream inside a payload of which more than 1024 bytes are
    missing: the loop never ends. *)
Lemma readFrames_starved (fuel : nat) (c : Conn) (final : bool) (op : Z)
    (key : option Mask) (n : Z) (body msg : list Z) (mtype mtype' : Z)
    (first : bool) :
  0 <= op < 16 ->
  isServer c = is_some key ->
  n < 2 ^ 63 ->
  frameErrors false false false final first op (fst (Spec.lengthField n)) mtype
  = (mtype', []) ->
  1024 < n - len body ->
  readFrames fuel (set_br c (frame_header final op key n ++ body))
    msg mtype first = None.
Proof.
  intros Hop Hsrv Hn Herr Hmiss.
  pose proof (len_nonneg body).
  destruct fuel as [|fuel]; [reflexivity|].
  rewrite (readFrames_header fuel c final op key n body msg mtype mtype')
    by (auto; lia).
  rewrite readPayload_starved by (cbn [br set_br]; lia).
  reflexivity.
Qed.


(** C7 fails on the code: when the stream ends inside a payload of which
    more than 1024 bytes are still missing, [ReadMessage] never returns.
    Here a server reads the header of a masked binary frame of 2048 bytes
    and its mask key, and then meets the end of the stream: whatever the
    fuel, the loop that reads the payload is still running. *)
Theorem ReadMessage_eof_in_long_payload_spins (fuel : nat) :
  ReadMessage fuel (newConn true truncated_frame no_mask) = None.
Proof.
  destruct fuel as [|fuel]; [reflexivity|].
  unfold ReadMessage. cbn [readFrames].
  remember (readPayload fuel) as RP eqn:ERP.
  remember (readFrames fuel) as RF eqn:ERF.
  vm_compute.
  subst RP. rewrite readPayload_starved; [reflexivity | reflexivity].
Qed.

(** ** Witnesses and examples *)

Lemma ReadMessage_protocol_error_witness :
  exists c',
    readFrames 1 (set_br (newConn true [] no_mask) [0x83; 0x80]) [] noFrame true
    = Some (c', (noFrame, [],
                 Some (ErrorString
                         ("websocket: " +:+
                          String.concat ","
                            (Spec.violations (Spec.decode 0x83 0x80) (negb true))))))
    /\ sent c' =
       sent (newConn true [] no_mask)
       ++ Spec.frame true CloseMessage
            (if isServer (newConn true [] no_mask) then None
             else entropy (newConn true [] no_mask) (drawn (newConn true [] no_mask)))
            (Spec.closePayload CloseProtocolError
               (String.concat ","
                  (Spec.violations (Spec.decode 0x83 0x80) (negb true)))).
Proof.
  apply (ReadMessage_protocol_error (newConn true [] no_mask) 0x83 0x80 [] []
           noFrame true 0).
  - reflexivity.
  - intros H. discriminate H.
  - reflexivity.
  - vm_compute. discriminate.
Defined.

Lemma ReadMessage_protocol_error_counterexample :
  (exists c',
      ReadMessage 1 (newConn true [0x81; 0x00] no_mask)
      = Some (c', (noFrame, [], Some (ErrorString "bad MASK")))
      /\ sent c' = [])
  /\ (exists c',
      ReadMessage 1 (set_writer (newConn true [0xC1; 0x80; 0; 0; 0; 0] no_mask) true)
      = Some (c', (noFrame, [], Some (ErrorString "websocket: RSV bits set")))
      /\ sent c' = []).
Proof.
  split; eexists; split; vm_compute; reflexivity.
Qed.

Lemma ReadMessage_close_echo_witness :
  exists c',
    readFrames 6
      (set_br (newConn true [] no_mask)
         (Spec.frame true CloseMessage (Some (1, 2, 3, 4))
            (Spec.closePayload 1000 "bye") ++ []))
      [] noFrame true
    = Some (c', (noFrame, [], Some (CloseErr {| Code := 1000; Text := "bye" |})))
    /\ sent c' =
       sent (newConn true [] no_mask)
       ++ Spec.frame true CloseMessage (next_key (newConn true [] no_mask))
            (Spec.closePayload 1000 "bye")
    /\ br c' = [].
Proof.
  apply (ReadMessage_close_echo (newConn true [] no_mask) (Some (1, 2, 3, 4))
           1000 "bye" [] [] noFrame true 5).
  - reflexivity.
  - left. cbn. intuition lia.
  - vm_compute. discriminate.
  - vm_compute. lia.
  - intros H. discriminate H.
Defined.

Lemma ReadMessage_close_one_byte_witness :
  exists c',
    readFrames 2
      (set_br (newConn false [] (fixed_mask (9, 8, 7, 6)))
         (Spec.frame true CloseMessage None [3] ++ []))
      [] noFrame true
    = Some (c', (noFrame, [],
                 Some (CloseErr {| Code := CloseNoStatusReceived; Text := "" |})))
    /\ sent c' =
       sent (newConn false [] (fixed_mask (9, 8, 7, 6)))
       ++ Spec.frame true CloseMessage
            (next_key (newConn false [] (fixed_mask (9, 8, 7, 6)))) []
    /\ br c' = [].
Proof.
  apply (ReadMessage_close_one_byte (newConn false [] (fixed_mask (9, 8, 7, 6)))
           None 3 [] [] noFrame true 0).
  - reflexivity.
  - intros _ H. discriminate H.
Defined.

Lemma close_code_acceptance_witness :
  (isValidReceivedCloseCode (BigEndian.Uint16 [3; 237]) = true
   <-> Spec.acceptedOnReceipt (BigEndian.Uint16 [3; 237]))
  /\ (Spec.acceptedOnReceipt (BigEndian.Uint16 [3; 237]) ->
      exists c',
        handleControl (newConn true [] no_mask) CloseMessage [3; 237]
        = Some (c', Some (CloseErr {| Code := BigEndian.Uint16 [3; 237];
                                      Text := string_of_bytes (skipn 2 [3; 237]) |})))
  /\ (~ Spec.acceptedOnReceipt (BigEndian.Uint16 [3; 237]) ->
      exists c',
        handleControl (newConn true [] no_mask) CloseMessage [3; 237]
        = Some (c', Some (ErrorString "websocket: bad close code"))).
Proof.
  apply (close_code_acceptance (newConn true [] no_mask) [3; 237]).
  vm_compute. discriminate.
Defined.

(** The scenarios of the specification, run on the model. *)

Example scenario_hello_client :
  exists c',
    WriteMessage (newConn false [] (fixed_mask (1, 2, 3, 4))) TextMessage
      (bytes_of_string "hello") = Some (c', None)
    /\ sent c' = [0x81; 0x85; 1; 2; 3; 4]
                 ++ xor_mask (1, 2, 3, 4) (bytes_of_string "hello").
Proof. eexists. split; vm_compute; reflexivity. Qed.

Example scenario_hello_server :
  exists c',
    WriteMessage (newConn true [] no_mask) TextMessage (bytes_of_string "hello")
    = Some (c', None)
    /\ sent c' = [0x81; 0x05] ++ bytes_of_string "hello".
Proof. eexists. split; vm_compute; reflexivity. Qed.

Example scenario_binary_200 :
  exists c',
    WriteMessage (newConn false [] (fixed_mask (1, 2, 3, 4))) BinaryMessage
      (repeat 7 200) = Some (c', None)
    /\ firstn 8 (sent c') = [0x82; 0xFE; 0x00; 0xC8; 1; 2; 3; 4].
Proof. eexists. split; vm_compute; reflexivity. Qed.

Example scenario_two_fragments :
  ReadMessage 20
    (newConn false ([0x01; 0x03] ++ bytes_of_string "abc"
                    ++ [0x80; 0x02] ++ bytes_of_string "de") no_mask)
  = Some (newConn false [] no_mask, (TextMessage, bytes_of_string "abcde", None)).
Proof. vm_compute. reflexivity. Qed.

Example scenario_bad_opcode :
  exists c',
    ReadMessage 20 (newConn false [0x83; 0x00] (fixed_mask (0, 0, 0, 0)))
    = Some (c', (noFrame, [], Some (ErrorString "websocket: bad opcode 3")))
    /\ sent c' = [0x88; 0x8E; 0; 0; 0; 0; 0x03; 0xEA]
                 ++ bytes_of_string "bad opcode 3".
Proof. eexists. split; vm_compute; reflexivity. Qed.

Example scenario_ping :
  exists c',
    ReadMessage 20
      (newConn false ([0x89; 0x03] ++ bytes_of_string "abc"
                      ++ [0x81; 0x02] ++ bytes_of_string "hi")
         (fixed_mask (0, 0, 0, 0)))
    = Some (c', (TextMessage, bytes_of_string "hi", None))
    /\ sent c' = [0x8A; 0x83; 0; 0; 0; 0] ++ bytes_of_string "abc".
Proof. eexists. split; vm_compute; reflexivity. Qed.

Example scenario_eof_in_header :
  ReadMessage 20 (newConn true [0x81] no_mask)
  = Some (newConn true [0x81] no_mask, (noFrame, [], Some errUnexpectedEOF)).
Proof. vm_compute. reflexivity. Qed.

Example scenario_eof_in_short_payload :
  exists c',
    ReadMessage 20 (newConn true [0x81; 0x85; 1; 2; 3; 4; 0x68] no_mask)
    = Some (c', (noFrame, [], Some errUnexpectedEOF)).
Proof. eexists. vm_compute. reflexivity. Qed.

(** A message of 70000 bytes leaves the writer in frames of 1030 bytes of
    payload: the first frame is not final and carries a 16-bit length. *)
Example long_message_first_frame :
  option_map (fun r => (firstn 4 (sent (fst r)), snd r))
    (WriteMessage (newConn true [] no_mask) BinaryMessage
       (repeat 7 (Z.to_nat 70000)))
  = Some ([0x02; 0x7E; 0x04; 0x06], None).
Proof. vm_compute. reflexivity. Qed.

(** * Further properties of the code

    ** The message writer in any state of its buffer *)

Lemma bufio_WriteByte_ex (x : Z) (b : bufio.Writer) (out : list Z) :
  exists b' out',
    bufio.WriteByte x b out = (b', out')
    /\ out' ++ bufio.buf b' = (out ++ bufio.buf b) ++ [x]
    /\ bufio.size b' = bufio.size b.
Proof.
  pose proof (bufio_WriteByte_stream x b out) as H.
  destruct (bufio.WriteByte x b out) as [b' out'].
  rewrite <- app_assoc. eauto.
Qed.

Lemma bufio_Write_ex (p : list Z) (b : bufio.Writer) (out : list Z) :
  exists b' out',
    bufio.Write p b out = (b', out')
    /\ out' ++ bufio.buf b' = (out ++ bufio.buf b) ++ p
    /\ bufio.size b' = bufio.size b.
Proof.
  pose proof (bufio_Write_stream p b out) as H.
  destruct (bufio.Write p b out) as [b' out'].
  rewrite <- app_assoc. eauto.
Qed.

Ltac step_bufio :=
  red_state;
  match goal with
  | |- context [bufio.WriteByte ?x ?b ?o] =>
      let b' := fresh "b" in let o' := fresh "o" in
      let E := fresh "E" in let S := fresh "S" in let Z := fresh "Z" in
      destruct (bufio_WriteByte_ex x b o) as (b' & o' & E & S & Z);
      rewrite E; clear E; red_state; cbv beta iota
  | |- context [bufio.Write ?x ?b ?o] =>
      let b' := fresh "b" in let o' := fresh "o" in
      let E := fresh "E" in let S := fresh "S" in let Z := fresh "Z" in
      destruct (bufio_Write_ex x b o) as (b' & o' & E & S & Z);
      rewrite E; clear E; red_state; cbv beta iota
  end.

Ltac chain_stream :=
  red_state;
  repeat match goal with
         | H : _ ++ bufio.buf _ = _ |- _ => rewrite H; clear H; red_state
         end;
  rewrite <- ?app_assoc; reflexivity.

Lemma lengthField_big (n : Z) :
  65536 <= n -> Spec.lengthField n = (127, BigEndian.PutUint64 n).
Proof.
  intros. unfold Spec.lengthField.
  destruct (Z.leb_spec n 125); [lia|].
  destruct (Z.leb_spec n 65535); [lia|reflexivity].
Qed.

(** [writeFrame] in any state of the buffer: the bytes of one frame are
    appended to what the writer has emitted. *)
Lemma writeFrame_stream (w : msgWriter) (c : Conn) (payload : list Z) :
  0 <= ft w < 16 -> len payload < 2 ^ 64 ->
  exists b' out',
    bufio.size b' = bufio.size (bw w)
    /\ if isServer c then
         writeFrame w c payload = (set_bw w b', set_sent c out', None)
         /\ out' ++ bufio.buf b'
            = emitted w c ++ Spec.frame (fin w) (ft w) None payload
       else
         match entropy c (drawn c) with
         | Some m =>
             writeFrame w c payload
             = (set_bw w b', set_sent (set_drawn c (S (drawn c))) out', None)
             /\ out' ++ bufio.buf b'
                = emitted w c ++ Spec.frame (fin w) (ft w) (Some m) payload
         | None =>
             writeFrame w c payload
             = (set_bw w b', set_sent (set_drawn c (S (drawn c))) out',
                Some ErrEntropy)
         end.
Proof.
  intros Hft Hlen.
  pose proof (len_nonneg payload) as Hpos.
  destruct w as [b f m t]. destruct c as [srv inp out wr cl ent dr].
  cbn in Hft.
  unfold writeFrame, bw_WriteByte, bw_Write, generateMask, emitted, Spec.frame.
  red_state.
  assert (Hb0 : (if f then Z.lor (to_byte t) finBit else to_byte t)
                = (if f then 128 else 0) + t).
  { destruct (opcode_byte t Hft) as [-> ->]. destruct f; reflexivity. }
  rewrite Hb0. clear Hb0.
  step_bufio.
  destruct (Z.leb_spec 65536 (len payload)) as [Hbig|Hsmall].
  - rewrite lengthField_big by lia.
    rewrite (Z.mod_small (len payload) (2 ^ 64)) by lia.
    destruct srv; cbn [negb];
      change (Z.lor 0 (to_byte 127)) with (0 + 127);
      change (Z.lor (Z.lor 0 maskBit) (to_byte 127)) with (128 + 127);
      repeat step_bufio.
    + do 2 eexists. split; [|split; [reflexivity|]]; [congruence|].
      chain_stream.
    + destruct (ent dr) as [mk|]; repeat step_bufio.
      * do 2 eexists. split; [|split; [reflexivity|]]; [congruence|].
        chain_stream.
      * do 2 eexists. split; [|reflexivity]. congruence.
  - destruct (Z.ltb_spec 125 (len payload)) as [Hmid|Hlow].
    + rewrite lengthField_mid by lia.
      assert (Hext : BigEndian.PutUint16 (len payload mod 2 ^ 16)
                     = [len payload / 256; len payload mod 256]).
      { unfold BigEndian.PutUint16, to_byte.
        rewrite (Z.mod_small (len payload) (2 ^ 16)) by lia.
        rewrite (Z.mod_small (len payload / 256))
          by (split; [apply Z.div_pos; lia | apply Z.div_lt_upper_bound; lia]).
        reflexivity. }
      rewrite Hext. clear Hext.
      destruct srv; cbn [negb];
        change (Z.lor 0 (to_byte 126)) with (0 + 126);
        change (Z.lor (Z.lor 0 maskBit) (to_byte 126)) with (128 + 126);
        repeat step_bufio.
      * do 2 eexists. split; [|split; [reflexivity|]]; [congruence|].
        chain_stream.
      * destruct (ent dr) as [mk|]; repeat step_bufio.
        -- do 2 eexists. split; [|split; [reflexivity|]]; [congruence|].
           chain_stream.
        -- do 2 eexists. split; [|reflexivity]. congruence.
    + rewrite lengthField_small by lia.
      destruct (lor_low7 (len payload)) as (L1 & L2 & L3 & L4); [lia|].
      destruct srv; cbn [negb]; change (Z.lor 0 maskBit) with 128;
        rewrite ?L1, ?L3; repeat step_bufio.
      * do 2 eexists. split; [|split; [reflexivity|]]; [congruence|].
        chain_stream.
      * destruct (ent dr) as [mk|]; repeat step_bufio.
        -- do 2 eexists. split; [|split; [reflexivity|]]; [congruence|].
           chain_stream.
        -- do 2 eexists. split; [|reflexivity]. congruence.
Qed.

(** [ncopy] on a writer made by [NextWriter], in any state of its buffer:
    between 9 and 1030 bytes of payload are allowed for the next frame. *)
Lemma ncopy_any (w : msgWriter) (c : Conn) (max : Z) :
  bufio.size (bw w) = 1038 ->
  exists b' out' avail,
    9 <= avail <= 1030
    /\ out' ++ bufio.buf b' = emitted w c
    /\ bufio.size b' = 1038
    /\ ncopy w c max
       = ((if max <=? avail then set_fin (set_bw w b') true else set_bw w b'),
          set_sent c out', Z.min max avail).
Proof.
  intros Hsize.
  destruct w as [[sz bf] f m t]. destruct c as [srv inp out wr cl ent dr].
  cbn in Hsize. subst sz.
  unfold ncopy, bufio.Available, maxHeaderSize, emitted. red_state.
  set (a0 := 1038 - Z.of_nat (length bf) - (2 + 8 + 4)).
  assert (Ha0 : a0 <= 1024) by (subst a0; lia).
  destruct (Z.leb_spec a0 0) as [Hflush | Hroom].
  - unfold bufio.Flush. red_state. cbn [length].
    change (1038 - Z.of_nat 0 - (2 + 8 + 4)) with 1024.
    change (1024 <? 126 - 8) with false. change (1024 <? 65536 - 6) with true.
    cbv iota. change (1024 + 6) with 1030.
    exists (bufio.mkWriter 1038 []), (out ++ bf), 1030.
    split; [lia|]. split; [cbn; now rewrite app_nil_r|]. split; [reflexivity|].
    destruct (Z.leb_spec max 1030).
    + rewrite Z.min_l by lia. reflexivity.
    + rewrite Z.min_r by lia. reflexivity.
  - destruct (Z.ltb_spec a0 (126 - 8)) as [Hs | Hs].
    + exists (bufio.mkWriter 1038 bf), out, (a0 + 8).
      split; [lia|]. split; [reflexivity|]. split; [reflexivity|].
      destruct (Z.leb_spec max (a0 + 8)).
      * rewrite Z.min_l by lia. reflexivity.
      * rewrite Z.min_r by lia. reflexivity.
    + destruct (Z.ltb_spec a0 (65536 - 6)); [|lia].
      exists (bufio.mkWriter 1038 bf), out, (a0 + 6).
      split; [lia|]. split; [reflexivity|]. split; [reflexivity|].
      destruct (Z.leb_spec max (a0 + 6)).
      * rewrite Z.min_l by lia. reflexivity.
      * rewrite Z.min_r by lia. reflexivity.
Qed.

(** The loop of [msgWriter.Write] from any state of the buffer: what it
    emits is read back as the payload, appended to what the reader has
    assembled. *)
Lemma Write_loop_any (o : Z) (Ho : o = 1 \/ o = 2) (n : nat) :
  forall (p : list Z) (fuel : nat) (w : msgWriter) (c : Conn),
    (length p <= n)%nat ->
    (length p < fuel)%nat ->
    bufio.size (bw w) = 1038 -> fin w = false ->
    ft w = o \/ ft w = 0 ->
    (isServer c = false -> forall i, entropy c i <> None) ->
    exists X b' out' d',
      Write_loop fuel w c p
      = Some (mkMsgWriter b' true (mt w) ContMessage,
              set_sent (set_drawn c d') out', None)
      /\ bufio.size b' = 1038
      /\ out' ++ bufio.buf b' = emitted w c ++ X
      /\ forall (r : Conn) (rest msg : list Z) (mtype : Z) (fuelR : nat),
          isServer r = negb (isServer c) ->
          (ft w = 0 -> mtype = o) ->
          (length X + length rest < fuelR)%nat ->
          readFrames fuelR (set_br r (X ++ rest)) msg mtype (negb (ft w =? 0))
          = Some (set_br r rest, (o, msg ++ p, None)).
Proof.
  induction n as [n IH] using lt_wf_ind.
  intros p fuel w c Hn Hfuel Hsize Hfin Hft Hent.
  destruct fuel as [|fuel]; [lia|].
  cbn [Write_loop].
  destruct (ncopy_any w c (len p) Hsize) as (b1 & out1 & avail & Hav & Hem1 & Hsz1 & ->).
  assert (Hop : 0 <= ft w < 16) by (destruct Hft as [-> | ->]; lia).
  pose proof (len_nonneg p) as Hpos.
  set (key := if isServer c then None
              else match entropy c (drawn c) with
                   | Some m => Some m | None => Some (0, 0, 0, 0) end).
  assert (Hkey : is_some key = negb (isServer c)).
  { subst key. destruct (isServer c); [reflexivity|].
    destruct (entropy c (drawn c)); reflexivity. }
  assert (Hctl : isControl (ft w) = false)
    by (destruct Hft as [-> | ->]; destruct Ho as [-> | ->]; reflexivity).
  assert (Hstate : forall mtype,
             (ft w = 0 -> mtype = o) ->
             (ft w = o /\ negb (ft w =? 0) = true)
             \/ (ft w = 0 /\ negb (ft w =? 0) = false /\ mtype = o)).
  { intros mtype Hm. destruct Hft as [E | E].
    - left. split; [exact E|]. rewrite E. destruct Ho as [-> | ->]; reflexivity.
    - right. rewrite E. auto. }
  destruct (Z.leb_spec (len p) avail) as [Hlast | Hmore].
  - (* the last frame *)
    rewrite Z.min_l by lia.
    replace (Z.to_nat (len p)) with (length p) by (unfold len; lia).
    rewrite firstn_all, skipn_all.
    destruct (writeFrame_stream (set_fin (set_bw w b1) true) (set_sent c out1) p)
      as (b2 & out2 & Hsz2 & HW); [exact Hop | lia |].
    cbn [isServer set_sent entropy drawn fin ft set_fin set_bw bw] in HW, Hsz2.
    exists (Spec.frame true (ft w) key p).
    destruct w as [bw0 f0 m0 t0]. destruct c as [srv inp out wr cl ent dr].
    cbn [isServer entropy drawn ft fin mt bw] in *. subst f0.
    destruct srv.
    + destruct HW as [-> HS]. cbn [len length Z.of_nat]. change (0 =? 0) with true.
      cbv iota.
      exists b2, out2, dr. split; [reflexivity|]. split; [congruence|].
      split.
      { rewrite HS. unfold emitted. cbn [sent bw set_sent set_fin set_bw].
        rewrite Hem1. reflexivity. }
      intros r rest msg mtype fuelR Hr Hm HfR.
      destruct fuelR as [|fuelR]; [lia|].
      pose proof (frame_length true t0 key p) as Hfl.
      rewrite (readFrames_frame fuelR r true t0 key p rest msg mtype o)
        by (try rewrite Hkey; auto; try (unfold len in *; lia);
            apply frameErrors_data; auto).
      rewrite Hctl. reflexivity.
    + specialize (Hent eq_refl). specialize (Hent dr) as Hd.
      destruct (ent dr) as [mk|] eqn:Em; [|congruence].
      destruct HW as [-> HS]. cbn [len length Z.of_nat]. change (0 =? 0) with true.
      cbv iota.
      exists b2, out2, (S dr). split; [reflexivity|]. split; [congruence|].
      split.
      { rewrite HS. unfold emitted. cbn [sent bw set_sent set_fin set_bw].
        rewrite Hem1. reflexivity. }
      intros r rest msg mtype fuelR Hr Hm HfR.
      destruct fuelR as [|fuelR]; [lia|].
      pose proof (frame_length true t0 key p) as Hfl.
      rewrite (readFrames_frame fuelR r true t0 key p rest msg mtype o)
        by (try rewrite Hkey; auto; try (unfold len in *; lia);
            apply frameErrors_data; auto).
      rewrite Hctl. reflexivity.
  - (* a frame of [avail] bytes, then the rest *)
    rewrite Z.min_r by lia.
    assert (Hl : (Z.to_nat avail < length p)%nat) by (unfold len in Hmore; lia).
    assert (Hhead : len (firstn (Z.to_nat avail) p) = avail)
      by (unfold len; rewrite length_take; lia).
    destruct (writeFrame_stream (set_bw w b1) (set_sent c out1)
                (firstn (Z.to_nat avail) p))
      as (b2 & out2 & Hsz2 & HW); [exact Hop | lia |].
    cbn [isServer set_sent entropy drawn fin ft set_fin set_bw bw] in HW, Hsz2.
    assert (Htail : (len (skipn (Z.to_nat avail) p) =? 0) = false).
    { apply Z.eqb_neq. unfold len. rewrite length_drop. lia. }
    set (frame1 := Spec.frame false (ft w) key (firstn (Z.to_nat avail) p)).
    pose proof (frame_length false (ft w) key (firstn (Z.to_nat avail) p)) as Hfl.
    fold frame1 in Hfl. rewrite length_take in Hfl.
    destruct w as [bw0 f0 m0 t0]. destruct c as [srv inp out wr cl ent dr].
    cbn [isServer entropy drawn ft fin mt bw] in *. subst f0.
    destruct srv.
    + destruct HW as [-> HS]. rewrite Htail.
      edestruct (IH (n - 1)%nat ltac:(lia) (skipn (Z.to_nat avail) p) fuel
                   (set_ft (set_bw (set_bw (mkMsgWriter bw0 false m0 t0) b1) b2)
                           ContMessage)
                   (set_sent (set_sent (mkConn true inp out wr cl ent dr) out1) out2))
        as (X' & b' & out' & d' & HW' & Hsz' & HE' & HR).
      { rewrite length_drop. lia. }
      { rewrite length_drop. lia. }
      { cbn. congruence. }
      { reflexivity. }
      { right. reflexivity. }
      { cbn. intros; congruence. }
      exists (frame1 ++ X'), b', out', d'.
      split; [exact HW'|]. split; [exact Hsz'|].
      split.
      { rewrite HE'. unfold emitted. cbn [sent bw set_sent set_ft set_bw].
        rewrite HS. unfold emitted. cbn [sent bw set_sent set_ft set_bw].
        rewrite Hem1. unfold emitted, frame1. cbn [sent bw].
        rewrite <- !app_assoc. reflexivity. }
      intros r rest msg mtype fuelR Hr Hm HfR.
      destruct fuelR as [|fuelR]; [lia|].
      rewrite length_app in HfR.
      rewrite <- app_assoc.
      rewrite (readFrames_frame fuelR r false t0 key (firstn (Z.to_nat avail) p) _
                 msg mtype o)
        by (try rewrite Hkey; auto; try (rewrite ?Hhead, ?length_take; lia);
            apply frameErrors_data; auto).
      rewrite Hctl. cbn [negb].
      specialize (HR r rest (msg ++ firstn (Z.to_nat avail) p) o fuelR).
      cbn [ft set_ft set_bw] in HR. change (negb (ContMessage =? 0)) with false in HR.
      rewrite HR; [| exact Hr | reflexivity | lia].
      rewrite <- app_assoc, take_drop. reflexivity.
    + specialize (Hent eq_refl) as Hent'. specialize (Hent' dr) as Hd.
      destruct (ent dr) as [mk|] eqn:Em; [|congruence].
      destruct HW as [-> HS]. rewrite Htail.
      edestruct (IH (n - 1)%nat ltac:(lia) (skipn (Z.to_nat avail) p) fuel
                   (set_ft (set_bw (set_bw (mkMsgWriter bw0 false m0 t0) b1) b2)
                           ContMessage)
                   (set_sent (set_drawn (set_sent (mkConn false inp out wr cl ent dr) out1)
                                        (S dr)) out2))
        as (X' & b' & out' & d' & HW' & Hsz' & HE' & HR).
      { rewrite length_drop. lia. }
      { rewrite length_drop. lia. }
      { cbn. congruence. }
      { reflexivity. }
      { right. reflexivity. }
      { cbn. intros _. exact (Hent eq_refl). }
      exists (frame1 ++ X'), b', out', d'.
      split; [exact HW'|]. split; [exact Hsz'|].
      split.
      { rewrite HE'. unfold emitted. cbn [sent bw set_sent set_ft set_bw set_drawn].
        rewrite HS. unfold emitted. cbn [sent bw set_sent set_ft set_bw set_drawn].
        rewrite Hem1. unfold emitted, frame1, key. cbn [sent bw]. rewrite ?Em.
        rewrite <- !app_assoc. reflexivity. }
      intros r rest msg mtype fuelR Hr Hm HfR.
      destruct fuelR as [|fuelR]; [lia|].
      rewrite length_app in HfR.
      rewrite <- app_assoc.
      rewrite (readFrames_frame fuelR r false t0 key (firstn (Z.to_nat avail) p) _
                 msg mtype o)
        by (try rewrite Hkey; auto; try (rewrite ?Hhead, ?length_take; lia);
            apply frameErrors_data; auto).
      rewrite Hctl. cbn [negb].
      specialize (HR r rest (msg ++ firstn (Z.to_nat avail) p) o fuelR).
      cbn [ft set_ft set_bw] in HR. change (negb (ContMessage =? 0)) with false in HR.
      rewrite HR; [| exact Hr | reflexivity | lia].
      rewrite <- app_assoc, take_drop. reflexivity.
Qed.

(** One call of [msgWriter.Write], from any state of the buffer. *)
Lemma msgWriter_Write_any (w : msgWriter) (c : Conn) (p : list Z) :
  bufio.size (bw w) = 1038 -> fin w = false ->
  mt w = TextMessage \/ mt w = BinaryMessage ->
  (isServer c = false -> forall i, entropy c i <> None) ->
  exists X b' out' d',
    msgWriter_Write w c p
    = Some (mkMsgWriter b' false (mt w) ContMessage,
            set_sent (set_drawn c d') out', None)
    /\ bufio.size b' = 1038
    /\ out' ++ bufio.buf b' = emitted w c ++ X
    /\ forall (r : Conn) (rest : list Z) (fuel : nat),
        isServer r = negb (isServer c) ->
        (length X + length rest < fuel)%nat ->
        ReadMessage fuel (set_br r (X ++ rest))
        = Some (set_br r rest, (mt w, p, None)).
Proof.
  intros Hsize Hfin Hmt Hent.
  unfold msgWriter_Write.
  destruct (Write_loop_any (mt w) Hmt (length p) p (S (length p))
              (set_ft w (mt w)) c)
    as (X & b' & out' & d' & HW & Hsz & HE & HR);
    [lia | lia | exact Hsize | exact Hfin | left; reflexivity | exact Hent |].
  rewrite HW. cbn [mt set_ft set_fin bw fin ft].
  exists X, b', out', d'. split; [reflexivity|]. split; [exact Hsz|].
  split; [exact HE|].
  intros r rest fuel Hr Hf. unfold ReadMessage.
  specialize (HR r rest [] noFrame fuel Hr).
  cbn [ft set_ft app] in HR.
  assert (negb (mt w =? 0) = true) as E by (destruct Hmt as [-> | ->]; reflexivity).
  rewrite E in HR. apply HR; [|exact Hf].
  intros E0. rewrite E0 in Hmt. destruct Hmt; discriminate.
Qed.

(** X1: on a writer obtained from [NextWriter], every call of [Write]
    sends one complete message.  Two calls with [p1] and [p2] put two
    messages on the wire, each starting with the opcode of the writer and
    ending with a FIN frame: the peer reads [(o, p1)] and then [(o, p2)],
    not one message [p1 ++ p2].  [Close] flushes them and frees the writer
    slot of the connection.  On a client the random source is assumed to
    deliver the masks. *)
Theorem two_Writes_two_messages (c r : Conn) (o : Z) (p1 p2 : list Z) :
  o = TextMessage \/ o = BinaryMessage ->
  writer c = false ->
  isServer r = negb (isServer c) ->
  (isServer c = false -> forall i, entropy c i <> None) ->
  exists w0 c0 w1 c1 w2 c2 X1 X2,
    NextWriter c o = (c0, inl w0)
    /\ msgWriter_Write w0 c0 p1 = Some (w1, c1, None)
    /\ msgWriter_Write w1 c1 p2 = Some (w2, c2, None)
    /\ sent (snd (msgWriter_Close w2 c2)) = sent c ++ X1 ++ X2
    /\ writer (snd (msgWriter_Close w2 c2)) = false
    /\ forall fuel : nat,
        (length X1 + length X2 < fuel)%nat ->
        ReadMessage fuel (set_br r (X1 ++ X2)) = Some (set_br r X2, (o, p1, None))
        /\ ReadMessage fuel (set_br r X2) = Some (set_br r [], (o, p2, None)).
Proof.
  intros Ho Hw Hr Hent.
  unfold NextWriter. rewrite Hw.
  do 2 eexists.
  destruct (msgWriter_Write_any
              (mkMsgWriter (bufio.NewWriterSize (maxHeaderSize + defaultWriterSize))
                           false o 0)
              (set_writer c true) p1)
    as (X1 & b1 & out1 & d1 & HW1 & Hsz1 & HE1 & HR1);
    [reflexivity | reflexivity | exact Ho | exact Hent |].
  cbn [mt] in HW1, HR1.
  destruct (msgWriter_Write_any (mkMsgWriter b1 false o ContMessage)
              (set_sent (set_drawn (set_writer c true) d1) out1) p2)
    as (X2 & b2 & out2 & d2 & HW2 & Hsz2 & HE2 & HR2);
    [exact Hsz1 | reflexivity | exact Ho | exact Hent |].
  cbn [mt] in HW2, HR2.
  do 4 eexists. exists X1, X2.
  split; [reflexivity|]. split; [exact HW1|]. split; [exact HW2|].
  split.
  { unfold msgWriter_Close, bufio.Flush. cbn [snd sent set_sent set_writer bw].
    rewrite HE2. unfold emitted. cbn [sent set_sent bw].
    rewrite HE1. unfold emitted. cbn. rewrite app_nil_r, <- app_assoc. reflexivity. }
  split; [reflexivity|].
  intros fuel Hf. split.
  - apply HR1; [exact Hr | lia].
  - specialize (HR2 r [] fuel). rewrite app_nil_r in HR2.
    apply HR2; [exact Hr | cbn [length]; lia].
Qed.

Lemma two_Writes_two_messages_witness :
  exists w0 c0 w1 c1 w2 c2 X1 X2,
    NextWriter (newConn true [] no_mask) TextMessage = (c0, inl w0)
    /\ msgWriter_Write w0 c0 [104; 105] = Some (w1, c1, None)
    /\ msgWriter_Write w1 c1 [33] = Some (w2, c2, None)
    /\ sent (snd (msgWriter_Close w2 c2))
       = sent (newConn true [] no_mask) ++ X1 ++ X2
    /\ writer (snd (msgWriter_Close w2 c2)) = false
    /\ forall fuel : nat,
        (length X1 + length X2 < fuel)%nat ->
        ReadMessage fuel (set_br (newConn false [] no_mask) (X1 ++ X2))
        = Some (set_br (newConn false [] no_mask) X2,
                (TextMessage, [104; 105], None))
        /\ ReadMessage fuel (set_br (newConn false [] no_mask) X2)
           = Some (set_br (newConn false [] no_mask) [],
                   (TextMessage, [33], None)).
Proof.
  apply (two_Writes_two_messages (newConn true [] no_mask)
           (newConn false [] no_mask) TextMessage [104; 105] [33]).
  - left. reflexivity.
  - reflexivity.
  - reflexivity.
  - intros H. discriminate H.
Defined.

Lemma Write_loop_layout (keys : nat -> option Mask) (n : nat) :
  forall (p : list Z) (fuel : nat) (w : msgWriter) (c : Conn) (i : nat),
    (length p <= n)%nat ->
    (length p < fuel)%nat ->
    ready (bw w) -> fin w = false ->
    0 <= ft w < 16 ->
    (forall j, (i <= j)%nat ->
               keys j = if isServer c then None else entropy c (drawn c + (j - i))%nat) ->
    (isServer c = false -> forall j, entropy c j <> None) ->
    exists b' out' d',
      Write_loop fuel w c p
      = Some (mkMsgWriter b' true (mt w) ContMessage,
              set_sent (set_drawn c d') out', None)
      /\ out' ++ bufio.buf b'
         = emitted w c ++ message_frames (length p) (ft w) keys i p.
Proof.
  induction n as [n IH] using lt_wf_ind.
  intros p fuel w c i Hn Hfuel Hready Hfin Hop Hkeys Hent.
  destruct fuel as [|fuel]; [lia|].
  cbn [Write_loop]. rewrite (ncopy_ready _ _ _ Hready). rewrite Hfin.
  pose proof (Hkeys i (Nat.le_refl i)) as Hki. rewrite Nat.sub_diag, Nat.add_0_r in Hki.
  destruct w as [bw0 f0 m0 t0]. destruct c as [srv inp out wr cl ent dr].
  cbn [isServer entropy drawn ft fin mt bw sent] in *. subst f0.
  destruct (Z.leb_spec (len p) 1030) as [Hsmall | Hbig].
  - rewrite Z.min_l by lia.
    replace (Z.to_nat (len p)) with (length p) by (unfold len; lia).
    rewrite firstn_all, skipn_all.
    rewrite writeFrame_fresh by (cbn; auto; lia).
    assert (Hmf : message_frames (length p) t0 keys i p = Spec.frame true t0 (keys i) p).
    { destruct (length p) eqn:El; cbn [message_frames]; [reflexivity|].
      destruct (Z.leb_spec (len p) 1030); [reflexivity|lia]. }
    rewrite Hmf, Hki. red_state.
    destruct srv.
    + do 3 eexists. split; [reflexivity|].
      unfold emitted. cbn. now rewrite <- app_assoc.
    + specialize (Hent eq_refl dr).
      destruct (ent dr) as [mk|]; [|congruence].
      do 3 eexists. split; [reflexivity|].
      unfold emitted. cbn. now rewrite <- app_assoc.
  - rewrite Z.min_r by lia. change (Z.to_nat 1030) with 1030%nat.
    assert (Hl : (1030 < length p)%nat) by (unfold len in Hbig; lia).
    assert (Hhead : len (firstn 1030 p) = 1030)
      by (unfold len; rewrite length_take; lia).
    rewrite writeFrame_fresh by (cbn; auto; lia).
    assert (Htail : (len (skipn 1030 p) =? 0) = false).
    { apply Z.eqb_neq. unfold len. rewrite length_drop. lia. }
    pose proof (frame_length false t0 (keys i) (firstn 1030 p)) as Hfl.
    rewrite length_take in Hfl.
    assert (Hmf : message_frames (length p) t0 keys i p
                  = Spec.frame false t0 (keys i) (firstn 1030 p)
                    ++ message_frames (length p - 1) ContMessage keys (S i)
                         (skipn 1030 p)).
    { destruct (length p) eqn:El; [lia|]. cbn [message_frames].
      destruct (Z.leb_spec (len p) 1030); [lia|].
      replace (S n0 - 1)%nat with n0 by lia. reflexivity. }
    assert (Hfuelindep : forall f1 f2 op q j,
               (length q <= f1)%nat -> (length q <= f2)%nat ->
               message_frames f1 op keys j q = message_frames f2 op keys j q).
    { induction f1 as [|f1 IHf]; intros f2 op q j H1 H2.
      - destruct q; [|cbn in H1; lia].
        destruct f2; cbn [message_frames]; reflexivity.
      - destruct f2 as [|f2].
        + destruct q; [|cbn in H2; lia]. reflexivity.
        + cbn [message_frames]. destruct (len q <=? 1030) eqn:Eq; [reflexivity|].
          apply Z.leb_gt in Eq. unfold len in Eq.
          f_equal. apply IHf; rewrite length_drop; lia. }
    rewrite Hmf. rewrite Hki. red_state.
    destruct srv.
    + cbv iota beta. red_state. rewrite Htail.
      edestruct (IH (n - 1030)%nat ltac:(lia) (skipn 1030 p) fuel
                   (set_ft (set_bw (mkMsgWriter (bufio.mkWriter 1038 []) false m0 t0)
                              (bufio.mkWriter 1038
                                 (Spec.frame false t0 None (firstn 1030 p))))
                           ContMessage)
                   (set_sent (mkConn true inp out wr cl ent dr)
                             (out ++ bufio.buf bw0)) (S i))
        as (b' & out' & d' & HW' & HE').
      { rewrite length_drop. lia. }
      { rewrite length_drop. lia. }
      { split; [reflexivity|]. right. cbn [bufio.buf set_ft set_bw bw].
        rewrite <- Hki. unfold len. lia. }
      { reflexivity. }
      { cbn. unfold ContMessage. lia. }
      { intros j Hj. cbn [isServer set_sent]. rewrite (Hkeys j) by lia. reflexivity. }
      { cbn. intros; congruence. }
      exists b', out', d'. split; [exact HW'|].
      rewrite HE'. unfold emitted. cbn [sent bw set_sent set_ft set_bw bufio.buf ft].
      rewrite <- !app_assoc. do 3 f_equal.
      apply Hfuelindep; rewrite length_drop; lia.
    + specialize (Hent eq_refl) as Hent'. specialize (Hent' dr) as Hd.
      destruct (ent dr) as [mk|] eqn:Em; [|congruence].
      cbv iota beta. red_state. rewrite Htail.
      edestruct (IH (n - 1030)%nat ltac:(lia) (skipn 1030 p) fuel
                   (set_ft (set_bw (mkMsgWriter (bufio.mkWriter 1038 []) false m0 t0)
                              (bufio.mkWriter 1038
                                 (Spec.frame false t0 (Some mk) (firstn 1030 p))))
                           ContMessage)
                   (set_drawn (set_sent (mkConn false inp out wr cl ent dr)
                                        (out ++ bufio.buf bw0)) (S dr)) (S i))
        as (b' & out' & d' & HW' & HE').
      { rewrite length_drop. lia. }
      { rewrite length_drop. lia. }
      { split; [reflexivity|]. right. cbn [bufio.buf set_ft set_bw bw].
        rewrite <- Hki. unfold len. lia. }
      { reflexivity. }
      { cbn. unfold ContMessage. lia. }
      { intros j Hj. cbn [isServer set_sent set_drawn entropy drawn].
        rewrite (Hkeys j) by lia. f_equal. lia. }
      { cbn. intros _. exact (Hent eq_refl). }
      exists b', out', d'. split; [exact HW'|].
      rewrite HE'. unfold emitted.
      cbn [sent bw set_sent set_ft set_bw set_drawn bufio.buf ft].
      rewrite <- !app_assoc. do 3 f_equal.
      apply Hfuelindep; rewrite length_drop; lia.
Qed.

(** X2: the frames of [WriteMessage].  A message goes out as consecutive
    frames of 1030 payload bytes, the last one carrying the rest with FIN
    set (a payload of at most 1030 bytes, the empty one included, is one
    frame); the first frame has the opcode of the message, the later ones
    are continuation frames; a client masks each frame with the next key of
    the random source, a server masks none.  Everything is flushed to the
    socket and the writer slot is free afterwards. *)
Theorem WriteMessage_layout (c : Conn) (mt : Z) (p : list Z) :
  writer c = false -> 0 <= mt < 16 ->
  (isServer c = false -> forall j, entropy c j <> None) ->
  exists c',
    WriteMessage c mt p = Some (c', None)
    /\ sent c' = sent c ++ message_frames (length p) mt (keys_from c) 0 p
    /\ writer c' = false.
Proof.
  intros Hw Hmt Hent.
  unfold WriteMessage, NextWriter. rewrite Hw. cbv beta iota zeta.
  unfold msgWriter_Write.
  match goal with
  | |- context [Write_loop _ ?w0 ?c0 p] =>
      destruct (Write_loop_layout (keys_from c) (length p) p (S (length p)) w0 c0 0%nat)
        as (b' & out' & d' & HW & HE)
  end.
  { lia. } { lia. }
  { split; [reflexivity | left; reflexivity]. }
  { reflexivity. }
  { exact Hmt. }
  { intros j _. unfold keys_from. cbn [isServer set_writer entropy drawn].
    rewrite Nat.sub_0_r. reflexivity. }
  { exact Hent. }
  rewrite HW. unfold msgWriter_Close, bufio.Flush.
  eexists. split; [reflexivity|]. cbn [sent set_sent set_writer set_fin bw writer].
  split; [|reflexivity].
  rewrite HE. unfold emitted. cbn. rewrite app_nil_r. reflexivity.
Qed.

Lemma WriteMessage_layout_witness :
  exists c',
    WriteMessage (newConn false [] (fixed_mask (1, 2, 3, 4))) BinaryMessage
      (repeat 7 2000)
    = Some (c', None)
    /\ sent c'
       = sent (newConn false [] (fixed_mask (1, 2, 3, 4)))
         ++ message_frames (length (repeat 7 2000)) BinaryMessage
              (keys_from (newConn false [] (fixed_mask (1, 2, 3, 4)))) 0
              (repeat 7 2000)
    /\ writer c' = false.
Proof.
  apply (WriteMessage_layout (newConn false [] (fixed_mask (1, 2, 3, 4)))
           BinaryMessage (repeat 7 2000)).
  - reflexivity.
  - unfold BinaryMessage. lia.
  - intros _ j. discriminate.
Defined.

(** X3: a connection has one writer at a time.  While the writer given
    by [NextWriter] is open, [NextWriter] and [WriteMessage] fail with
    "unclosed previous writer" and leave the connection as it is; after
    [Close] of the writer, [NextWriter] succeeds again.  Opening and closing
    a writer without writing sends nothing. *)
Theorem single_writer (c : Conn) (mt1 mt2 : Z) (msg : list Z) :
  writer c = false ->
  exists c1 w1,
    NextWriter c mt1 = (c1, inl w1)
    /\ NextWriter c1 mt2 = (c1, inr (ErrorString "unclosed previous writer"))
    /\ WriteMessage c1 mt2 msg
       = Some (c1, Some (ErrorString "unclosed previous writer"))
    /\ (exists c2 w2, NextWriter (snd (msgWriter_Close w1 c1)) mt2 = (c2, inl w2))
    /\ sent (snd (msgWriter_Close w1 c1)) = sent c.
Proof.
  intros Hw. unfold NextWriter at 1. rewrite Hw.
  do 2 eexists. split; [reflexivity|].
  split; [reflexivity|]. split; [reflexivity|].
  split.
  - unfold msgWriter_Close, NextWriter. cbn. eauto.
  - cbn. now rewrite app_nil_r.
Qed.

Lemma single_writer_witness :
  exists c1 w1,
    NextWriter (newConn true [] no_mask) TextMessage = (c1, inl w1)
    /\ NextWriter c1 BinaryMessage
       = (c1, inr (ErrorString "unclosed previous writer"))
    /\ WriteMessage c1 BinaryMessage [1]
       = Some (c1, Some (ErrorString "unclosed previous writer"))
    /\ (exists c2 w2,
          NextWriter (snd (msgWriter_Close w1 c1)) BinaryMessage = (c2, inl w2))
    /\ sent (snd (msgWriter_Close w1 c1)) = sent (newConn true [] no_mask).
Proof.
  apply (single_writer (newConn true [] no_mask) TextMessage BinaryMessage [1]).
  reflexivity.
Defined.

(** X4: when the random source fails on a client, [WriteMessage] returns
    that error, nothing reaches the socket, and the writer is left open:
    every later [WriteMessage] on the connection fails with "unclosed
    previous writer". *)
Theorem WriteMessage_mask_failure_keeps_writer (c : Conn) (op : Z) (msg : list Z) :
  isServer c = false -> writer c = false -> 0 <= op < 16 ->
  entropy c (drawn c) = None ->
  exists c',
    WriteMessage c op msg = Some (c', Some ErrEntropy)
    /\ sent c' = sent c
    /\ writer c' = true
    /\ forall mt' msg',
        WriteMessage c' mt' msg'
        = Some (c', Some (ErrorString "unclosed previous writer")).
Proof.
  intros Hsrv Hw Hmt Hnone.
  unfold WriteMessage at 1, NextWriter. rewrite Hw. cbv beta iota zeta.
  unfold msgWriter_Write. cbn [Write_loop].
  rewrite ncopy_ready by (split; [reflexivity | left; reflexivity]).
  rewrite writeFrame_fresh;
    [| reflexivity
     | unfold len; rewrite length_take; cbn [fin ft set_ft mt bw]; lia
     | exact Hmt].
  cbn [isServer set_sent set_writer entropy drawn]. rewrite Hsrv, Hnone.
  eexists. split; [reflexivity|].
  cbn [sent set_drawn set_sent set_writer writer bufio.buf bw bufio.NewWriterSize].
  split; [now rewrite app_nil_r|]. split; [reflexivity|].
  intros mt' msg'. reflexivity.
Qed.

Lemma WriteMessage_mask_failure_keeps_writer_witness :
  exists c',
    WriteMessage (newConn false [] no_mask) TextMessage [1]
    = Some (c', Some ErrEntropy)
    /\ sent c' = sent (newConn false [] no_mask)
    /\ writer c' = true
    /\ forall mt' msg',
        WriteMessage c' mt' msg'
        = Some (c', Some (ErrorString "unclosed previous writer")).
Proof.
  apply (WriteMessage_mask_failure_keeps_writer (newConn false [] no_mask)
           TextMessage [1]).
  - reflexivity.
  - reflexivity.
  - unfold TextMessage. lia.
  - reflexivity.
Defined.

(** ** The reader: control frames, errors and fragments *)

Lemma set_br_eta (c : Conn) : set_br c (br c) = c.
Proof. destruct c; reflexivity. Qed.

Lemma first_after_control (mtype : Z) (first : bool) :
  (first = true -> mtype = noFrame) ->
  (if negb (mtype =? noFrame) then false else first) = first.
Proof.
  intros H. destruct first; [rewrite H by reflexivity; reflexivity|].
  destruct (negb _); reflexivity.
Qed.

(** X5: a ping frame (of at most 125 bytes) is answered with a pong
    frame carrying the same payload, and the read goes on with the next
    frame in the same state of its loop: a ping between the fragments of a
    message does not disturb the message.  On a client the random source is
    assumed to deliver the mask of the pong. *)
Theorem ReadMessage_answers_ping (c : Conn) (key : option Mask)
    (payload rest msg : list Z) (mtype : Z) (first : bool) (fuel : nat) :
  isServer c = is_some key ->
  len payload <= 125 ->
  (length payload <= fuel)%nat ->
  (first = true -> mtype = noFrame) ->
  (isServer c = false -> entropy c (drawn c) <> None) ->
  exists c',
    readFrames (S fuel)
      (set_br c (Spec.frame true PingMessage key payload ++ rest)) msg mtype first
    = readFrames fuel c' msg mtype first
    /\ sent c' = sent c ++ Spec.frame true PongMessage (next_key c) payload
    /\ br c' = rest
    /\ isServer c' = isServer c /\ writer c' = writer c.
Proof.
  intros Hsrv Hlen Hfuel Hst Hent.
  rewrite readFrames_control by auto.
  unfold handleControl.
  change (PingMessage =? CloseMessage) with false.
  change (PingMessage =? PingMessage) with true. cbv iota.
  unfold handlePing. rewrite WriteControl_frame by auto.
  rewrite (first_after_control mtype first Hst).
  unfold next_key. cbn [isServer set_br entropy drawn sent].
  destruct (isServer c) eqn:Srv.
  - eexists. split; [reflexivity|]. cbn. rewrite Srv. auto.
  - specialize (Hent eq_refl).
    destruct (entropy c (drawn c)) as [m|]; [|congruence].
    eexists. split; [reflexivity|]. cbn. rewrite Srv. auto.
Qed.

Lemma ReadMessage_answers_ping_witness :
  exists c',
    readFrames 3
      (set_br (newConn true [] no_mask)
         (Spec.frame true PingMessage (Some (1, 2, 3, 4)) [1; 2] ++ []))
      [] noFrame true
    = readFrames 2 c' [] noFrame true
    /\ sent c'
       = sent (newConn true [] no_mask)
         ++ Spec.frame true PongMessage (next_key (newConn true [] no_mask)) [1; 2]
    /\ br c' = []
    /\ isServer c' = isServer (newConn true [] no_mask)
    /\ writer c' = writer (newConn true [] no_mask).
Proof.
  apply (ReadMessage_answers_ping (newConn true [] no_mask) (Some (1, 2, 3, 4))
           [1; 2] [] [] noFrame true 2).
  - reflexivity.
  - vm_compute. discriminate.
  - cbn. lia.
  - reflexivity.
  - intros H. discriminate H.
Defined.

(** X6: a pong frame is dropped: nothing is sent, and the read goes on
    with the next frame in the same state of its loop. *)
Theorem ReadMessage_ignores_pong (c : Conn) (key : option Mask)
    (payload rest msg : list Z) (mtype : Z) (first : bool) (fuel : nat) :
  isServer c = is_some key ->
  len payload <= 125 ->
  (length payload <= fuel)%nat ->
  (first = true -> mtype = noFrame) ->
  readFrames (S fuel)
    (set_br c (Spec.frame true PongMessage key payload ++ rest)) msg mtype first
  = readFrames fuel (set_br c rest) msg mtype first.
Proof.
  intros Hsrv Hlen Hfuel Hst.
  rewrite readFrames_control by auto.
  unfold handleControl.
  change (PongMessage =? CloseMessage) with false.
  change (PongMessage =? PingMessage) with false.
  change (PongMessage =? PongMessage) with true. cbv iota.
  unfold handlePong. now rewrite (first_after_control mtype first Hst).
Qed.

Lemma ReadMessage_ignores_pong_witness :
  readFrames 3
    (set_br (newConn false [] no_mask)
       (Spec.frame true PongMessage None [1; 2]
        ++ Spec.frame true TextMessage None [104; 105]))
    [] noFrame true
  = readFrames 2
      (set_br (newConn false [] no_mask)
         (Spec.frame true TextMessage None [104; 105]))
      [] noFrame true.
Proof.
  apply (ReadMessage_ignores_pong (newConn false [] no_mask) None [1; 2]
           (Spec.frame true TextMessage None [104; 105]) [] noFrame true 2).
  - reflexivity.
  - vm_compute. discriminate.
  - cbn. lia.
  - reflexivity.
Defined.

(** X7: a frame whose MASK bit does not fit the role of the reader
    (unmasked to a server, masked to a client) ends the read with the error
    "bad MASK" after its two header bytes, whatever else the header says;
    no close frame is sent and the connection is otherwise unchanged. *)
Theorem ReadMessage_bad_mask (c : Conn) (b0 b1 : Z) (rest msg : list Z)
    (mtype : Z) (first : bool) (fuel : nat) :
  Spec.h_mask (Spec.decode b0 b1) <> isServer c ->
  readFrames (S fuel) (set_br c (b0 :: b1 :: rest)) msg mtype first
  = Some (set_br c rest, (noFrame, [], Some (ErrorString "bad MASK"))).
Proof.
  intros Hmask.
  destruct (decode_matches b0 b1) as (_ & _ & _ & _ & _ & D6 & _).
  cbn [readFrames].
  change (b0 :: b1 :: rest) with ([b0; b1] ++ rest).
  rewrite (read_exact c [b0; b1]) by (unfold len; cbn; lia).
  cbv beta iota zeta. cbn [nth]. rewrite D6. cbn [isServer set_br].
  destruct (Spec.h_mask (Spec.decode b0 b1)), (isServer c);
    try congruence; reflexivity.
Qed.

Lemma ReadMessage_bad_mask_witness :
  readFrames 1 (set_br (newConn true [] no_mask) [129; 1; 65]) [] noFrame true
  = Some (set_br (newConn true [] no_mask) [65],
          (noFrame, [], Some (ErrorString "bad MASK"))).
Proof.
  apply (ReadMessage_bad_mask (newConn true [] no_mask) 129 1 [65] [] noFrame
           true 0).
  vm_compute. discriminate.
Defined.

(** X8: a close frame whose code is not accepted on receipt ends the
    read with the error "websocket: bad close code", and a close frame
    with code 1002 and the reason "bad close code" is sent, when no writer
    is open.  On a client the random source is assumed to deliver the
    mask. *)
Theorem ReadMessage_bad_close_code (c : Conn) (key : option Mask) (code : Z)
    (reason : string) (rest msg : list Z) (mtype : Z) (first : bool) (fuel : nat) :
  isServer c = is_some key ->
  0 <= code < 65536 ->
  ~ Spec.acceptedOnReceipt code ->
  len (Spec.closePayload code reason) <= 125 ->
  (length (Spec.closePayload code reason) <= fuel)%nat ->
  writer c = false ->
  (isServer c = false -> entropy c (drawn c) <> None) ->
  exists c',
    readFrames (S fuel)
      (set_br c (Spec.frame true CloseMessage key (Spec.closePayload code reason)
                 ++ rest))
      msg mtype first
    = Some (c', (noFrame, [], Some (ErrorString "websocket: bad close code")))
    /\ sent c' =
       sent c ++ Spec.frame true CloseMessage (next_key c)
                   (Spec.closePayload CloseProtocolError "bad close code")
    /\ br c' = rest.
Proof.
  intros Hsrv Hr Hacc Hlen Hfuel Hw Hent.
  destruct (closePayload_code code reason Hr) as (P1 & P2 & P3 & P4).
  rewrite readFrames_control by auto.
  unfold handleControl. change (CloseMessage =? CloseMessage) with true. cbv iota.
  destruct (Z.leb_spec 2 (len (Spec.closePayload code reason))); [|lia].
  rewrite P1.
  destruct (isValidReceivedCloseCode code) eqn:E.
  { apply isValidReceivedCloseCode_iff in E. contradiction. }
  cbn [negb]. unfold handleProtocolError.
  rewrite WriteMessage_single;
    [| exact Hw | unfold CloseMessage; lia | vm_compute; congruence].
  unfold next_key. cbn [isServer set_br entropy drawn sent].
  change (FormatCloseMessage CloseProtocolError "bad close code")
    with (Spec.closePayload CloseProtocolError "bad close code").
  destruct (isServer c) eqn:Srv.
  - eexists. split; [reflexivity|]. split; reflexivity.
  - specialize (Hent eq_refl).
    destruct (entropy c (drawn c)) as [m|]; [|congruence].
    eexists. split; [reflexivity|]. split; reflexivity.
Qed.

Lemma ReadMessage_bad_close_code_witness :
  exists c',
    readFrames 3
      (set_br (newConn true [] no_mask)
         (Spec.frame true CloseMessage (Some (1, 2, 3, 4))
            (Spec.closePayload 1005 "") ++ []))
      [] noFrame true
    = Some (c', (noFrame, [], Some (ErrorString "websocket: bad close code")))
    /\ sent c'
       = sent (newConn true [] no_mask)
         ++ Spec.frame true CloseMessage (next_key (newConn true [] no_mask))
              (Spec.closePayload CloseProtocolError "bad close code")
    /\ br c' = [].
Proof.
  apply (ReadMessage_bad_close_code (newConn true [] no_mask)
           (Some (1, 2, 3, 4)) 1005 "" [] [] noFrame true 2).
  - reflexivity.
  - lia.
  - intros [(_ & H & _) | H]; [apply H; reflexivity | lia].
  - vm_compute. discriminate.
  - cbn. lia.
  - reflexivity.
  - intros H. discriminate H.
Defined.

Lemma len_snoc_pos {A} (l : list A) (x : A) : (0 <? len (l ++ [x])) = true.
Proof. apply Z.ltb_lt. unfold len. rewrite length_app. cbn. lia. Qed.

(** A frame that passes the checks, seen from the loop state. *)
Lemma frameErrors_pass (r1 r2 r3 final first : bool) (ft l mtype mt' : Z)
    (errs : list string) :
  frameErrors r1 r2 r3 final first ft l mtype = (mt', errs) ->
  (0 <? len errs) = false ->
  loop_state mtype first ->
  (isControl ft = true /\ mt' = mtype)
  \/ (isControl ft = false
      /\ (mt' = TextMessage \/ mt' = BinaryMessage)).
Proof.
  unfold frameErrors, loop_state, isControl, CloseMessage, PingMessage,
    PongMessage, TextMessage, BinaryMessage, ContMessage, maxPayloadDate.
  intros H Hlen [Hm Hf].
  destruct (Z.eqb_spec ft 8) as [->|N8]; cbn [orb] in H.
  { left. split; [reflexivity|]. congruence. }
  destruct (Z.eqb_spec ft 9) as [->|N9]; cbn [orb] in H.
  { left. split; [reflexivity|]. congruence. }
  destruct (Z.eqb_spec ft 10) as [->|N10]; cbn [orb] in H.
  { left. split; [reflexivity|]. congruence. }
  right. split.
  { destruct (Z.leb_spec 8 ft); destruct (Z.leb_spec ft 10); try reflexivity; lia. }
  destruct (Z.eqb_spec ft 1) as [->|N1]; cbn [orb] in H.
  { injection H as <- _. auto. }
  destruct (Z.eqb_spec ft 2) as [->|N2]; cbn [orb] in H.
  { injection H as <- _. auto. }
  destruct (Z.eqb_spec ft 0) as [->|N0].
  - destruct first.
    + injection H as _ <-. rewrite len_snoc_pos in Hlen. discriminate.
    + injection H as <- _. auto.
  - injection H as _ <-. rewrite len_snoc_pos in Hlen. discriminate.
Qed.

Lemma loop_state_after_control (mtype : Z) (first : bool) :
  loop_state mtype first ->
  loop_state mtype (if negb (mtype =? noFrame) then false else first).
Proof.
  unfold loop_state, noFrame, TextMessage, BinaryMessage.
  intros [Hm Hf]. split; [exact Hm|].
  destruct Hm as [-> | [-> | ->]]; cbn; auto.
Qed.

(** Whatever the input, what the loop returns is either an error with no
    message, or a message whose type is text or binary. *)
Lemma readFrames_result (fuel : nat) :
  forall (c : Conn) (msg : list Z) (mtype : Z) (first : bool)
         (c' : Conn) (rt : Z) (rmsg : list Z) (rerr : option error),
    loop_state mtype first ->
    readFrames fuel c msg mtype first = Some (c', (rt, rmsg, rerr)) ->
    match rerr with
    | Some _ => rt = noFrame /\ rmsg = []
    | None => rt = TextMessage \/ rt = BinaryMessage
    end.
Proof.
  induction fuel as [|fuel IH]; intros c msg mtype first c' rt rmsg rerr Hst H;
    [discriminate|].
  cbn [readFrames] in H.
  destruct (read c 2) as [c1 [p [e|]]]; [injection H as <- <- <- <-; auto|].
  destruct (negb (eqb _ (isServer c1))); [injection H as <- <- <- <-; auto|].
  destruct (frameErrors _ _ _ _ _ _ _ _) as [mt' errs] eqn:FE.
  destruct (0 <? len errs) eqn:El.
  { destruct (handleProtocolError _ _) as [[c2 e]|]; [|discriminate].
    injection H as <- <- <- <-; auto. }
  destruct (frameErrors_pass _ _ _ _ _ _ _ _ _ _ FE El Hst) as [[Hc Hmt] | [Hc Hmt]].
  - (* control frame *)
    match type of H with
    | (let (_, _) := ?X in _) = _ => destruct X as [c2 [n|e]]
    end; [|injection H as <- <- <- <-; auto].
    match type of H with
    | (let (_, _) := ?X in _) = _ => destruct X as [c3 [k|e]]
    end; [|injection H as <- <- <- <-; auto].
    destruct (readPayload fuel c3 n []) as [[c4 [buf|e]]|];
      [| injection H as <- <- <- <-; auto | discriminate].
    rewrite Hc in H.
    destruct (handleControl c4 _ _) as [[c5 [e|]]|];
      [injection H as <- <- <- <-; auto | | discriminate].
    subst mt'. eapply IH; [|exact H]. apply loop_state_after_control, Hst.
  - (* data frame *)
    match type of H with
    | (let (_, _) := ?X in _) = _ => destruct X as [c2 [n|e]]
    end; [|injection H as <- <- <- <-; auto].
    match type of H with
    | (let (_, _) := ?X in _) = _ => destruct X as [c3 [k|e]]
    end; [|injection H as <- <- <- <-; auto].
    destruct (readPayload fuel c3 n []) as [[c4 [buf|e]]|];
      [| injection H as <- <- <- <-; auto | discriminate].
    rewrite Hc in H.
    destruct (negb (negb _)).
    + eapply IH; [|exact H]. split; [right; exact Hmt | intros _; exact Hmt].
    + injection H as <- <- <- <-. exact Hmt.
Qed.

(** X9: what [ReadMessage] can return.  With an error the message type
    is [noFrame] and the payload is empty; without an error the message
    type is text or binary: a control opcode or the continuation opcode
    never comes out as the type of a message. *)
Theorem ReadMessage_result_shape (fuel : nat) (c c' : Conn) (rt : Z)
    (rmsg : list Z) (rerr : option error) :
  ReadMessage fuel c = Some (c', (rt, rmsg, rerr)) ->
  match rerr with
  | Some _ => rt = noFrame /\ rmsg = []
  | None => rt = TextMessage \/ rt = BinaryMessage
  end.
Proof.
  unfold ReadMessage. apply readFrames_result.
  split; [left; reflexivity | discriminate].
Qed.

Lemma ReadMessage_result_shape_witness :
  ReadMessage 5
    (set_br (newConn false [] no_mask)
       (Spec.frame true TextMessage None [104; 105]))
  = Some (set_br (newConn false [] no_mask) [], (TextMessage, [104; 105], None))
  /\ (TextMessage = TextMessage \/ TextMessage = BinaryMessage).
Proof.
  split; [vm_compute; reflexivity|].
  apply (ReadMessage_result_shape 5
           (set_br (newConn false [] no_mask)
              (Spec.frame true TextMessage None [104; 105]))
           (set_br (newConn false [] no_mask) []) TextMessage [104; 105] None).
  vm_compute. reflexivity.
Defined.

(** The 64-bit length field with its top bit set is a negative [int64]. *)
Lemma read_extended_length_top_bit (c : Conn) (n : Z) (body : list Z) :
  2 ^ 63 <= n < 2 ^ 64 ->
  (let length := fst (Spec.lengthField n) in
   let c := set_br c (snd (Spec.lengthField n) ++ body) in
   if length =? 126 then
     match read c 2 with
     | (c, (_, Some err)) => (c, inr err)
     | (c, (p, None)) => (c, inl (BigEndian.Uint16 p))
     end
   else if length =? 127 then
     match read c 8 with
     | (c, (_, Some err)) => (c, inr err)
     | (c, (p, None)) => (c, inl (to_int64 (BigEndian.Uint64 p)))
     end
   else (c, inl length))
  = (set_br c body, @inl Z error (n - 2 ^ 64)).
Proof.
  intros Hn. cbv zeta. rewrite lengthField_big by lia.
  cbn [fst snd]. change (127 =? 126) with false. change (127 =? 127) with true.
  cbv iota.
  rewrite read_exact by (unfold len, BigEndian.PutUint64; rewrite ?be_bytes_length; lia).
  cbv iota beta. do 2 f_equal.
  unfold BigEndian.Uint64, BigEndian.PutUint64.
  rewrite firstn_all2 by (rewrite be_bytes_length; lia).
  rewrite be_value_be_bytes by lia.
  change (256 ^ Z.of_nat 8) with (2 ^ 64).
  unfold to_int64. rewrite Z.mod_mod by lia.
  rewrite (Z.mod_small n (2 ^ 64)) by lia.
  destruct (Z.leb_spec (2 ^ 63) n); [reflexivity|lia].
Qed.

(** X10: a data frame that announces a 64-bit payload length of 2^63 or
    more is not refused: as a signed 64-bit integer the length is negative,
    no payload is read, and [ReadMessage] returns an empty message of the
    frame's type; the bytes after the header stay in the input. *)
Theorem ReadMessage_length_top_bit (c : Conn) (op : Z) (key : option Mask)
    (n : Z) (rest : list Z) (fuel : nat) :
  op = TextMessage \/ op = BinaryMessage ->
  isServer c = is_some key ->
  2 ^ 63 <= n < 2 ^ 64 ->
  ReadMessage (S fuel) (set_br c (frame_header true op key n ++ rest))
  = Some (set_br c rest, (op, [], None)).
Proof.
  intros Hop Hsrv Hn.
  assert (Hr : 0 <= op < 16) by (destruct Hop as [-> | ->]; unfold TextMessage, BinaryMessage; lia).
  unfold ReadMessage, frame_header. rewrite <- !app_assoc.
  cbn [readFrames].
  change ([?a; ?b] ++ ?l) with ([a; b] ++ l).
  rewrite (read_exact c [_; _]) by (unfold len; cbn; lia).
  cbv beta iota zeta. cbn [nth].
  destruct (header_byte0 true op Hr) as (B1 & B2 & B3 & B4 & B5).
  destruct (header_byte1 (is_some key) _ (lengthField_range n ltac:(lia))) as (B6 & B7).
  replace (match key with Some _ => 128 | None => 0 end)
    with (if is_some key then 128 else 0) by (destruct key; reflexivity).
  rewrite B1, B2, B3, B4, B5, B6, B7. cbn [negb orb].
  rewrite !negb_involutive.
  cbn [isServer set_br]. rewrite Hsrv, eqb_reflx. cbn [negb].
  rewrite (frameErrors_data true true op _ noFrame op Hop) by auto.
  cbn [len length Z.of_nat]. change (0 <? 0) with false. cbv iota.
  pose proof (read_extended_length_top_bit c n (key_bytes key ++ rest)) as Hext.
  cbv zeta in Hext. rewrite Hext by lia. clear Hext. cbv iota beta.
  assert (Hkey :
    (if is_some key
     then match read (set_br c (key_bytes key ++ rest)) 4 with
          | (c0, (_, Some err)) => (c0, inr err)
          | (c0, (p, None)) => (c0, inl (nth 0 p 0, nth 1 p 0, nth 2 p 0, nth 3 p 0))
          end
     else (set_br c (key_bytes key ++ rest), inl (0, 0, 0, 0)))
    = (set_br c rest, @inl Mask error (key_or_zero key))).
  { destruct key as [[[[k0 k1] k2] k3]|]; cbn [is_some key_bytes key_or_zero].
    - rewrite read_exact by (unfold len; cbn; lia). reflexivity.
    - reflexivity. }
  rewrite Hkey. clear Hkey. cbv iota beta.
  assert (Hp : readPayload fuel (set_br c rest) (n - 2 ^ 64) []
               = Some (set_br c rest, inl [])).
  { destruct fuel; cbn [readPayload];
      (destruct (Z.leb_spec (n - 2 ^ 64) 0); [reflexivity | lia]). }
  rewrite Hp. cbv iota beta.
  assert (isControl op = false) as -> by (destruct Hop as [-> | ->]; reflexivity).
  destruct (is_some key); reflexivity.
Qed.

Lemma ReadMessage_length_top_bit_witness :
  ReadMessage 1
    (set_br (newConn true [] no_mask)
       (frame_header true BinaryMessage (Some (1, 2, 3, 4)) (2 ^ 63)
        ++ [1; 2; 3]))
  = Some (set_br (newConn true [] no_mask) [1; 2; 3], (BinaryMessage, [], None)).
Proof.
  apply (ReadMessage_length_top_bit (newConn true [] no_mask) BinaryMessage
           (Some (1, 2, 3, 4)) (2 ^ 63) [1; 2; 3] 0).
  - right. reflexivity.
  - reflexivity.
  - lia.
Defined.

(** The header of a frame cut short. *)
Lemma frame_header_length (final : bool) (op : Z) (key : option Mask) (n : Z) :
  length (frame_header final op key n)
  = (2 + length (snd (Spec.lengthField n)) + length (key_bytes key))%nat.
Proof. unfold frame_header. rewrite !length_app. reflexivity. Qed.

Lemma readFrames_eof_in_header (fuel : nat) (c : Conn) (final : bool) (op : Z)
    (key : option Mask) (n : Z) (s t msg : list Z) (mtype mtype' : Z)
    (first : bool) :
  0 <= op < 16 ->
  isServer c = is_some key ->
  0 <= n < 2 ^ 63 ->
  frameErrors false false false final first op (fst (Spec.lengthField n)) mtype
  = (mtype', []) ->
  frame_header final op key n = s ++ t -> t <> [] ->
  exists c',
    readFrames (S fuel) (set_br c s) msg mtype first
    = Some (c', (noFrame, [], Some errUnexpectedEOF)).
Proof.
  intros Hop Hsrv Hn Herr Hcut Ht.
  destruct (Nat.lt_ge_cases (length s) 2) as [Hshort | Hlong].
  { rewrite readFrames_eof_header by (cbn [br set_br]; unfold len; lia). eauto. }
  (* the two header bytes are there *)
  unfold frame_header in Hcut.
  destruct s as [|b0 [|b1 s']]; [cbn in Hlong; lia | cbn in Hlong; lia |].
  cbn [app] in Hcut. injection Hcut as Hb0 Hb1 Hcut.
  cbn [readFrames].
  change (b0 :: b1 :: s') with ([b0; b1] ++ s').
  rewrite (read_exact c [b0; b1]) by (unfold len; cbn; lia).
  cbv beta iota zeta. cbn [nth]. subst b0 b1.
  destruct (header_byte0 final op Hop) as (B1 & B2 & B3 & B4 & B5).
  destruct (header_byte1 (is_some key) _ (lengthField_range n ltac:(lia))) as (B6 & B7).
  replace (match key with Some _ => 128 | None => 0 end)
    with (if is_some key then 128 else 0) by (destruct key; reflexivity).
  rewrite B1, B2, B3, B4, B5, B6, B7. cbn [negb orb].
  rewrite !negb_involutive.
  cbn [isServer set_br]. rewrite Hsrv, eqb_reflx. cbn [negb].
  rewrite Herr. cbn [len length Z.of_nat]. change (0 <? 0) with false. cbv iota.
  assert (Hlt : (length s' < length (snd (Spec.lengthField n)) + length (key_bytes key))%nat).
  { apply (f_equal (@length Z)) in Hcut. rewrite !length_app in Hcut.
    destruct t; [congruence|]. cbn [length] in Hcut. lia. }
  destruct (Nat.lt_ge_cases (length s') (length (snd (Spec.lengthField n))))
    as [Hext | Hext].
  - (* cut inside the extended length *)
    unfold Spec.lengthField in *.
    destruct (Z.leb_spec n 125); [cbn in Hext; lia|].
    destruct (Z.leb_spec n 65535).
    + cbn [fst snd] in *. change (126 =? 126) with true. cbv iota.
      rewrite read_eof by (cbn [br set_br]; unfold len; cbn in Hext; lia). eauto.
    + cbn [fst snd] in *. change (127 =? 126) with false.
      change (127 =? 127) with true. cbv iota.
      rewrite read_eof
        by (cbn [br set_br]; unfold len, BigEndian.PutUint64 in *;
            rewrite be_bytes_length in Hext; lia).
      eauto.
  - (* cut inside the mask key *)
    assert (Hs' : s' = snd (Spec.lengthField n)
                       ++ skipn (length (snd (Spec.lengthField n))) s').
    { rewrite <- (take_drop (length (snd (Spec.lengthField n))) s') at 1.
      f_equal.
      apply (f_equal (firstn (length (snd (Spec.lengthField n))))) in Hcut.
      rewrite take_app_length, take_app_le in Hcut by lia. auto. }
    rewrite Hs'.
    pose proof (read_extended_length c n
                  (skipn (length (snd (Spec.lengthField n))) s')) as Hx.
    cbv zeta in Hx. rewrite Hx by lia. clear Hx. cbv iota beta.
    destruct key as [k|]; [|cbn in Hlt; lia].
    cbn [is_some].
    rewrite read_eof
      by (cbn [br set_br]; unfold len; rewrite ?length_drop;
          destruct k as [[[? ?] ?] ?]; cbn in Hlt; lia).
    eauto.
Qed.

(** X11: when the input ends inside a frame (in the extended length,
    the mask key or the payload) with at most 1024 bytes of the frame
    missing, the read ends with the close error 1006 "unexpected EOF". *)
Theorem ReadMessage_eof_mid_frame (fuel : nat) (c : Conn) (final : bool) (op : Z)
    (key : option Mask) (payload s t msg : list Z) (mtype mtype' : Z)
    (first : bool) :
  0 <= op < 16 ->
  isServer c = is_some key ->
  len payload < 2 ^ 63 ->
  frameErrors false false false final first op
    (fst (Spec.lengthField (len payload))) mtype = (mtype', []) ->
  Spec.frame final op key payload = s ++ t ->
  t <> [] -> len t <= 1024 ->
  (length s + 2 <= fuel)%nat ->
  exists c',
    readFrames (S fuel) (set_br c s) msg mtype first
    = Some (c', (noFrame, [], Some errUnexpectedEOF)).
Proof.
  intros Hop Hsrv Hlen Herr Hcut Ht Hmiss Hfuel.
  pose proof (len_nonneg payload) as Hpos.
  rewrite frame_header_body in Hcut.
  set (hd := frame_header final op key (len payload)) in *.
  destruct (Nat.lt_ge_cases (length s) (length hd)) as [Hin | Hout].
  - (* the cut is inside the header *)
    apply (readFrames_eof_in_header fuel c final op key (len payload) s
             (skipn (length s) hd) msg mtype mtype');
      [exact Hop | exact Hsrv | lia | exact Herr | |].
    + apply (f_equal (firstn (length s))) in Hcut.
      rewrite take_app_le, take_app_length in Hcut by lia.
      transitivity (firstn (length s) hd ++ skipn (length s) hd);
        [symmetry; apply take_drop | f_equal; exact Hcut].
    + intros E. apply (f_equal (@length Z)) in E.
      rewrite length_drop in E. change (length (@nil Z)) with 0%nat in E. lia.
  - (* the cut is inside the payload *)
    assert (Hs : s = hd ++ skipn (length hd) s).
    { apply (f_equal (firstn (length hd))) in Hcut.
      rewrite take_app_length, take_app_le in Hcut by lia.
      transitivity (firstn (length hd) s ++ skipn (length hd) s);
        [symmetry; apply take_drop | f_equal; symmetry; exact Hcut]. }
    assert (Hbody : length (key_apply key payload)
                    = (length (skipn (length hd) s) + length t)%nat).
    { apply (f_equal (@length Z)) in Hcut. rewrite !length_app in Hcut.
      rewrite length_drop. lia. }
    assert (Hkl : length (key_apply key payload) = length payload)
      by (destruct key; cbn [key_apply]; rewrite ?xor_mask_length; reflexivity).
    rewrite Hs.
    apply (readFrames_eof_payload fuel c final op key (len payload)
             (skipn (length hd) s) msg mtype mtype');
      [exact Hop | exact Hsrv | exact Hlen | exact Herr | | |].
    + unfold len in *. destruct t; [congruence|]. cbn [length] in *. lia.
    + unfold len in *. lia.
    + rewrite length_drop. lia.
Qed.

Lemma ReadMessage_eof_mid_frame_witness :
  exists c',
    readFrames 10
      (set_br (newConn true [] no_mask) [129; 131; 1; 2; 3; 4; 0]) [] noFrame true
    = Some (c', (noFrame, [], Some errUnexpectedEOF)).
Proof.
  apply (ReadMessage_eof_mid_frame 9 (newConn true [] no_mask) true TextMessage
           (Some (1, 2, 3, 4)) [1; 2; 3] [129; 131; 1; 2; 3; 4; 0] [0; 0]
           [] noFrame TextMessage true).
  - unfold TextMessage. lia.
  - reflexivity.
  - vm_compute. reflexivity.
  - vm_compute. reflexivity.
  - vm_compute. reflexivity.
  - discriminate.
  - vm_compute. discriminate.
  - cbn. lia.
Defined.

(** What a control frame other than close does to the connection. *)
Lemma WriteControl_keeps_input (c : Conn) (op : Z) (msg : list Z) :
  exists c1 e,
    WriteControl c op msg = (c1, e)
    /\ br c1 = br c /\ isServer c1 = isServer c.
Proof.
  unfold WriteControl, generateMask.
  destruct (negb (isControl op)); [eauto|].
  destruct (negb (isServer c)); [|eauto].
  destruct (entropy c (drawn c)); eauto.
Qed.

Lemma handleControl_ping_pong (c : Conn) (op : Z) (payload : list Z) :
  op = PingMessage \/ op = PongMessage ->
  exists c1,
    handleControl c op payload = Some (c1, None)
    /\ br c1 = br c /\ isServer c1 = isServer c.
Proof.
  intros [-> | ->]; unfold handleControl.
  - change (PingMessage =? CloseMessage) with false.
    change (PingMessage =? PingMessage) with true. cbv iota.
    unfold handlePing.
    destruct (WriteControl_keeps_input c PongMessage payload) as (c1 & e & -> & ? & ?).
    eauto.
  - change (PongMessage =? CloseMessage) with false.
    change (PongMessage =? PingMessage) with false.
    change (PongMessage =? PongMessage) with true. cbv iota.
    unfold handlePong. eauto.
Qed.

Lemma readFrames_pieces (o : Z) (Ho : o = TextMessage \/ o = BinaryMessage)
    (ps : list piece) :
  forall (fuel : nat) (c : Conn) (op : Z) (last_key : option Mask)
         (last rest msg : list Z) (mtype : Z) (first : bool),
    Forall (piece_ok (isServer c)) ps ->
    is_some last_key = isServer c -> len last < 2 ^ 63 ->
    (op = o /\ first = true /\ mtype = noFrame)
    \/ (op = ContMessage /\ first = false /\ mtype = o) ->
    (length (pieces_wire op ps last_key last) < fuel)%nat ->
    exists c',
      readFrames fuel (set_br c (pieces_wire op ps last_key last ++ rest))
        msg mtype first
      = Some (c', (o, msg ++ pieces_payload ps ++ last, None))
      /\ br c' = rest /\ isServer c' = isServer c.
Proof.
  induction ps as [|pc ps IH];
    intros fuel c op last_key last rest msg mtype first Hok Hlk Hll Hst Hfuel.
  - cbn [pieces_wire pieces_payload app] in *.
    destruct fuel as [|fuel]; [lia|].
    pose proof (frame_length true op last_key last) as Hfl.
    rewrite (readFrames_frame fuel c true op last_key last rest msg mtype o).
    + assert (isControl op = false) as ->
          by (destruct Hst as [(-> & _) | (-> & _)];
              [destruct Ho as [-> | ->]|]; reflexivity).
      cbn [negb]. eexists. split; [reflexivity|]. split; reflexivity.
    + destruct Hst as [(-> & _) | (-> & _)];
        [destruct Ho as [-> | ->]|];
          unfold TextMessage, BinaryMessage, ContMessage; lia.
    + congruence.
    + exact Hll.
    + apply frameErrors_data; [exact Ho|].
      destruct Hst as [(-> & -> & _) | (-> & -> & ->)]; auto.
    + lia.
  - inversion Hok as [|? ? Hpc Hps]; subst.
    destruct pc as [k p | cop k p]; cbn [pieces_wire pieces_payload] in *.
    + destruct Hpc as [Hk Hp].
      destruct fuel as [|fuel]; [lia|].
      rewrite length_app in Hfuel.
      pose proof (frame_length false op k p) as Hfl.
      rewrite <- app_assoc.
      rewrite (readFrames_frame fuel c false op k p _ msg mtype o).
      * assert (isControl op = false) as ->
            by (destruct Hst as [(-> & _) | (-> & _)];
                [destruct Ho as [-> | ->]|]; reflexivity).
        cbn [negb].
        destruct (IH fuel c ContMessage last_key last rest (msg ++ p) o false)
          as (c' & HR & Hbr & Hsv);
          [exact Hps | exact Hlk | exact Hll | right; auto | lia |].
        exists c'. rewrite HR, <- !app_assoc. auto.
      * destruct Hst as [(-> & _) | (-> & _)];
          [destruct Ho as [-> | ->]|];
          unfold TextMessage, BinaryMessage, ContMessage; lia.
      * congruence.
      * exact Hp.
      * apply frameErrors_data; [exact Ho|].
        destruct Hst as [(-> & -> & _) | (-> & -> & ->)]; auto.
      * lia.
    + destruct Hpc as (Hcop & Hk & Hp).
      destruct fuel as [|fuel]; [lia|].
      rewrite length_app in Hfuel.
      pose proof (frame_length true cop k p) as Hfl.
      rewrite <- app_assoc.
      rewrite readFrames_control;
        [| destruct Hcop as [-> | ->]; reflexivity | congruence | exact Hp | lia].
      destruct (handleControl_ping_pong
                  (set_br c (pieces_wire op ps last_key last ++ rest)) cop p Hcop)
        as (c1 & -> & Hbr1 & Hsv1).
      cbn [br isServer set_br] in Hbr1, Hsv1.
      rewrite first_after_control
        by (destruct Hst as [(_ & _ & ->) | (_ & -> & _)]; [auto | discriminate]).
      rewrite <- (set_br_eta c1), Hbr1.
      destruct (IH fuel c1 op last_key last rest msg mtype first)
        as (c' & HR & Hbr & Hsv);
        [rewrite Hsv1; exact Hps | congruence | exact Hll | exact Hst | lia |].
      exists c'. rewrite HR. split; [reflexivity|]. split; congruence.
Qed.

(** X12: a fragmented message is put together again.  For any sequence
    of fragments (a first frame with the opcode, continuation frames, the
    last one with FIN) with ping and pong frames anywhere among them,
    [ReadMessage] returns the opcode of the first frame and the
    concatenation of the payloads of the fragments, and leaves what follows
    the last frame in the input. *)
Theorem ReadMessage_reassembles (o : Z) (ps : list piece) (last_key : option Mask)
    (last rest : list Z) (c : Conn) (fuel : nat) :
  o = TextMessage \/ o = BinaryMessage ->
  Forall (piece_ok (isServer c)) ps ->
  is_some last_key = isServer c -> len last < 2 ^ 63 ->
  (length (pieces_wire o ps last_key last) < fuel)%nat ->
  exists c',
    ReadMessage fuel (set_br c (pieces_wire o ps last_key last ++ rest))
    = Some (c', (o, pieces_payload ps ++ last, None))
    /\ br c' = rest /\ isServer c' = isServer c.
Proof.
  intros Ho Hok Hlk Hll Hfuel. unfold ReadMessage.
  apply (readFrames_pieces o Ho ps fuel c o last_key last rest [] noFrame true);
    auto.
Qed.

Lemma ReadMessage_reassembles_witness :
  exists c',
    ReadMessage 100
      (set_br (newConn false [] no_mask)
         (pieces_wire TextMessage
            [Fragment None [1]; Interleaved PingMessage None [9];
             Fragment None [2]] None [3] ++ []))
    = Some (c', (TextMessage,
                 pieces_payload
                   [Fragment None [1]; Interleaved PingMessage None [9];
                    Fragment None [2]] ++ [3], None))
    /\ br c' = []
    /\ isServer c' = isServer (newConn false [] no_mask).
Proof.
  apply (ReadMessage_reassembles TextMessage
           [Fragment None [1]; Interleaved PingMessage None [9];
            Fragment None [2]] None [3] [] (newConn false [] no_mask) 100).
  - left. reflexivity.
  - repeat constructor; vm_compute; auto; discriminate.
  - reflexivity.
  - vm_compute. reflexivity.
  - vm_compute. lia.
Defined.

(** ** The server handshake *)

(** Header keys in canonical form. *)
Example canonical_keys :
  header.CanonicalHeaderKey "Sec-WebSocket-Version" = "Sec-Websocket-Version"
  /\ header.CanonicalHeaderKey "Connection" = "Connection"
  /\ header.CanonicalHeaderKey "upgrade" = "Upgrade"
  /\ header.CanonicalHeaderKey "bad key" = "bad key".
Proof. vm_compute. auto. Qed.

Lemma Values_fold_Add (key : string) (lines : list (string * string)) :
  forall h : gmap string (list string),
    header.Values (fold_left (fun h kv => header.Add h (fst kv) (snd kv)) lines h) key
    = header.Values h key
      ++ map snd
           (List.filter
              (fun kv => String.eqb (header.CanonicalHeaderKey (fst kv))
                                    (header.CanonicalHeaderKey key))
              lines).
Proof.
  induction lines as [|[k v] lines IH]; intros h; cbn [fold_left List.filter map].
  - now rewrite app_nil_r.
  - rewrite IH. cbn [fst snd].
    unfold header.Values, header.Add, http.Values.
    destruct (String.eqb_spec (header.CanonicalHeaderKey k)
                (header.CanonicalHeaderKey key)) as [E | E].
    + rewrite E, lookup_insert_eq. cbn [default map snd].
      unfold id. now rewrite <- app_assoc.
    + rewrite lookup_insert_ne by exact E. reflexivity.
Qed.

(** Looking a key up in the header of a request gives the values of the
    lines with that key, whatever the case of the letters of the key. *)
Lemma Values_request_header (key : string) (r : http.Request) :
  header.Values (request_header r) key = header_lines key r.
Proof.
  unfold request_header, header_lines. rewrite Values_fold_Add.
  unfold header.Values, http.Values. now rewrite lookup_empty.
Qed.

Lemma checkHeader_single (h : gmap string (list string)) (key value : string) :
  checkHeader h key value = true <-> http.Values h key = [value].
Proof.
  unfold checkHeader, len.
  destruct (http.Values h key) as [|v [|v' vs]]; cbn [length nth].
  - cbn. split; discriminate.
  - change (Z.of_nat 1 =? 1) with true. cbv iota.
    rewrite String.eqb_eq. split; congruence.
  - destruct (Z.eqb_spec (Z.of_nat (S (S (length vs)))) 1); [lia|].
    split; discriminate.
Qed.

Lemma checkHeader_request (key value : string) (r : http.Request) :
  checkHeader (request_header r) (header.CanonicalHeaderKey key) value = true
  <-> header_lines key r = [value].
Proof.
  rewrite checkHeader_single. rewrite <- Values_request_header. reflexivity.
Qed.

Lemma Get_request (key : string) (r : http.Request) :
  header.Get (request_header r) key
  = match header_lines key r with [] => "" | v :: _ => v end.
Proof.
  rewrite <- Values_request_header. reflexivity.
Qed.

(** X13: [Accept] gives a connection exactly when the request has one
    Connection header with the value "Upgrade", the method GET, one
    Sec-WebSocket-Version header with the value "13", a non-empty first
    Sec-WebSocket-Key header, and the host hands the socket over with no
    byte buffered; the connection is then a fresh server-role connection
    on the input of the socket.  Header keys are compared in canonical
    form, values byte for byte. *)
Theorem Accept_gives_connection_iff (env : AcceptEnv) (w : ResponseWriter)
    (r : http.Request) (c : Conn) :
  acc_conn (Accept env w r) = Some c
  <-> exists input,
      acceptable env r input /\ c = newConn true input (accept_entropy env).
Proof.
  unfold Accept, acceptable.
  pose proof (checkHeader_request "Connection" "Upgrade" r) as HC.
  pose proof (checkHeader_request "Sec-WebSocket-Version" "13" r) as HV.
  rewrite Get_request.
  destruct (checkHeader (request_header r) (header.CanonicalHeaderKey "Connection") "Upgrade").
  2:{ cbn. split; [discriminate|]. intros (input & (H & _) & _).
      apply HC in H. discriminate. }
  destruct (String.eqb_spec (http.Method r) http.MethodGet) as [HM | HM].
  2:{ cbn. split; [discriminate|]. intros (input & (_ & H & _) & _). contradiction. }
  destruct (checkHeader (request_header r)
              (header.CanonicalHeaderKey "Sec-WebSocket-Version") "13").
  2:{ cbn. split; [discriminate|]. intros (input & (_ & _ & H & _) & _).
      apply HV in H. discriminate. }
  cbn [negb].
  destruct (String.eqb_spec
              (match header_lines "Sec-WebSocket-Key" r with [] => "" | v :: _ => v end) "")
    as [HK | HK].
  { cbn. split; [discriminate|].
    intros (input & (_ & _ & _ & (k & ks & E & Hne) & _) & _).
    rewrite E in HK. contradiction. }
  destruct (is_hijacker env).
  2:{ cbn. split; [discriminate|]. intros (input & (_ & _ & _ & _ & H & _) & _).
      discriminate. }
  cbn [negb].
  destruct (Hijack env) as [[buffered input]|err].
  2:{ cbn. split; [discriminate|].
      intros (input & (_ & _ & _ & _ & _ & b & H & _) & _). discriminate. }
  destruct (Z.ltb_spec 0 buffered) as [Hb | Hb]; cbn [acc_conn].
  - split; [discriminate|].
    intros (input' & (_ & _ & _ & _ & _ & b & H & Hle) & _).
    injection H as <- <-. lia.
  - split.
    + intros [= <-]. exists input. split; [|reflexivity].
      split; [apply HC; reflexivity|]. split; [exact HM|].
      split; [apply HV; reflexivity|]. split.
      { destruct (header_lines "Sec-WebSocket-Key" r) as [|k ks]; [congruence|].
        exists k, ks. auto. }
      split; [reflexivity|]. exists buffered. split; [reflexivity | lia].
    + intros (input' & (_ & _ & _ & _ & _ & b & H & _) & ->).
      injection H as <- <-. reflexivity.
Qed.

Lemma checkHeader_lines (key value : string) (r : http.Request) :
  checkHeader (request_header r) (header.CanonicalHeaderKey key) value
  = match header_lines key r with
    | [v] => String.eqb v value
    | _ => false
    end.
Proof.
  rewrite <- Values_request_header.
  unfold checkHeader, header.Values, len.
  destruct (http.Values (request_header r) (header.CanonicalHeaderKey key))
    as [|v [|v' vs]]; cbn [length nth]; try reflexivity.
  destruct (Z.eqb_spec (Z.of_nat (S (S (length vs)))) 1); [lia | reflexivity].
Qed.

Lemma writeError_fresh (code : Z) (msg : string) (w : ResponseWriter) :
  rw_sent w = None -> bodyAllowedForStatus code = true ->
  writeError code msg w
  = (mkResponseWriter (rw_header w) (Some (code, rw_header w))
       (rw_body w ++ bytes_of_string msg), ErrorString msg).
Proof.
  intros Hs Hb. unfold writeError, rw_Write, rw_WriteHeader.
  rewrite Hs. cbn. rewrite Hb. reflexivity.
Qed.

(** After the switch of protocols has been sent, [writeError] changes
    nothing in the response. *)
Lemma writeError_after_switch (code : Z) (msg : string) (w : ResponseWriter)
    (hdr : gmap string (list string)) :
  rw_sent w = Some (http.StatusSwitchingProtocols, hdr) ->
  writeError code msg w = (w, ErrorString msg).
Proof.
  intros Hs. unfold writeError, rw_Write, rw_WriteHeader.
  destruct w as [h s b]. cbn in Hs. subst s. reflexivity.
Qed.

Lemma switch_sent (w : ResponseWriter) (key : string) :
  rw_sent w = None ->
  switching_response w key
    (rw_WriteHeader
       (rw_Set (rw_Set (rw_Set w "Upgrade" "websocket") "Connection" "Upgrade")
          "Sec-WebSocket-Accept" (computeAcceptKey key))
       http.StatusSwitchingProtocols).
Proof.
  intros Hs. unfold switching_response, rw_WriteHeader, rw_Set.
  cbn [rw_sent rw_header rw_body]. rewrite Hs. cbn [rw_sent rw_header rw_body].
  split; [reflexivity|]. eexists. split; [reflexivity|].
  unfold header.Values, header.Set_, http.Values.
  change (header.CanonicalHeaderKey "Upgrade") with "Upgrade".
  change (header.CanonicalHeaderKey "Connection") with "Connection".
  change (header.CanonicalHeaderKey "Sec-WebSocket-Accept")
    with "Sec-Websocket-Accept".
  split; [|split; [|split]].
  - rewrite lookup_insert_ne by discriminate.
    rewrite lookup_insert_ne by discriminate.
    now rewrite lookup_insert_eq.
  - rewrite lookup_insert_ne by discriminate.
    now rewrite lookup_insert_eq.
  - now rewrite lookup_insert_eq.
  - intros k H1 H2 H3.
    rewrite !lookup_insert_ne by congruence. reflexivity.
Qed.

Ltac accept_checks :=
  unfold Accept;
  rewrite !checkHeader_lines, !Get_request.

(** X14: when [Accept] gives a connection (on a response writer that
    has sent nothing yet), it returns no error, leaves the socket open, and
    has sent the status 101 with the headers Upgrade: websocket,
    Connection: Upgrade and Sec-WebSocket-Accept: the accept key computed
    from the first Sec-WebSocket-Key of the request; the other headers of
    the writer and its body are untouched. *)
Theorem Accept_switch_response (env : AcceptEnv) (w : ResponseWriter)
    (r : http.Request) (c : Conn) :
  rw_sent w = None ->
  acc_conn (Accept env w r) = Some c ->
  acc_err (Accept env w r) = None
  /\ acc_socket_closed (Accept env w r) = false
  /\ isServer c = true /\ writer c = false /\ sent c = []
  /\ exists key ks,
      header_lines "Sec-WebSocket-Key" r = key :: ks
      /\ switching_response w key (acc_w (Accept env w r)).
Proof.
  intros Hs. accept_checks.
  destruct (header_lines "Connection" r) as [|v1 [|? ?]]; try discriminate.
  destruct (String.eqb v1 "Upgrade"); [|discriminate].
  destruct (String.eqb (http.Method r) http.MethodGet); [|discriminate].
  destruct (header_lines "Sec-WebSocket-Version" r) as [|v2 [|? ?]];
    try discriminate.
  destruct (String.eqb v2 "13"); [|discriminate].
  destruct (header_lines "Sec-WebSocket-Key" r) as [|key ks]; [discriminate|].
  destruct (String.eqb key ""); [discriminate|].
  destruct (is_hijacker env); [|discriminate].
  destruct (Hijack env) as [[buffered input]|err]; [|discriminate].
  destruct (0 <? buffered); [discriminate|].
  cbn. intros [= <-]. cbn.
  repeat (split; [reflexivity|]).
  exists key, ks. split; [reflexivity|].
  now apply switch_sent.
Qed.

Lemma Accept_switch_response_witness :
  acc_err (Accept (plain_host [1; 2]) plain_writer (handshake_request "a2V5")) = None
  /\ acc_socket_closed
       (Accept (plain_host [1; 2]) plain_writer (handshake_request "a2V5")) = false
  /\ isServer (newConn true [1; 2] no_mask) = true
  /\ writer (newConn true [1; 2] no_mask) = false
  /\ sent (newConn true [1; 2] no_mask) = []
  /\ exists key ks,
      header_lines "Sec-WebSocket-Key" (handshake_request "a2V5") = key :: ks
      /\ switching_response plain_writer key
           (acc_w (Accept (plain_host [1; 2]) plain_writer
                     (handshake_request "a2V5"))).
Proof.
  apply (Accept_switch_response (plain_host [1; 2]) plain_writer
           (handshake_request "a2V5") (newConn true [1; 2] no_mask)).
  - reflexivity.
  - vm_compute. reflexivity.
Defined.

(** X15: the four refusals of [Accept], in the order of the checks, on a
    response writer that has sent nothing yet: 400 "no 'Connection'
    header", 405 "not GET method", 400 "unsupported websocket version",
    400 "no challenge key", each text after "websocket: bad client
    handshake: ".  The text is the body of the response and the error
    returned; no connection is made and the headers of the handshake are
    not set. *)
Theorem Accept_rejections (env : AcceptEnv) (w : ResponseWriter)
    (r : http.Request) :
  rw_sent w = None ->
  (header_lines "Connection" r <> ["Upgrade"] ->
   rejected_with env w r 400
     "websocket: bad client handshake: no 'Connection' header")
  /\ (header_lines "Connection" r = ["Upgrade"] ->
      http.Method r <> "GET" ->
      rejected_with env w r 405 "websocket: bad client handshake: not GET method")
  /\ (header_lines "Connection" r = ["Upgrade"] ->
      http.Method r = "GET" ->
      header_lines "Sec-WebSocket-Version" r <> ["13"] ->
      rejected_with env w r 400
        "websocket: bad client handshake: unsupported websocket version")
  /\ (header_lines "Connection" r = ["Upgrade"] ->
      http.Method r = "GET" ->
      header_lines "Sec-WebSocket-Version" r = ["13"] ->
      hd "" (header_lines "Sec-WebSocket-Key" r) = "" ->
      rejected_with env w r 400
        "websocket: bad client handshake: no challenge key").
Proof.
  intros Hs. unfold rejected_with. accept_checks.
  split; [|split; [|split]].
  - intros H.
    assert (match header_lines "Connection" r with
            | [v] => String.eqb v "Upgrade" | _ => false end = false) as ->.
    { destruct (header_lines "Connection" r) as [|v [|? ?]]; try reflexivity.
      destruct (String.eqb_spec v "Upgrade"); [congruence | reflexivity]. }
    cbn [negb]. unfold reject.
    rewrite writeError_fresh by (exact Hs || reflexivity). reflexivity.
  - intros -> HM. rewrite String.eqb_refl. cbn [negb].
    destruct (String.eqb_spec (http.Method r) http.MethodGet) as [E|_];
      [contradiction|].
    cbn [negb]. unfold reject.
    rewrite writeError_fresh by (exact Hs || reflexivity). reflexivity.
  - intros -> -> H. unfold http.MethodGet.
    rewrite !String.eqb_refl. cbn [negb].
    assert (match header_lines "Sec-WebSocket-Version" r with
            | [v] => String.eqb v "13" | _ => false end = false) as ->.
    { destruct (header_lines "Sec-WebSocket-Version" r) as [|v [|? ?]];
        try reflexivity.
      destruct (String.eqb_spec v "13"); [congruence | reflexivity]. }
    cbn [negb]. unfold reject.
    rewrite writeError_fresh by (exact Hs || reflexivity). reflexivity.
  - intros -> -> -> H. unfold http.MethodGet.
    rewrite !String.eqb_refl. cbn [negb].
    assert (match header_lines "Sec-WebSocket-Key" r with
            | [] => "" | v :: _ => v end = "") as ->.
    { destruct (header_lines "Sec-WebSocket-Key" r); exact H. }
    rewrite String.eqb_refl. unfold reject.
    rewrite writeError_fresh by (exact Hs || reflexivity). reflexivity.
Qed.

Lemma Accept_rejections_witness :
  rejected_with (plain_host []) plain_writer (request "GET" []) 400
    "websocket: bad client handshake: no 'Connection' header"
  /\ rejected_with (plain_host []) plain_writer
       (request "POST" [("connection", "Upgrade")]) 405
       "websocket: bad client handshake: not GET method"
  /\ rejected_with (plain_host []) plain_writer
       (request "GET" [("Connection", "Upgrade"); ("Sec-WebSocket-Version", "8")])
       400 "websocket: bad client handshake: unsupported websocket version"
  /\ rejected_with (plain_host []) plain_writer
       (request "GET" [("Connection", "Upgrade"); ("Sec-WebSocket-Version", "13")])
       400 "websocket: bad client handshake: no challenge key".
Proof.
  split; [|split; [|split]].
  - apply (Accept_rejections (plain_host []) plain_writer (request "GET" []));
      [reflexivity | vm_compute; discriminate].
  - apply (Accept_rejections (plain_host []) plain_writer
             (request "POST" [("connection", "Upgrade")]));
      [reflexivity | vm_compute; reflexivity | vm_compute; discriminate].
  - apply (Accept_rejections (plain_host []) plain_writer
             (request "GET" [("Connection", "Upgrade");
                             ("Sec-WebSocket-Version", "8")]));
      [reflexivity | vm_compute; reflexivity | reflexivity
      | vm_compute; discriminate].
  - apply (Accept_rejections (plain_host []) plain_writer
             (request "GET" [("Connection", "Upgrade");
                             ("Sec-WebSocket-Version", "13")]));
      [reflexivity | vm_compute; reflexivity | reflexivity
      | vm_compute; reflexivity | vm_compute; reflexivity].
Defined.

(** X16: the failures of [Accept] after the request has passed its
    checks: a response writer that cannot be hijacked, a failing [Hijack],
    and bytes buffered behind the request ("client sent data with
    handshake", the socket is closed).  In each case no connection is
    returned; where the writer is the hijackable one, the status 101 has
    already been sent and the error text does not reach the client. *)
Theorem Accept_fails_after_switch (env : AcceptEnv) (w : ResponseWriter)
    (r : http.Request) (key : string) (ks : list string) :
  rw_sent w = None ->
  header_lines "Connection" r = ["Upgrade"] ->
  http.Method r = "GET" ->
  header_lines "Sec-WebSocket-Version" r = ["13"] ->
  header_lines "Sec-WebSocket-Key" r = key :: ks ->
  key <> "" ->
  (is_hijacker env = false ->
   acc_conn (Accept env w r) = None
   /\ acc_err (Accept env w r)
      = Some (ErrorString "websocket: response does not implement hijacker")
   /\ acc_socket_closed (Accept env w r) = false)
  /\ (is_hijacker env = true ->
      forall err, Hijack env = inr err ->
      acc_conn (Accept env w r) = None
      /\ acc_err (Accept env w r) = Some (ErrorString (error_Error err))
      /\ acc_socket_closed (Accept env w r) = false
      /\ switching_response w key (acc_w (Accept env w r)))
  /\ (is_hijacker env = true ->
      forall buffered input, Hijack env = inl (buffered, input) ->
      0 < buffered ->
      acc_conn (Accept env w r) = None
      /\ acc_err (Accept env w r)
         = Some (ErrorString "websocket: client sent data with handshake")
      /\ acc_socket_closed (Accept env w r) = true
      /\ switching_response w key (acc_w (Accept env w r))).
Proof.
  intros Hs HC HM HV HK Hne. accept_checks.
  rewrite HC, HM, HV, HK. unfold http.MethodGet.
  rewrite !String.eqb_refl. cbn [negb].
  destruct (String.eqb_spec key "") as [|_]; [contradiction|].
  pose proof (switch_sent w key Hs) as Hsw.
  split; [|split].
  - intros ->. cbn [negb]. unfold reject.
    destruct Hsw as (_ & hdr & Hsent & _).
    rewrite (writeError_after_switch _ _ _ hdr Hsent). cbn. auto.
  - intros -> err ->. cbn [negb]. unfold reject.
    pose proof Hsw as (_ & hdr & Hsent & _).
    rewrite (writeError_after_switch _ _ _ hdr Hsent). cbn [acc_conn acc_err acc_w acc_socket_closed fst snd].
    auto.
  - intros -> buffered input -> Hb. cbn [negb].
    destruct (Z.ltb_spec 0 buffered); [|lia].
    cbn [acc_conn acc_err acc_w acc_socket_closed]. auto.
Qed.

Lemma Accept_fails_after_switch_witness :
  acc_conn (Accept (mkAcceptEnv true (inl (3, [129; 0])) no_mask) plain_writer
              (handshake_request "a2V5")) = None
  /\ acc_err (Accept (mkAcceptEnv true (inl (3, [129; 0])) no_mask) plain_writer
                (handshake_request "a2V5"))
     = Some (ErrorString "websocket: client sent data with handshake")
  /\ acc_socket_closed
       (Accept (mkAcceptEnv true (inl (3, [129; 0])) no_mask) plain_writer
          (handshake_request "a2V5")) = true
  /\ switching_response plain_writer "a2V5"
       (acc_w (Accept (mkAcceptEnv true (inl (3, [129; 0])) no_mask) plain_writer
                 (handshake_request "a2V5"))).
Proof.
  refine (proj2 (proj2 (Accept_fails_after_switch
                          (mkAcceptEnv true (inl (3, [129; 0])) no_mask)
                          plain_writer (handshake_request "a2V5") "a2V5" []
                          eq_refl _ eq_refl _ _ _))
            eq_refl 3 [129; 0] eq_refl _).
  - vm_compute. reflexivity.
  - vm_compute. reflexivity.
  - vm_compute. reflexivity.
  - discriminate.
  - lia.
Defined.

(** X17: [Accept] looks at the method and at the Connection,
    Sec-WebSocket-Version and Sec-WebSocket-Key headers only: two requests
    that agree on these get the same result.  In particular the Upgrade
    header is not checked: a request without it, or with another value, is
    accepted like one with "websocket". *)
Theorem Accept_ignores_other_headers (env : AcceptEnv) (w : ResponseWriter)
    (r r' : http.Request) :
  http.Method r = http.Method r' ->
  header_lines "Connection" r = header_lines "Connection" r' ->
  header_lines "Sec-WebSocket-Version" r = header_lines "Sec-WebSocket-Version" r' ->
  header_lines "Sec-WebSocket-Key" r = header_lines "Sec-WebSocket-Key" r' ->
  Accept env w r = Accept env w r'.
Proof.
  intros HM HC HV HK. accept_checks. rewrite HM, HC, HV, HK. reflexivity.
Qed.

Lemma Accept_ignores_other_headers_witness :
  Accept (plain_host []) plain_writer (handshake_request "a2V5")
  = Accept (plain_host []) plain_writer
      (request "GET"
         [("sec-websocket-key", "a2V5"); ("Upgrade", "h2c");
          ("CONNECTION", "Upgrade"); ("Sec-Websocket-Version", "13")]).
Proof.
  apply (Accept_ignores_other_headers (plain_host []) plain_writer
           (handshake_request "a2V5")
           (request "GET"
              [("sec-websocket-key", "a2V5"); ("Upgrade", "h2c");
               ("CONNECTION", "Upgrade"); ("Sec-Websocket-Version", "13")]));
    vm_compute; reflexivity.
Defined.

Lemma base64_nonempty (p : list Z) :
  p <> [] -> base64.EncodeToString p <> "".
Proof.
  intros Hp. unfold base64.EncodeToString.
  destruct p as [|a [|b [|c rest]]]; [contradiction | | |]; cbn; discriminate.
Qed.

Lemma header_lines_handshake_request (key : string) :
  header_lines "Connection" (handshake_request key) = ["Upgrade"]
  /\ header_lines "Sec-WebSocket-Version" (handshake_request key) = ["13"]
  /\ header_lines "Sec-WebSocket-Key" (handshake_request key) = [key].
Proof.
  unfold header_lines, handshake_request. cbn [http.ReqHeader].
  cbn [List.filter fst snd].
  change (header.CanonicalHeaderKey "Upgrade") with "Upgrade".
  change (header.CanonicalHeaderKey "Connection") with "Connection".
  change (header.CanonicalHeaderKey "Sec-WebSocket-Version")
    with "Sec-Websocket-Version".
  change (header.CanonicalHeaderKey "Sec-WebSocket-Key")
    with "Sec-Websocket-Key".
  repeat split.
Qed.

(** The result of [Accept] for a request that passes the four checks,
    on a host that hands the socket over with nothing buffered. *)
Lemma Accept_success (env : AcceptEnv) (w : ResponseWriter) (r : http.Request)
    (key : string) (ks : list string) (buffered : Z) (input : list Z) :
  header_lines "Connection" r = ["Upgrade"] ->
  http.Method r = "GET" ->
  header_lines "Sec-WebSocket-Version" r = ["13"] ->
  header_lines "Sec-WebSocket-Key" r = key :: ks ->
  key <> "" ->
  is_hijacker env = true ->
  Hijack env = inl (buffered, input) ->
  buffered <= 0 ->
  Accept env w r
  = mkAcceptResult (Some (newConn true input (accept_entropy env))) None
      (rw_WriteHeader
         (rw_Set (rw_Set (rw_Set w "Upgrade" "websocket") "Connection" "Upgrade")
            "Sec-WebSocket-Accept" (computeAcceptKey key))
         http.StatusSwitchingProtocols)
      false.
Proof.
  intros HC HM HV HK Hne Hh HJ Hb. accept_checks.
  rewrite HC, HM, HV, HK, Hh, HJ. unfold http.MethodGet.
  rewrite !String.eqb_refl. cbn [negb].
  destruct (String.eqb_spec key "") as [|_]; [contradiction|].
  destruct (Z.ltb_spec 0 buffered); [lia | reflexivity].
Qed.

(** X18: the two halves of the handshake fit.  The request that [Dial]
    writes (shown by the error path of the write: [Dial] fails with the
    error of writing exactly this request, and closes the socket) is
    accepted by [Accept], whose response passes [validateResponse] and
    carries the accept key of the challenge key: the check that [Dial]
    leaves out would pass against this server. *)
Theorem Dial_request_accepted (denv : DialEnv) (wsUrl : string) (u : URL)
    (p peer : list Z) (env : AcceptEnv) (w : ResponseWriter) (input : list Z) :
  url_Parse denv wsUrl = inl u ->
  Scheme u = "ws" \/ Scheme u = "wss" ->
  challenge_bytes denv = inl p ->
  p <> [] ->
  net_Dial denv (Host u) = inl peer ->
  rw_sent w = None ->
  is_hijacker env = true ->
  Hijack env = inl (0, input) ->
  (forall e,
     req_Write denv (handshake_request (base64.EncodeToString p)) = Some e ->
     Dial denv wsUrl = mkDialResult None (Some e) true)
  /\ acc_conn (Accept env w (handshake_request (base64.EncodeToString p)))
     = Some (newConn true input (accept_entropy env))
  /\ exists hdr,
      rw_sent (acc_w (Accept env w (handshake_request (base64.EncodeToString p))))
      = Some (http.StatusSwitchingProtocols, hdr)
      /\ validateResponse
           {| http.StatusCode := http.StatusSwitchingProtocols;
              http.Header := hdr |} = true
      /\ header.Get hdr "Sec-WebSocket-Accept"
         = computeAcceptKey (base64.EncodeToString p).
Proof.
  intros HU HS HP Hne HD Hs Hh HJ.
  destruct (header_lines_handshake_request (base64.EncodeToString p))
    as (H1 & H2 & H3).
  rewrite (Accept_success env w _ (base64.EncodeToString p) [] 0 input)
    by (auto using base64_nonempty; lia).
  cbn [acc_conn acc_w].
  split; [|split; [reflexivity|]].
  - intros e He. unfold Dial. rewrite HU.
    assert (negb (Scheme u =? "ws")%string && negb (Scheme u =? "wss")%string
            = false) as ->.
    { destruct HS as [-> | ->]; reflexivity. }
    unfold generateChallengeKey. rewrite HP, HD.
    fold (handshake_request (base64.EncodeToString p)). rewrite He. reflexivity.
  - destruct (switch_sent w (base64.EncodeToString p) Hs)
      as (_ & hdr & Hsent & V1 & V2 & V3 & _).
    exists hdr. split; [exact Hsent|].
    unfold header.Values in V1, V2, V3.
    change (header.CanonicalHeaderKey "Upgrade") with "Upgrade" in V1.
    change (header.CanonicalHeaderKey "Connection") with "Connection" in V2.
    split.
    + unfold validateResponse. cbn [http.StatusCode http.Header].
      rewrite Z.eqb_refl.
      rewrite (proj2 (checkHeader_single hdr "Upgrade" "websocket") V1).
      rewrite (proj2 (checkHeader_single hdr "Connection" "Upgrade") V2).
      reflexivity.
    + unfold header.Get, http.Get. rewrite V3. reflexivity.
Qed.

Lemma Dial_request_accepted_witness :
  (forall e,
     req_Write plain_env (handshake_request (base64.EncodeToString (repeat 7 16)))
     = Some e ->
     Dial plain_env "ws://localhost:8080" = mkDialResult None (Some e) true)
  /\ acc_conn (Accept (plain_host []) plain_writer
                 (handshake_request (base64.EncodeToString (repeat 7 16))))
     = Some (newConn true [] (accept_entropy (plain_host [])))
  /\ exists hdr,
      rw_sent (acc_w (Accept (plain_host []) plain_writer
                        (handshake_request (base64.EncodeToString (repeat 7 16)))))
      = Some (http.StatusSwitchingProtocols, hdr)
      /\ validateResponse
           {| http.StatusCode := http.StatusSwitchingProtocols;
              http.Header := hdr |} = true
      /\ header.Get hdr "Sec-WebSocket-Accept"
         = computeAcceptKey (base64.EncodeToString (repeat 7 16)).
Proof.
  apply (Dial_request_accepted plain_env "ws://localhost:8080"
           {| Scheme := "ws"; Host := "localhost:8080" |}
           (repeat 7 16) [] (plain_host []) plain_writer []).
  - reflexivity.
  - left. reflexivity.
  - reflexivity.
  - discriminate.
  - reflexivity.
  - reflexivity.
  - reflexivity.
  - reflexivity.
Defined.

(** ** The outcomes of [Dial] *)

Ltac dial_facts :=
  repeat match goal with
    | H : _ /\ _ |- _ => destruct H
    | H : ex _ |- _ => destruct H
    | H : _ \/ _ |- _ => destruct H
    | H : Some _ = Some _ |- _ => injection H as H; subst
    | H : inl _ = inl _ |- _ => injection H as H; subst
    | H : inr _ = inr _ |- _ => injection H as H; subst
    | |- _ /\ _ => split
    end.

(** X19: the outcomes of [Dial].  It returns either a connection or an
    error, never both and never neither; the socket is closed exactly when
    it was opened and [Dial] fails (no socket is leaked, and nothing is
    opened for a URL that does not parse or whose scheme is not ws or wss);
    a connection returned is a fresh client-role connection. *)
Theorem Dial_outcome (env : DialEnv) (wsUrl : string) :
  (dial_conn (Dial env wsUrl) = None <-> dial_err (Dial env wsUrl) <> None)
  /\ (socket_closed (Dial env wsUrl) = true
      <-> socket_opened env wsUrl /\ dial_conn (Dial env wsUrl) = None)
  /\ (forall c,
        dial_conn (Dial env wsUrl) = Some c ->
        isServer c = false /\ writer c = false /\ sent c = []
        /\ closed c = false /\ drawn c = 0%nat
        /\ entropy c = mask_entropy env).
Proof.
  unfold Dial, socket_opened, generateChallengeKey.
  destruct (url_Parse env wsUrl) as [u|e0];
    [destruct (String.eqb_spec (Scheme u) "ws");
     destruct (String.eqb_spec (Scheme u) "wss"); cbn [negb andb];
     try (destruct (challenge_bytes env) as [p|e1];
          [destruct (net_Dial env (Host u)) as [input|e2] eqn:HD;
           [destruct (req_Write env _) as [e3|];
            [|destruct (http_ReadResponse env _) as [[resp rest]|e4]]|]|])|];
    cbn; (split; [|split]); try split; intros; dial_facts;
    try congruence; try (repeat eexists; eauto; fail).
Qed.

(** ** The closing handshake *)

(** A close payload with an accepted code is answered with the same
    payload, and gives the close error with its code and reason. *)
Lemma handleControl_close (c : Conn) (code : Z) (reason : string) :
  Spec.acceptedOnReceipt code ->
  len (Spec.closePayload code reason) <= 125 ->
  handleControl c CloseMessage (Spec.closePayload code reason)
  = Some (fst (WriteControl c CloseMessage (Spec.closePayload code reason)),
          Some (CloseErr {| Code := code; Text := reason |})).
Proof.
  intros Hacc Hlen.
  destruct (acceptedOnReceipt_range code Hacc) as [Hr Hne].
  destruct (closePayload_code code reason Hr) as (P1 & P2 & P3 & P4).
  unfold handleControl. change (CloseMessage =? CloseMessage) with true. cbv iota.
  destruct (Z.leb_spec 2 (len (Spec.closePayload code reason))); [|lia].
  rewrite P1, P2, string_of_bytes_of_string.
  apply isValidReceivedCloseCode_iff in Hacc. rewrite Hacc. cbn [negb].
  unfold handleClose. rewrite P4.
  destruct (Z.eqb_spec code CloseNoStatusReceived); [congruence|].
  destruct (WriteControl c CloseMessage (Spec.closePayload code reason)).
  reflexivity.
Qed.

Lemma readFrames_control_last (fuel : nat) (c : Conn) (op : Z)
    (key : option Mask) (payload msg : list Z) (mtype : Z) (first : bool) :
  isControl op = true ->
  isServer c = is_some key ->
  len payload <= 125 ->
  (length payload <= fuel)%nat ->
  readFrames (S fuel) (set_br c (Spec.frame true op key payload)) msg mtype first
  = match handleControl (set_br c []) op payload with
    | None => None
    | Some (c, Some err) => Some (c, (noFrame, [], Some err))
    | Some (c, None) =>
        readFrames fuel c msg mtype
          (if negb (mtype =? noFrame) then false else first)
    end.
Proof.
  intros H1 H2 H3 H4.
  pose proof (readFrames_control fuel c op key payload [] msg mtype first
                H1 H2 H3 H4) as H.
  rewrite app_nil_r in H. exact H.
Qed.

(** X20: the closing handshake, started with
    [WriteMessage(CloseMessage, FormatCloseMessage(code, reason))].  The
    peer's [ReadMessage] returns the close error with that code and reason
    and echoes a close frame with the same payload; reading the echo, the
    initiator gets the same close error and answers the echo with one more
    close frame: the connection does not remember that it has sent a
    close.  On a client the random source is assumed to deliver the
    masks. *)
Theorem close_handshake (a b : Conn) (code : Z) (reason : string) (fuel : nat) :
  isServer b = negb (isServer a) ->
  writer a = false ->
  Spec.acceptedOnReceipt code ->
  len (Spec.closePayload code reason) <= 125 ->
  (length (Spec.closePayload code reason) <= fuel)%nat ->
  (isServer a = false ->
   entropy a (drawn a) <> None /\ entropy a (S (drawn a)) <> None) ->
  (isServer b = false -> entropy b (drawn b) <> None) ->
  exists a1 b1 a2,
    WriteMessage a CloseMessage (FormatCloseMessage code reason) = Some (a1, None)
    /\ sent a1
       = sent a ++ Spec.frame true CloseMessage (next_key a)
                     (Spec.closePayload code reason)
    /\ ReadMessage (S fuel)
         (set_br b (Spec.frame true CloseMessage (next_key a)
                      (Spec.closePayload code reason)))
       = Some (b1, (noFrame, [],
                    Some (CloseErr {| Code := code; Text := reason |})))
    /\ sent b1
       = sent b ++ Spec.frame true CloseMessage (next_key b)
                     (Spec.closePayload code reason)
    /\ ReadMessage (S fuel)
         (set_br a1 (Spec.frame true CloseMessage (next_key b)
                       (Spec.closePayload code reason)))
       = Some (a2, (noFrame, [],
                    Some (CloseErr {| Code := code; Text := reason |})))
    /\ sent a2
       = sent a1 ++ Spec.frame true CloseMessage (next_key a1)
                      (Spec.closePayload code reason).
Proof.
  intros Hrole Hw Hacc Hlen Hfuel Henta Hentb.
  destruct (acceptedOnReceipt_range code Hacc) as [Hr Hne].
  destruct (closePayload_code code reason Hr) as (_ & _ & _ & P4).
  destruct (Z.eqb_spec code CloseNoStatusReceived); [congruence|].
  rewrite P4.
  rewrite WriteMessage_single by (auto; unfold CloseMessage; lia).
  unfold ReadMessage.
  unfold next_key.
  destruct (isServer a) eqn:Sa; cbn [negb] in Hrole.
  - (* the server starts *)
    specialize (Hentb Hrole). rewrite Hrole.
    destruct (entropy b (drawn b)) as [mb|] eqn:Eb; [|congruence].
    eexists _, _, _. split; [reflexivity|].
    split; [reflexivity|].
    rewrite readFrames_control_last by (auto; rewrite Hrole; reflexivity).
    rewrite handleControl_close by auto.
    rewrite WriteControl_frame by auto.
    cbn [isServer set_br]. rewrite Hrole. cbn [entropy drawn set_br].
    rewrite Eb. cbn [fst sent set_br].
    split; [reflexivity|]. split; [reflexivity|].
    rewrite readFrames_control_last by (auto; cbn; rewrite Sa; reflexivity).
    rewrite handleControl_close by auto.
    rewrite WriteControl_frame by auto.
    cbn [isServer set_br set_sent set_writer]. rewrite Sa.
    cbn [fst sent set_br set_sent set_writer isServer]. rewrite ?Sa.
    split; reflexivity.
  - (* the client starts *)
    destruct (Henta eq_refl) as [E1 E2]. rewrite Hrole.
    destruct (entropy a (drawn a)) as [m1|] eqn:Ea1; [|congruence].
    destruct (entropy a (S (drawn a))) as [m2|] eqn:Ea2; [|congruence].
    eexists _, _, _. split; [reflexivity|].
    split; [reflexivity|].
    rewrite readFrames_control_last by (auto; rewrite Hrole; reflexivity).
    rewrite handleControl_close by auto.
    rewrite WriteControl_frame by auto.
    cbn [isServer set_br]. rewrite Hrole.
    cbn [fst sent set_br].
    split; [reflexivity|]. split; [reflexivity|].
    rewrite readFrames_control_last by (auto; cbn; rewrite Sa; reflexivity).
    rewrite handleControl_close by auto.
    rewrite WriteControl_frame by auto.
    cbn [isServer set_br set_sent set_writer set_drawn]. rewrite Sa.
    cbn [entropy drawn set_br set_sent set_writer set_drawn]. rewrite Ea2.
    cbn [fst sent set_br set_sent set_writer set_drawn isServer entropy drawn].
    rewrite ?Sa, ?Ea2.
    split; reflexivity.
Qed.

Lemma close_handshake_witness :
  exists a1 b1 a2,
    WriteMessage (newConn false [] (fixed_mask (1, 2, 3, 4))) CloseMessage
      (FormatCloseMessage 1000 "bye") = Some (a1, None)
    /\ sent a1
       = sent (newConn false [] (fixed_mask (1, 2, 3, 4)))
         ++ Spec.frame true CloseMessage
              (next_key (newConn false [] (fixed_mask (1, 2, 3, 4))))
              (Spec.closePayload 1000 "bye")
    /\ ReadMessage 6
         (set_br (newConn true [] no_mask)
            (Spec.frame true CloseMessage
               (next_key (newConn false [] (fixed_mask (1, 2, 3, 4))))
               (Spec.closePayload 1000 "bye")))
       = Some (b1, (noFrame, [],
                    Some (CloseErr {| Code := 1000; Text := "bye" |})))
    /\ sent b1
       = sent (newConn true [] no_mask)
         ++ Spec.frame true CloseMessage (next_key (newConn true [] no_mask))
              (Spec.closePayload 1000 "bye")
    /\ ReadMessage 6
         (set_br a1 (Spec.frame true CloseMessage
                       (next_key (newConn true [] no_mask))
                       (Spec.closePayload 1000 "bye")))
       = Some (a2, (noFrame, [],
                    Some (CloseErr {| Code := 1000; Text := "bye" |})))
    /\ sent a2
       = sent a1 ++ Spec.frame true CloseMessage (next_key a1)
                      (Spec.closePayload 1000 "bye").
Proof.
  apply (close_handshake (newConn false [] (fixed_mask (1, 2, 3, 4)))
           (newConn true [] no_mask) 1000 "bye" 5).
  - reflexivity.
  - reflexivity.
  - left. cbn. intuition lia.
  - vm_compute. discriminate.
  - vm_compute. lia.
  - intros _. split; discriminate.
  - intros H. discriminate H.
Defined.

(** ** Control messages that are too long *)

(** A frame whose MASK bit is not the one of the peer's role. *)
Lemma readFrames_mask_mismatch (c : Conn) (b0 b1 : Z) (rest msg : list Z)
    (mtype : Z) (first : bool) (fuel : nat) :
  Spec.h_mask (Spec.decode b0 b1) <> isServer c ->
  readFrames (S fuel) (set_br c (b0 :: b1 :: rest)) msg mtype first
  = Some (set_br c rest, (noFrame, [], Some (ErrorString "bad MASK"))).
Proof.
  intros Hmask.
  destruct (decode_matches b0 b1) as (_ & _ & _ & _ & _ & D6 & _).
  cbn [readFrames].
  change (b0 :: b1 :: rest) with ([b0; b1] ++ rest).
  rewrite (read_exact c [b0; b1]) by (unfold len; cbn; lia).
  cbv beta iota zeta. cbn [nth]. rewrite D6. cbn [isServer set_br].
  destruct (Spec.h_mask (Spec.decode b0 b1)), (isServer c);
    try congruence; reflexivity.
Qed.

(** A frame that breaks a rule of the header ends the read with the
    protocol error, whether or not the close frame can be written. *)
Lemma readFrames_violation (c : Conn) (b0 b1 : Z) (rest msg : list Z)
    (mtype : Z) (first : bool) (fuel : nat) :
  Spec.h_mask (Spec.decode b0 b1) = isServer c ->
  Spec.violations (Spec.decode b0 b1) (negb first) <> [] ->
  exists c',
    readFrames (S fuel) (set_br c (b0 :: b1 :: rest)) msg mtype first
    = Some (c', (noFrame, [],
                 Some (ErrorString
                         ("websocket: " +:+
                          String.concat ","
                            (Spec.violations (Spec.decode b0 b1) (negb first)))))).
Proof.
  intros Hmask Hviol.
  destruct (decode_matches b0 b1) as (D1 & D2 & D3 & D4 & D5 & D6 & D7).
  cbn [readFrames].
  change (b0 :: b1 :: rest) with ([b0; b1] ++ rest).
  rewrite (read_exact c [b0; b1]) by (unfold len; cbn; lia).
  cbv beta iota zeta. cbn [nth].
  rewrite D1, D2, D3, D4, D5, D6, D7.
  cbn [isServer set_br]. rewrite Hmask, eqb_reflx. cbn [negb].
  assert (Hop : 0 <= Spec.h_opcode (Spec.decode b0 b1) < 16)
    by (cbn; apply Z.mod_pos_bound; lia).
  assert (Hl7 : 0 <= Spec.h_len7 (Spec.decode b0 b1) < 128)
    by (cbn; apply Z.mod_pos_bound; lia).
  destruct (frameErrors_violations
              (Spec.h_rsv1 (Spec.decode b0 b1)) (Spec.h_rsv2 (Spec.decode b0 b1))
              (Spec.h_rsv3 (Spec.decode b0 b1)) (Spec.h_fin (Spec.decode b0 b1))
              first (Spec.h_mask (Spec.decode b0 b1))
              _ _ mtype Hop Hl7) as [Herrs Hfit].
  rewrite <- decode_eta in Herrs, Hfit.
  destruct (frameErrors _ _ _ _ _ _ _ _) as [mt' errs]. cbn [snd] in Herrs. subst errs.
  assert ((0 <? len (Spec.violations (Spec.decode b0 b1) (negb first))) = true) as ->.
  { apply Z.ltb_lt. unfold len.
    destruct (Spec.violations _ _); [congruence | cbn; lia]. }
  unfold handleProtocolError.
  destruct (WriteMessage_returns (set_br c rest) CloseMessage
              (FormatCloseMessage CloseProtocolError
                 (String.concat ","
                    (Spec.violations (Spec.decode b0 b1) (negb first)))))
    as (c' & e & HW); [unfold CloseMessage; lia | lia |].
  rewrite HW. eauto.
Qed.

Lemma testbit7_byte (n : Z) :
  0 <= n < 256 -> Z.testbit n 7 = (128 <=? n).
Proof.
  intros Hn.
  destruct (Z.leb_spec 128 n).
  - apply Z.testbit_true; [lia|].
    replace (n / 2 ^ 7) with 1; [reflexivity|].
    apply Z.div_unique with (r := n - 128); lia.
  - apply Z.bits_above_log2; [lia|].
    destruct (Z.eq_dec n 0) as [-> | Hz]; [cbn; lia|].
    apply Z.log2_lt_pow2; lia.
Qed.

(** X21: [WriteControl] does not check the length of the payload.  On a
    server, a control message of 126 to 255 bytes is sent without an error,
    its length byte written as it is: with 126 or 127 bytes the peer's
    [ReadMessage] ends with the protocol error "len > 125 for control",
    with 128 bytes or more the length byte reads as a set MASK bit and the
    peer ends with "bad MASK". *)
Theorem WriteControl_oversize (c peer : Conn) (mt : Z) (msg rest : list Z)
    (fuel : nat) :
  isControl mt = true ->
  isServer c = true ->
  isServer peer = false ->
  125 < len msg < 256 ->
  exists c' wire peer',
    WriteControl c mt msg = (c', None)
    /\ sent c' = sent c ++ wire
    /\ ReadMessage (S fuel) (set_br peer (wire ++ rest))
       = Some (peer', (noFrame, [],
                       Some (ErrorString
                               (if len msg <? 128
                                then "websocket: len > 125 for control"
                                else "bad MASK")))).
Proof.
  intros Hop Hsrv Hpeer Hlen.
  unfold WriteControl. rewrite Hop, Hsrv. cbn [negb].
  assert (Hmt : mt = 8 \/ mt = 9 \/ mt = 10).
  { unfold isControl, CloseMessage, PongMessage in Hop.
    apply andb_true_iff in Hop as [H1 H2]. apply Z.leb_le in H1, H2. lia. }
  unfold to_byte. rewrite (Z.mod_small (len msg)) by lia.
  unfold ReadMessage.
  destruct (Z.ltb_spec (len msg) 128) as [Hs | Hb].
  - destruct (readFrames_violation peer (Z.lor finBit (mt mod 256)) (len msg)
                (msg ++ rest) [] noFrame true fuel) as (peer' & HR).
    + rewrite Hpeer. cbn [Spec.decode Spec.h_mask].
      rewrite testbit7_byte by lia. apply Z.leb_gt. lia.
    + assert (len msg = 126 \/ len msg = 127) as [-> | ->] by lia;
        destruct Hmt as [-> | [-> | ->]]; vm_compute; discriminate.
    + eexists _, _, peer'. split; [reflexivity|].
      cbn [sent set_sent]. split; [reflexivity|].
      cbn [app]. rewrite HR. do 4 f_equal.
      assert (len msg = 126 \/ len msg = 127) as [-> | ->] by lia;
        destruct Hmt as [-> | [-> | ->]]; vm_compute; reflexivity.
  - eexists _, _, _. split; [reflexivity|].
    cbn [sent set_sent]. split; [reflexivity|].
    cbn [app]. apply readFrames_mask_mismatch.
    rewrite Hpeer. cbn [Spec.decode Spec.h_mask].
    rewrite testbit7_byte by lia.
    destruct (Z.leb_spec 128 (len msg)); [discriminate | lia].
Qed.

Lemma WriteControl_oversize_witness :
  exists c' wire peer',
    WriteControl (newConn true [] no_mask) PingMessage (repeat 65 126)
    = (c', None)
    /\ sent c' = sent (newConn true [] no_mask) ++ wire
    /\ ReadMessage 1
         (set_br (newConn false [] (fixed_mask (1, 2, 3, 4))) (wire ++ []))
       = Some (peer', (noFrame, [],
                       Some (ErrorString
                               (if len (repeat 65 126) <? 128
                                then "websocket: len > 125 for control"
                                else "bad MASK")))).
Proof.
  apply (WriteControl_oversize (newConn true [] no_mask)
           (newConn false [] (fixed_mask (1, 2, 3, 4))) PingMessage
           (repeat 65 126) [] 0).
  - reflexivity.
  - reflexivity.
  - reflexivity.
  - vm_compute. split; reflexivity.
Defined.

(** ** The keys of the handshake *)

Lemma sha1_Sum_length (msg : list Z) : length (sha1.Sum msg) = 20%nat.
Proof.
  unfold sha1.Sum.
  destruct (sha1.blocks _ _ _) as [[[[a b] c] d] e].
  rewrite !length_app. unfold BigEndian.PutUint32.
  rewrite !be_bytes_length. reflexivity.
Qed.

Lemma base64_encode_length (n : nat) :
  forall src : list Z,
    (length src <= n)%nat ->
    String.length (base64.encode src) = (4 * ((length src + 2) / 3))%nat.
Proof.
  induction n as [n IH] using lt_wf_ind. intros src Hn.
  destruct src as [|a [|b [|c rest]]]; try reflexivity.
  cbn [base64.encode String.length length].
  rewrite (IH (length rest)) by (cbn [length] in Hn; lia).
  replace (S (S (S (length rest))) + 2)%nat with (length rest + 2 + 1 * 3)%nat
    by lia.
  rewrite Nat.div_add by lia. lia.
Qed.

(** X22: the challenge key made from 16 random bytes has 24 characters,
    and the accept key of any challenge key has 28. *)
Theorem handshake_key_lengths (env : DialEnv) (p : list Z) (challengeKey : string) :
  challenge_bytes env = inl p ->
  length p = 16%nat ->
  (exists key, generateChallengeKey env = inl key /\ String.length key = 24%nat)
  /\ String.length (computeAcceptKey challengeKey) = 28%nat.
Proof.
  intros Hp Hl. split.
  - unfold generateChallengeKey. rewrite Hp. eexists. split; [reflexivity|].
    unfold base64.EncodeToString.
    rewrite (base64_encode_length (length p)) by lia. rewrite Hl. reflexivity.
  - unfold computeAcceptKey, sha1.SumNil, base64.EncodeToString.
    rewrite (base64_encode_length 20) by (rewrite sha1_Sum_length; lia).
    rewrite sha1_Sum_length. reflexivity.
Qed.

Lemma handshake_key_lengths_witness :
  (exists key, generateChallengeKey plain_env = inl key
               /\ String.length key = 24%nat)
  /\ String.length (computeAcceptKey "dGhlIHNhbXBsZSBub25jZQ==") = 28%nat.
Proof.
  apply (handshake_key_lengths plain_env (repeat 7 16) "dGhlIHNhbXBsZSBub25jZQ==").
  - reflexivity.
  - reflexivity.
Defined.

(** ** The echo servers of the examples *)

Lemma message_frames_ext (k1 k2 : nat -> option Mask) (fuel : nat) :
  (forall i, k1 i = k2 i) ->
  forall (op : Z) (i : nat) (p : list Z),
    message_frames fuel op k1 i p = message_frames fuel op k2 i p.
Proof.
  intros Hk. induction fuel as [|fuel IH]; intros op i p; cbn [message_frames].
  - now rewrite Hk.
  - rewrite Hk, IH. reflexivity.
Qed.

(** [WriteMessage] of a data message on a connection with no open writer:
    what it does to the connection, and that the peer reads the message
    back from what was sent, whatever follows it. *)
Lemma WriteMessage_any (c : Conn) (o : Z) (p : list Z) :
  writer c = false ->
  o = TextMessage \/ o = BinaryMessage ->
  (isServer c = false -> forall i, entropy c i <> None) ->
  exists c',
    WriteMessage c o p = Some (c', None)
    /\ sent c' = sent c ++ message_frames (length p) o (keys_from c) 0 p
    /\ writer c' = false /\ isServer c' = isServer c /\ br c' = br c
    /\ entropy c' = entropy c /\ closed c' = closed c
    /\ forall (r : Conn) (rest : list Z) (fuel : nat),
        isServer r = negb (isServer c) ->
        (length (message_frames (length p) o (keys_from c) 0 p) + length rest
         < fuel)%nat ->
        ReadMessage fuel
          (set_br r (message_frames (length p) o (keys_from c) 0 p ++ rest))
        = Some (set_br r rest, (o, p, None)).
Proof.
  intros Hw Ho Hent.
  assert (Hop : 0 <= o < 16)
    by (destruct Ho as [-> | ->]; unfold TextMessage, BinaryMessage; lia).
  unfold WriteMessage, NextWriter. rewrite Hw. cbv beta iota zeta.
  destruct (msgWriter_Write_any
              (mkMsgWriter (bufio.NewWriterSize (maxHeaderSize + defaultWriterSize))
                           false o 0)
              (set_writer c true) p)
    as (X & b1 & out1 & d1 & HW1 & Hsz1 & HE1 & HR1);
    [reflexivity | reflexivity | exact Ho | exact Hent |].
  cbn [mt] in HW1, HR1.
  assert (HX : X = message_frames (length p) o (keys_from c) 0 p).
  { unfold msgWriter_Write in HW1. cbv zeta in HW1.
    destruct (Write_loop_layout (keys_from c) (length p) p (S (length p))
                (set_ft (mkMsgWriter
                           (bufio.NewWriterSize (maxHeaderSize + defaultWriterSize))
                           false o 0) o)
                (set_writer c true) 0%nat)
      as (b2 & out2 & d2 & HW2 & HE2).
    { lia. } { lia. }
    { split; [reflexivity | left; reflexivity]. }
    { reflexivity. }
    { exact Hop. }
    { intros j _. unfold keys_from. cbn [isServer set_writer entropy drawn].
      rewrite Nat.sub_0_r. reflexivity. }
    { exact Hent. }
    cbn [mt] in HW1. rewrite HW2 in HW1.
    destruct c as [srv inp out wr cl ent dr].
    unfold set_fin, set_sent, set_drawn, set_writer in HW1. cbn in HW1.
    inversion HW1; subst b2 out2. rewrite HE1 in HE2.
    cbn [ft set_ft] in HE2.
    apply app_inv_head in HE2. exact HE2. }
  subst X. rewrite HW1.
  unfold msgWriter_Close, bufio.Flush.
  cbn [bw sent set_sent set_writer set_drawn].
  eexists. split; [reflexivity|].
  cbn [sent set_sent set_writer set_drawn writer isServer br entropy closed].
  split.
  { rewrite HE1. unfold emitted. cbn. now rewrite app_nil_r. }
  repeat (split; [reflexivity|]).
  intros r rest fuel Hr Hf. apply HR1; [exact Hr | exact Hf].
Qed.

Lemma data_not_control (skip : bool) (o : Z) :
  o = TextMessage \/ o = BinaryMessage ->
  skip && ((CloseMessage <=? o) && (o <=? PongMessage)) = false.
Proof. intros [-> | ->]; destruct skip; reflexivity. Qed.

(** A client writes messages, the echo loop takes them from its input:
    after as many turns as there are messages it has written the frames
    of the same messages, and goes on with the rest of the input. *)
Lemma echo_rounds (skip : bool) (ms : list (Z * list Z)) :
  forall a : Conn,
    isServer a = false -> writer a = false ->
    (forall i, entropy a i <> None) ->
    Forall is_data_message ms ->
    exists a1 wire,
      write_all a ms = Some a1
      /\ sent a1 = sent a ++ wire
      /\ isServer a1 = false /\ writer a1 = false
      /\ entropy a1 = entropy a
      /\ forall (s : Conn) (rest : list Z) (k fuel : nat),
          isServer s = true -> writer s = false ->
          (length wire + length rest < fuel)%nat ->
          exists s1,
            echo_loop skip (length ms + k) fuel (set_br s (wire ++ rest))
            = echo_loop skip k fuel s1
            /\ br s1 = rest /\ sent s1 = sent s ++ server_frames ms
            /\ isServer s1 = true /\ writer s1 = false
            /\ closed s1 = closed s.
Proof.
  induction ms as [|[o p] ms IH]; intros a Ha Hwa Hent Hall.
  - exists a, []. cbn [write_all length Nat.add app server_frames flat_map].
    rewrite !app_nil_r.
    split; [reflexivity|]. split; [reflexivity|]. split; [exact Ha|].
    split; [exact Hwa|]. split; [reflexivity|].
    intros s rest k fuel Hs Hws _. exists (set_br s rest).
    rewrite app_nil_r. destruct s; cbn in *. auto 10.
  - inversion Hall as [|m ms' Hm Hall']; subst. unfold is_data_message in Hm.
    cbn [fst] in Hm.
    destruct (WriteMessage_any a o p Hwa Hm (fun _ => Hent))
      as (a0 & HWa & Hsa & Hwa0 & Hia0 & Hba0 & Hea0 & _ & HRa).
    rewrite Ha in Hia0.
    destruct (IH a0 Hia0 Hwa0) as (a1 & wire & HWall & Hs1 & Hi1 & Hw1 & He1 & Hloop);
      [rewrite Hea0; exact Hent | exact Hall' |].
    set (X := message_frames (length p) o (keys_from a) 0 p) in *.
    exists a1, (X ++ wire). cbn [write_all]. rewrite HWa.
    split; [exact HWall|].
    split; [rewrite Hs1, Hsa, <- app_assoc; reflexivity|].
    split; [exact Hi1|]. split; [exact Hw1|].
    split; [congruence|].
    intros s rest k fuel Hs Hws Hf. rewrite length_app in Hf.
    cbn [length Nat.add echo_loop].
    rewrite <- app_assoc.
    rewrite (HRa s (wire ++ rest) fuel)
      by (rewrite ?length_app, ?Hs, ?Ha; (reflexivity || lia)).
    rewrite (data_not_control skip o Hm).
    destruct (WriteMessage_any (set_br s (wire ++ rest)) o p)
      as (s0 & HWs & Hss & Hws0 & His0 & Hbs0 & _ & Hcs0 & _);
      [exact Hws | exact Hm | cbn [isServer set_br]; rewrite Hs; discriminate |].
    rewrite HWs.
    cbn [isServer set_br sent br closed] in His0, Hss, Hbs0, Hcs0.
    destruct (Hloop s0 rest k fuel) as (s1 & HE & Hb1 & Hse1 & Hsi1 & Hsw1 & Hc1);
      [congruence | exact Hws0 | lia |].
    rewrite <- Hbs0, set_br_eta in HE.
    exists s1. split; [exact HE|]. split; [exact Hb1|].
    split.
    { rewrite Hse1, Hss. cbn [server_frames flat_map fst snd].
      rewrite <- app_assoc. do 2 f_equal.
      apply message_frames_ext. intros i. unfold keys_from.
      cbn [isServer set_br]. now rewrite Hs. }
    split; [exact Hsi1|]. split; [exact Hsw1|]. congruence.
Qed.

(** What a server has written for messages is read as these messages. *)
Lemma read_all_server_frames (ms : list (Z * list Z)) :
  forall (r : Conn) (rest : list Z) (fuel : nat),
    Forall is_data_message ms ->
    isServer r = false ->
    (length (server_frames ms) + length rest < fuel)%nat ->
    read_all fuel (length ms) (set_br r (server_frames ms ++ rest))
    = Some (set_br r rest, ms).
Proof.
  induction ms as [|[o p] ms IH]; intros r rest fuel Hall Hr Hf.
  - reflexivity.
  - inversion Hall as [|m ms' Hm Hall']; subst. unfold is_data_message in Hm.
    cbn [fst] in Hm.
    cbn [server_frames flat_map fst snd length read_all] in *.
    fold (server_frames ms) in *.
    rewrite length_app in Hf. rewrite <- app_assoc.
    destruct (WriteMessage_any (newConn true [] no_mask) o p)
      as (c' & _ & _ & _ & _ & _ & _ & _ & HR);
      [reflexivity | exact Hm | intros H; discriminate H |].
    change (keys_from (newConn true [] no_mask)) with (fun _ : nat => @None Mask) in HR.
    rewrite (HR r (server_frames ms ++ rest) fuel)
      by (rewrite ?length_app, ?Hr; (reflexivity || lia)).
    pose proof (IH (set_br r (server_frames ms ++ rest)) rest fuel Hall') as IH'.
    rewrite set_br_set_br in IH'.
    rewrite IH' by (cbn [isServer set_br]; (exact Hr || lia)).
    rewrite set_br_set_br. reflexivity.
Qed.

(** X23: a session with the echo server of the examples.  A client
    writes data messages and then a close message with the code 1000.  Run
    on these bytes, the loop of the handler writes the same messages back
    in order (as unmasked frames of at most 1030 payload bytes), answers
    the close with a close frame of code 1000, ends with the close error,
    and the connection is closed; the frames it wrote for the messages are
    read as these messages.  This holds with and without the test of the
    second variant of the server. *)
Theorem echo_session (skip : bool) (ms : list (Z * list Z)) (a s : Conn) :
  isServer a = false -> writer a = false ->
  (forall i, entropy a i <> None) ->
  isServer s = true -> writer s = false ->
  Forall is_data_message ms ->
  exists a1 a2 wire,
    write_all a ms = Some a1
    /\ WriteMessage a1 CloseMessage (FormatCloseMessage CloseNormalClosure "")
       = Some (a2, None)
    /\ sent a2 = sent a ++ wire
    /\ (forall rounds fuel : nat,
          (length ms < rounds)%nat -> (length wire < fuel)%nat ->
          exists s',
            echo_serve skip rounds fuel (set_br s wire) = Some s'
            /\ sent s'
               = sent s ++ server_frames ms
                 ++ Spec.frame true CloseMessage None
                      (Spec.closePayload CloseNormalClosure "")
            /\ br s' = [] /\ closed s' = true)
    /\ (forall (r : Conn) (rest : list Z) (fuel : nat),
          isServer r = false ->
          (length (server_frames ms) + length rest < fuel)%nat ->
          read_all fuel (length ms) (set_br r (server_frames ms ++ rest))
          = Some (set_br r rest, ms)).
Proof.
  intros Ha Hwa Hent Hs Hws Hall.
  destruct (echo_rounds skip ms a Ha Hwa Hent Hall)
    as (a1 & wire & HWall & Hs1 & Hi1 & Hw1 & He1 & Hloop).
  assert (Hk : entropy a1 (drawn a1) <> None) by (rewrite He1; apply Hent).
  destruct (entropy a1 (drawn a1)) as [[[[m1 m2] m3] m4]|] eqn:Em; [|congruence].
  set (m := (m1, m2, m3, m4)) in *.
  pose proof (WriteMessage_single a1 CloseMessage
                (FormatCloseMessage CloseNormalClosure "") Hw1) as HWc.
  rewrite Hi1, Em in HWc.
  specialize (HWc ltac:(unfold CloseMessage; lia) ltac:(vm_compute; discriminate)).
  change (FormatCloseMessage CloseNormalClosure "")
    with (Spec.closePayload CloseNormalClosure "") in *.
  set (cl := Spec.frame true CloseMessage (Some m)
               (Spec.closePayload CloseNormalClosure "")) in *.
  eexists a1, _, (wire ++ cl).
  split; [exact HWall|]. split; [exact HWc|].
  split; [cbn [sent set_sent]; rewrite Hs1, <- app_assoc; reflexivity|].
  split; [|intros r rest fuel Hr Hf; now apply read_all_server_frames].
  intros rounds fuel Hrounds Hfuel. rewrite length_app in Hfuel.
  destruct (Hloop s cl (rounds - length ms)%nat fuel Hs Hws Hfuel)
    as (s1 & HE & Hb1 & Hse1 & Hsi1 & Hsw1 & Hc1).
  replace (length ms + (rounds - length ms))%nat with rounds in HE by lia.
  unfold echo_serve. rewrite HE.
  destruct (rounds - length ms)%nat as [|k] eqn:Ek; [lia|].
  cbn [echo_loop]. unfold ReadMessage.
  rewrite <- (set_br_eta s1), Hb1.
  destruct fuel as [|fuel]; [lia|].
  subst cl.
  rewrite readFrames_control_last;
    [| reflexivity | rewrite Hsi1; reflexivity | vm_compute; discriminate
     | change (length (Spec.closePayload CloseNormalClosure "")) with 2%nat;
       subst m;
       change (length (Spec.frame true CloseMessage (Some (m1, m2, m3, m4))
                         (Spec.closePayload CloseNormalClosure ""))) with 8%nat in Hfuel;
       lia ].
  rewrite handleControl_close;
    [| unfold CloseNormalClosure; left; cbn; intuition lia
     | vm_compute; discriminate].
  rewrite WriteControl_frame by (reflexivity || (vm_compute; discriminate)).
  cbn [isServer set_br]. rewrite Hsi1. cbn [fst option_map].
  eexists. split; [reflexivity|].
  cbn [sent set_sent set_br Conn_Close set_closed br closed].
  rewrite Hse1, <- app_assoc. auto.
Qed.

Lemma echo_session_witness :
  exists a1 a2 wire,
    write_all (newConn false [] (fixed_mask (1, 2, 3, 4)))
      one_message = Some a1
    /\ WriteMessage a1 CloseMessage (FormatCloseMessage CloseNormalClosure "")
       = Some (a2, None)
    /\ sent a2 = sent (newConn false [] (fixed_mask (1, 2, 3, 4))) ++ wire
    /\ (forall rounds fuel : nat,
          (length one_message < rounds)%nat ->
          (length wire < fuel)%nat ->
          exists s',
            echo_serve false rounds fuel (set_br (newConn true [] no_mask) wire)
            = Some s'
            /\ sent s'
               = sent (newConn true [] no_mask)
                 ++ server_frames one_message
                 ++ Spec.frame true CloseMessage None
                      (Spec.closePayload CloseNormalClosure "")
            /\ br s' = [] /\ closed s' = true)
    /\ (forall (r : Conn) (rest : list Z) (fuel : nat),
          isServer r = false ->
          (length (server_frames one_message) + length rest
           < fuel)%nat ->
          read_all fuel (length one_message)
            (set_br r (server_frames one_message ++ rest))
          = Some (set_br r rest, one_message)).
Proof.
  apply (echo_session false one_message
           (newConn false [] (fixed_mask (1, 2, 3, 4)))
           (newConn true [] no_mask)).
  - reflexivity.
  - reflexivity.
  - intros i. discriminate.
  - reflexivity.
  - reflexivity.
  - constructor; [left; reflexivity | constructor].
Defined.

(** X24: the test of the second echo server, which skips a message
    whose type is a control opcode, never fires: [ReadMessage] returns text
    and binary messages only.  The two servers behave the same on every
    input. *)
Theorem echo_control_filter_is_dead (rounds fuel : nat) (c : Conn) :
  echo_loop true rounds fuel c = echo_loop false rounds fuel c.
Proof.
  revert c. induction rounds as [|rounds IH]; intros c; [reflexivity|].
  cbn [echo_loop].
  destruct (ReadMessage fuel c) as [[c' [[rt rmsg] [err|]]]|] eqn:E;
    try reflexivity.
  unfold ReadMessage in E.
  assert (Hst : loop_state noFrame true)
    by (split; [left; reflexivity | discriminate]).
  pose proof (readFrames_result fuel c [] noFrame true c' rt rmsg None Hst E)
    as Hshape.
  cbn iota in Hshape.
  rewrite (data_not_control true rt Hshape), (data_not_control false rt Hshape).
  destruct (WriteMessage c' rt rmsg) as [[c'' [e|]]|]; try reflexivity.
  apply IH.
Qed.

(** ** Masking in place *)

(** The write methods with the caller's slice do what the write methods
    do. *)
Lemma writeFrame_mut_fst (w : msgWriter) (c : Conn) (payload : list Z) :
  fst (writeFrame_mut w c payload) = writeFrame w c payload.
Proof.
  unfold writeFrame_mut, writeFrame.
  repeat match goal with
         | |- context [let '(_, _) := ?x in _] => destruct x
         | |- context [match ?x with (_, _) => _ end] => destruct x
         | |- context [if ?b then _ else _] => destruct b
         | |- context [match ?x with inl _ => _ | inr _ => _ end] => destruct x
         end; reflexivity.
Qed.

Lemma bw_WriteByte_conn (b : Z) (w : msgWriter) (c : Conn) :
  isServer (snd (bw_WriteByte b w c)) = isServer c
  /\ entropy (snd (bw_WriteByte b w c)) = entropy c
  /\ drawn (snd (bw_WriteByte b w c)) = drawn c.
Proof.
  unfold bw_WriteByte. destruct (bufio.WriteByte _ _ _). cbn. auto.
Qed.

Lemma bw_Write_conn (p : list Z) (w : msgWriter) (c : Conn) :
  isServer (snd (bw_Write p w c)) = isServer c
  /\ entropy (snd (bw_Write p w c)) = entropy c
  /\ drawn (snd (bw_Write p w c)) = drawn c.
Proof.
  unfold bw_Write. destruct (bufio.Write _ _ _). cbn. auto.
Qed.

(** The slice after [writeFrame]: masked with the key drawn on a client,
    as it was on a server or when no key could be drawn. *)
Lemma writeFrame_mut_slice (w : msgWriter) (c : Conn) (payload : list Z) :
  snd (writeFrame_mut w c payload)
  = if isServer c then payload
    else match entropy c (drawn c) with
         | Some m => xor_mask m payload
         | None => payload
         end.
Proof.
  unfold writeFrame_mut.
  set (b0 := if fin w then _ else _).
  pose proof (bw_WriteByte_conn b0 w c) as (I1 & E1 & D1).
  destruct (bw_WriteByte b0 w c) as [w1 c1]. cbn [snd] in I1, E1, D1.
  match goal with
  | |- context [let '(w, c) := ?x in if negb (isServer c) then _ else _] =>
      assert (H2 : isServer (snd x) = isServer c1
                   /\ entropy (snd x) = entropy c1
                   /\ drawn (snd x) = drawn c1);
      [| destruct x as [w2 c2] ]
  end.
  { destruct (65536 <=? len payload); [|destruct (125 <? len payload)].
    - match goal with |- context [bw_WriteByte ?b w1 c1] =>
        pose proof (bw_WriteByte_conn b w1 c1) as (I & E & D);
        destruct (bw_WriteByte b w1 c1) as [w' c'] end.
      cbn [snd] in I, E, D.
      match goal with |- context [bw_Write ?q w' c'] =>
        pose proof (bw_Write_conn q w' c') as (I' & E' & D') end.
      rewrite I', E', D'. auto.
    - match goal with |- context [bw_WriteByte ?b w1 c1] =>
        pose proof (bw_WriteByte_conn b w1 c1) as (I & E & D);
        destruct (bw_WriteByte b w1 c1) as [w' c'] end.
      cbn [snd] in I, E, D.
      match goal with |- context [bw_Write ?q w' c'] =>
        pose proof (bw_Write_conn q w' c') as (I' & E' & D') end.
      rewrite I', E', D'. auto.
    - apply bw_WriteByte_conn. }
  cbn [snd] in H2. destruct H2 as (I2 & E2 & D2).
  rewrite I2, I1. unfold generateMask. rewrite E2, D2, E1, D1.
  destruct (isServer c); cbn [negb].
  - destruct (bw_Write payload w2 c2). reflexivity.
  - destruct (entropy c (drawn c)) as [m|]; [|reflexivity].
    destruct (bw_Write (mask_bytes m) w2 _) as [w3 c3].
    destruct (bw_Write (xor_mask m payload) w3 c3). reflexivity.
Qed.

Lemma Write_loop_mut_fst (fuel : nat) :
  forall (w : msgWriter) (c : Conn) (p : list Z),
    option_map fst (Write_loop_mut fuel w c p) = Write_loop fuel w c p.
Proof.
  induction fuel as [|fuel IH]; intros w c p; [reflexivity|].
  cbn [Write_loop_mut Write_loop].
  destruct (ncopy w c (len p)) as [[w1 c1] n].
  rewrite <- writeFrame_mut_fst.
  destruct (writeFrame_mut w1 c1 (firstn (Z.to_nat n) p)) as [[[w2 c2] [e|]] q];
    cbn [fst option_map]; [reflexivity|].
  destruct (len (skipn (Z.to_nat n) p) =? 0); [reflexivity|].
  rewrite <- IH.
  destruct (Write_loop_mut fuel (set_ft w2 ContMessage) c2 (skipn (Z.to_nat n) p))
    as [[[[w3 c3] e3] q3]|]; reflexivity.
Qed.

Lemma WriteMessage_mut_fst (c : Conn) (op : Z) (msg : list Z) :
  option_map fst (WriteMessage_mut c op msg) = WriteMessage c op msg.
Proof.
  unfold WriteMessage_mut, WriteMessage, msgWriter_Write_mut, msgWriter_Write.
  destruct (NextWriter c op) as [c0 [w0|e0]]; [|reflexivity].
  cbv zeta. rewrite <- Write_loop_mut_fst.
  destruct (Write_loop_mut (S (length msg)) (set_ft w0 (mt w0)) c0 msg)
    as [[[[w1 c1] [e1|]] q1]|]; try reflexivity.
Qed.

(** X25: on a client, [WriteMessage] masks the caller's slice in place.
    After a message of at most 1030 bytes has been written, the slice holds
    the masked bytes (the payload as it is on the wire), not the message;
    the peer has read the message, but writing the same slice again makes
    the peer read the masked bytes. *)
Theorem WriteMessage_masks_in_place (c r : Conn) (o : Z) (p : list Z) (m : Mask) :
  isServer c = false -> writer c = false ->
  (forall i, entropy c i <> None) ->
  entropy c (drawn c) = Some m ->
  o = TextMessage \/ o = BinaryMessage ->
  len p <= 1030 ->
  isServer r = true ->
  exists c1 c2 X1 X2,
    WriteMessage_mut c o p = Some (c1, None, xor_mask m p)
    /\ WriteMessage c o p = Some (c1, None)
    /\ WriteMessage c1 o (xor_mask m p) = Some (c2, None)
    /\ sent c2 = sent c ++ X1 ++ X2
    /\ forall fuel : nat,
        (length X1 + length X2 < fuel)%nat ->
        ReadMessage fuel (set_br r (X1 ++ X2))
        = Some (set_br r X2, (o, p, None))
        /\ ReadMessage fuel (set_br r X2)
           = Some (set_br r [], (o, xor_mask m p, None)).
Proof.
  intros Hc Hw Hent Hm Ho Hlen Hr.
  assert (Hop : 0 <= o < 16)
    by (destruct Ho as [-> | ->]; unfold TextMessage, BinaryMessage; lia).
  destruct (WriteMessage_any c o p Hw Ho (fun _ => Hent))
    as (c1 & HW1 & Hs1 & Hw1 & Hi1 & _ & He1 & _ & HR1).
  destruct (WriteMessage_any c1 o (xor_mask m p) Hw1 Ho)
    as (c2 & HW2 & Hs2 & _ & _ & _ & _ & _ & HR2);
    [intros _; rewrite He1; exact Hent|].
  exists c1, c2. eexists _, _.
  split.
  { pose proof (WriteMessage_mut_fst c o p) as HF. rewrite HW1 in HF.
    destruct (WriteMessage_mut c o p) as [[[c1' e1'] q]|] eqn:EM; [|discriminate].
    cbn [option_map fst] in HF. injection HF as -> ->.
    do 2 f_equal.
    (* the content of the slice *)
    unfold WriteMessage_mut, NextWriter in EM. rewrite Hw in EM.
    cbv beta iota zeta in EM. unfold msgWriter_Write_mut in EM.
    cbn [Write_loop_mut] in EM.
    rewrite ncopy_ready in EM by (split; [reflexivity | left; reflexivity]).
    rewrite Z.min_l in EM by lia.
    replace (Z.to_nat (len p)) with (length p) in EM by (unfold len; lia).
    rewrite firstn_all, skipn_all in EM.
    match type of EM with
    | context [writeFrame_mut ?w0 ?c0 p] =>
        pose proof (writeFrame_mut_slice w0 c0 p) as HS;
        pose proof (writeFrame_mut_fst w0 c0 p) as HF;
        destruct (writeFrame_mut w0 c0 p) as [[[w2 c2'] e2] q2]
    end.
    cbn [snd fst isServer set_sent set_writer entropy drawn] in HS, HF.
    rewrite Hc, Hm in HS. subst q2.
    rewrite writeFrame_fresh in HF by (cbn; auto; lia).
    cbn [isServer set_sent set_writer entropy drawn] in HF.
    rewrite Hc, Hm in HF. injection HF as _ _ ->.
    change (len [] =? 0) with true in EM. cbv iota in EM.
    destruct (msgWriter_Close _ _) in EM.
    injection EM as _ <-. now rewrite app_nil_r. }
  split; [exact HW1|]. split; [exact HW2|].
  split; [rewrite Hs2, Hs1, <- app_assoc; reflexivity|].
  intros fuel Hf. split.
  - apply HR1; [rewrite Hr, Hc; reflexivity | exact Hf].
  - rewrite <- (app_nil_r (message_frames _ _ (keys_from c1) _ _)).
    apply HR2; [rewrite Hr, Hi1, Hc; reflexivity | cbn [length]; lia].
Qed.

Lemma WriteMessage_masks_in_place_witness :
  exists c1 c2 X1 X2,
    WriteMessage_mut (newConn false [] (fixed_mask (1, 2, 3, 4))) TextMessage
      [104; 105]
    = Some (c1, None, xor_mask (1, 2, 3, 4) [104; 105])
    /\ WriteMessage (newConn false [] (fixed_mask (1, 2, 3, 4))) TextMessage
         [104; 105]
       = Some (c1, None)
    /\ WriteMessage c1 TextMessage (xor_mask (1, 2, 3, 4) [104; 105])
       = Some (c2, None)
    /\ sent c2 = sent (newConn false [] (fixed_mask (1, 2, 3, 4))) ++ X1 ++ X2
    /\ forall fuel : nat,
        (length X1 + length X2 < fuel)%nat ->
        ReadMessage fuel (set_br (newConn true [] no_mask) (X1 ++ X2))
        = Some (set_br (newConn true [] no_mask) X2,
                (TextMessage, [104; 105], None))
        /\ ReadMessage fuel (set_br (newConn true [] no_mask) X2)
           = Some (set_br (newConn true [] no_mask) [],
                   (TextMessage, xor_mask (1, 2, 3, 4) [104; 105], None)).
Proof.
  apply (WriteMessage_masks_in_place (newConn false [] (fixed_mask (1, 2, 3, 4)))
           (newConn true [] no_mask) TextMessage [104; 105] (1, 2, 3, 4)).
  - reflexivity.
  - reflexivity.
  - intros i. discriminate.
  - reflexivity.
  - left. reflexivity.
  - vm_compute. discriminate.
  - reflexivity.
Defined.
